(** * Training loop of [neural_network_lyapunov/train_lyapunov.py]

    A shallow embedding of [TrainLyapunovReLU]: [total_loss], [train],
    [train_with_line_search] and [train_lyapunov_on_samples], and of
    [TrainValueApproximator]: [train_with_cost_to_go] and [train], together
    with the properties of the training/verification loop.

    Conventions of the embedding.
    - Python floats and zero-dimensional torch scalars are exact rationals
      ([Q]); [np.inf] is the extra element [Inf] of [ext].
    - A torch tensor is an object in a store ([tensors] of [World]); Python
      variables hold references ([ref]) into that store.  A tensor of the
      store has two axes ([Tensor2]); a variable that holds no tensor is a
      reference outside the store.  Tensors with another number of axes,
      on which [shape[1]] raises [IndexError], are not represented.
    - The collaborators (hybrid system, MILP solver, network, autograd and
      optimizers) are the fields of the class [LyapunovHybridSystem]; every
      call to one of them is recorded in the [trace] of the [World].  They
      are functions: a call of a collaborator returns.  The exceptions of
      the embedding are those the statements of the file raise themselves:
      assertions, indexing, unbound names, missing attributes, and
      [torch.stack] and [torch.cat] on sizes that do not fit.
    - The loss [total_loss] returns is a torch tensor when one of its four
      terms is evaluated, and the Python float [0.] otherwise
      ([in_loss_is_tensor]); [loss.item()] and [loss.backward()] raise
      [AttributeError] on the float.
    - [print] and the tensorboard writer are not modelled, and neither are the
      values computed only to be printed (lines 217-227: [relu_zeta_val],
      [relu_activation_pattern], [relu_gradient]; the calls that compute
      them are taken to return) nor the lists [relu_params] and [gradients]
      of [train], which are written and never read. *)

From Stdlib Require Import QArith Qminmax Qabs Lia Lqa String.
From stdpp Require Import base option list.

Local Open Scope nat_scope.

(** ** Scalars *)

Definition Qlt_bool (x y : Q) : bool := negb (Qle_bool y x).

(** [w != 0] on a Python float. *)
Definition Qnonzero (x : Q) : bool := negb (Qeq_bool x 0).

(** A float that may be [np.inf]. *)
Inductive ext : Type :=
  | Fin (q : Q)
  | Inf.

(** [x < b] and [x > b] for a finite [x] and a possibly infinite [b]. *)
Definition lt_ext (x : Q) (b : ext) : bool :=
  match b with
  | Fin q => Qlt_bool x q
  | Inf => true
  end.

Definition gt_ext (x : Q) (b : ext) : bool :=
  match b with
  | Fin q => Qlt_bool q x
  | Inf => false
  end.

(** [torch.pow(torch.tensor(r), j)] for a loop index [j]. *)
Definition pow (r : Q) (j : nat) : Q := (r ^ Z.of_nat j)%Q.

(** ** Tensors and the store *)

(** A state of the system: a 1-D tensor. *)
Definition State : Type := list Q.

(** A 2-D tensor of shape [(length rows, shape1)]. *)
Record Tensor2 : Type := mkTensor2 {
  shape1 : nat;
  rows : list State
}.

Definition shape0 (t : Tensor2) : nat := length (rows t).

Definition ref : Type := nat.

(** [x[-k:]] on the first axis: Python reads [-0] as [0], so [x[-0:]] is all
    of [x]; for [k] beyond the length the slice is clamped to all of [x]. *)
Definition slice_last (k : nat) (l : list State) : list State :=
  if k =? 0 then l else drop (length l - k) l.

(** ** Exceptions and results *)

Inductive Exn : Type :=
  | AssertionError
  | IndexError
  | RuntimeError
  | NameError
  | AttributeError
  | TypeError
  | UnknownOptimizer.

Inductive Result (A : Type) : Type :=
  | Ok (a : A)
  | Raise (e : Exn).
Arguments Ok {A} a.
Arguments Raise {A} e.

(** [torch.stack(xs, dim=0)]: refuses an empty list and rows of unequal
    sizes. *)
Definition torch_stack (xs : list State) : Result Tensor2 :=
  match xs with
  | [] => Raise RuntimeError
  | x :: rest =>
      if forallb (fun y => length y =? length x) rest
      then Ok (mkTensor2 (length x) xs)
      else Raise RuntimeError
  end.

(** [torch.cat([t, x.unsqueeze(0)], dim=0)]: the sizes must agree on the
    second axis. *)
Definition torch_cat_row (t : Tensor2) (x : State) : Result Tensor2 :=
  if length x =? shape1 t
  then Ok (mkTensor2 (shape1 t) (rows t ++ [x]))
  else Raise RuntimeError.

(** [np.argwhere(np.array(vals) > 0.99)[0][0]]. *)
Fixpoint argwhere_first (vals : list Q) (i : nat) : option nat :=
  match vals with
  | [] => None
  | v :: rest =>
      if Qlt_bool (99 # 100) v then Some i else argwhere_first rest (S i)
  end.

(** [l[i] = v] on a Python list. *)
Definition list_set {A} (l : list A) (i : nat) (v : A) : Result (list A) :=
  if i <? length l then Ok (<[i := v]> l) else Raise IndexError.

(** ** Configuration: the attributes of [TrainLyapunovReLU] *)

Inductive ProjectGradientMethod : Type :=
  | NONE
  | SUM
  | ALTERNATE
  | EMPHASIZE_POSITIVITY.

(** The members of [train_utils.ProjectGradientMode] that [train] names. *)
Inductive ProjectGradientMode : Type :=
  | BOTH
  | LOSS1
  | LOSS2
  | EMPHASIZE_LOSS1.

Record TrainLyapunovReLU : Type := {
  V_lambda : Q;
  x_equilibrium : State;
  learning_rate : Q;
  max_iterations : nat;
  lyapunov_positivity_sample_cost_weight : Q;
  lyapunov_positivity_sample_margin : Q;
  lyapunov_derivative_sample_cost_weight : Q;
  lyapunov_derivative_sample_margin : Q;
  lyapunov_positivity_mip_cost_weight : Q;
  lyapunov_positivity_mip_pool_solutions : nat;
  lyapunov_derivative_mip_cost_weight : Q;
  lyapunov_derivative_mip_pool_solutions : nat;
  lyapunov_positivity_mip_cost_decay_rate : Q;
  lyapunov_derivative_mip_cost_decay_rate : Q;
  lyapunov_positivity_epsilon : Q;
  lyapunov_derivative_epsilon : Q;
  lyapunov_positivity_convergence_tol : Q;
  lyapunov_derivative_convergence_tol : Q;
  optimizer : string;
  project_gradient_method : ProjectGradientMethod;
  momentum : Q;
  loss_minimal_decrement : Q;
  (* read by [train_with_line_search], never set by [__init__] *)
  min_improvement : option Q;
  add_adversarial_state_to_training : bool;
  max_sample_pool_size : nat
}.

(** The values [__init__] assigns. *)
Definition init (lambda : Q) (x_eq : State) : TrainLyapunovReLU := {|
  V_lambda := lambda;
  x_equilibrium := x_eq;
  learning_rate := (3 # 1000)%Q;
  max_iterations := 1000;
  lyapunov_positivity_sample_cost_weight := 1%Q;
  lyapunov_positivity_sample_margin := 0%Q;
  lyapunov_derivative_sample_cost_weight := 1%Q;
  lyapunov_derivative_sample_margin := 0%Q;
  lyapunov_positivity_mip_cost_weight := 10%Q;
  lyapunov_positivity_mip_pool_solutions := 10;
  lyapunov_derivative_mip_cost_weight := 10%Q;
  lyapunov_derivative_mip_pool_solutions := 10;
  lyapunov_positivity_mip_cost_decay_rate := (9 # 10)%Q;
  lyapunov_derivative_mip_cost_decay_rate := (9 # 10)%Q;
  lyapunov_positivity_epsilon := (1 # 100)%Q;
  lyapunov_derivative_epsilon := (1 # 100)%Q;
  lyapunov_positivity_convergence_tol := (1 # 1000000)%Q;
  lyapunov_derivative_convergence_tol := (3 # 100000)%Q;
  optimizer := "Adam"%string;
  project_gradient_method := NONE;
  momentum := 0%Q;
  loss_minimal_decrement := 0%Q;
  min_improvement := None;
  add_adversarial_state_to_training := false;
  max_sample_pool_size := 500
|}.

(** ** The collaborators *)

Inductive Condition : Type :=
  | Positivity
  | Derivative.

(** A call of [gurobi_model.setParam]. *)
Inductive GurobiParam : Type :=
  | OutputFlag (b : bool)
  | PoolSearchMode (n : nat)
  | PoolSolutions (n : nat)
  | SolutionNumber (n : nat).

(** What the source reads from a MILP after [optimize()]. *)
Record Solved : Type := {
  (* [gurobi_model.ObjVal] *)
  ObjVal : Q;
  (* [gurobi_model.solCount] *)
  solCount : nat;
  (* [compute_objective_from_mip_data_and_solution(solution_number=j,
     penalty=1e-13)] *)
  objective_from_solution : nat -> Q;
  (* [[v.x for v in return[1]]]: the state of the best solution *)
  x_sol : State;
  (* [[v.x for v in return[3]]]: the mode indicators (derivative MILP) *)
  gamma_sol : list Q
}.

(** The arguments of one call of [total_loss], as autograd sees them: the
    gradient of a loss is a function of the configuration, of the network
    parameters and of these.  The last field tells whether the loss is a
    torch tensor at all: it is the Python float [0. + 0. + 0. + 0.] when
    none of its four terms is evaluated, and a float has neither [item()]
    nor [backward()]. *)
Record LossInputs : Type := {
  in_positivity_samples : Tensor2;
  in_derivative_samples : Tensor2;
  in_derivative_samples_next : Tensor2;
  in_positivity_sample_cost_weight : option Q;
  in_derivative_sample_cost_weight : option Q;
  in_positivity_mip_cost_weight : option Q;
  in_derivative_mip_cost_weight : option Q;
  in_loss_is_tensor : bool
}.

(** The interface the trainer consumes: the object [lyapunov_hybrid_system]
    with its [system] and [lyapunov_relu], the solver, autograd and the torch
    optimizers. *)
Class LyapunovHybridSystem : Type := {
  (* the parameters of [lyapunov_relu], their gradient buffers, and the
     internal state of a torch optimizer *)
  Params : Type;
  Grads : Type;
  OptState : Type;
  (* [system.x_dim] and [system.step_forward(x[, mode])] *)
  x_dim : nat;
  step_forward : State -> option nat -> State;
  (* the two MILPs, as built for the current network, and their solution
     under the parameters set before [optimize()] *)
  Milp : Type;
  lyapunov_positivity_as_milp : Params -> State -> Q -> Q -> Milp;
  lyapunov_derivative_as_milp : Params -> State -> Q -> Q -> Milp;
  optimize : Milp -> list GurobiParam -> Solved;
  (* [lyapunov_relu.forward] *)
  relu_forward : Params -> State -> Q;
  (* [lyapunov_positivity_loss_at_samples(relu_at_equilibrium, x_equilibrium,
     samples, V_lambda, epsilon, margin)] *)
  lyapunov_positivity_loss_at_samples :
    Params -> Q -> State -> list State -> Q -> Q -> Q -> Q;
  (* [lyapunov_derivative_loss_at_samples_and_next_states(V_lambda, epsilon,
     samples, samples_next, x_equilibrium, margin)] *)
  lyapunov_derivative_loss_at_samples_and_next_states :
    Params -> Q -> Q -> list State -> list State -> State -> Q -> Q;
  (* autograd: [zero_grad()], [loss.backward()] and
     [train_utils.project_gradient(relu, loss1, loss2, mode)] *)
  zero_grad : Grads -> Grads;
  backward : TrainLyapunovReLU -> Params -> LossInputs -> Grads -> Grads;
  project_gradient :
    TrainLyapunovReLU -> Params -> LossInputs -> ProjectGradientMode ->
    Grads -> Grads;
  (* [torch.optim.Adam(params, lr)], [torch.optim.SGD(params, lr, momentum)]
     and their [step()] *)
  adam_init : Q -> OptState;
  sgd_init : Q -> Q -> OptState;
  optimizer_step : OptState -> Params -> Grads -> Params * OptState
}.

(** ** Calls to the collaborators, as recorded in the trace *)

Inductive Event : Type :=
  | EvAsMilp (c : Condition)
  | EvSetParam (c : Condition) (p : GurobiParam)
  | EvOptimize (c : Condition)
  | EvReluForward
  | EvPositivityLossAtSamples (samples : list State)
  | EvDerivativeLossAtSamples (samples samples_next : list State)
  | EvObjectiveFromSolution (c : Condition) (solution_number : nat)
  | EvStepForward (x : State) (mode : option nat)
  | EvZeroGrad
  | EvBackward
  | EvProjectGradient (loss1 loss2 : Q) (mode : ProjectGradientMode)
  | EvOptimizerStep
  | EvDeepcopy
  | EvLoadStateDict.

(** ** How a turn of a loop ends *)

(** A turn of a [while] loop: go on, or leave the function with a value. *)
Inductive Flow (S R : Type) : Type :=
  | Continue (s : S)
  | Return (r : R).
Arguments Continue {S R} s.
Arguments Return {S R} r.

(** A turn of a [for] loop: go on, or [break]. *)
Inductive ForFlow (S : Type) : Type :=
  | Next (s : S)
  | Break (s : S).
Arguments Next {S} s.
Arguments Break {S} s.

Section Trainer.

Context `{system : LyapunovHybridSystem}.

(** ** The world: tensor store, network, trace *)

Record World : Type := mkWorld {
  tensors : list Tensor2;
  theta : Params;
  grads : Grads;
  trace : list Event
}.

(** New tensors are added at the end of the store; nothing in the source
    writes to a tensor in place. *)
Definition add_tensors (ts : list Tensor2) (w : World) : World :=
  mkWorld (tensors w ++ ts) (theta w) (grads w) (trace w).
Definition set_theta (th : Params) (w : World) : World :=
  mkWorld (tensors w) th (grads w) (trace w).
Definition set_grads (g : Grads) (w : World) : World :=
  mkWorld (tensors w) (theta w) g (trace w).
(** The trace only grows. *)
Definition add_events (evs : list Event) (w : World) : World :=
  mkWorld (tensors w) (theta w) (grads w) (trace w ++ evs).

(** ** A state and exception monad over the world *)

Definition M (A : Type) : Type := World -> Result A * World.

Definition ret {A} (a : A) : M A := fun w => (Ok a, w).

Definition bind {A B} (c : M A) (k : A -> M B) : M B :=
  fun w =>
    match c w with
    | (Ok a, w') => k a w'
    | (Raise e, w') => (Raise e, w')
    end.

Definition raise {A} (e : Exn) : M A := fun w => (Raise e, w).

Definition lift {A} (r : Result A) : M A := fun w => (r, w).

Notation "x <- c ;; k" := (bind c (fun x => k))
  (at level 20, c at level 99, k at level 200, only parsing).
Notation "'do' c ;; k" := (bind c (fun _ => k))
  (at level 20, c at level 99, k at level 200, only parsing).

Definition assert (b : bool) : M unit :=
  if b then ret tt else raise AssertionError.

Definition emit (e : Event) : M unit :=
  fun w => (Ok tt, add_events [e] w).

(** Reading the tensor a variable refers to; a variable that holds no tensor
    fails the [isinstance] assertion. *)
Definition deref (r : ref) : M Tensor2 :=
  fun w =>
    match tensors w !! r with
    | Some t => (Ok t, w)
    | None => (Raise AssertionError, w)
    end.

(** A new tensor object. *)
Definition alloc (t : Tensor2) : M ref :=
  fun w => (Ok (length (tensors w)), add_tensors [t] w).

Definition get_theta : M Params := fun w => (Ok (theta w), w).

(** [for x in l: acc = body(x, acc)]. *)
Fixpoint for_each {A B} (l : list B) (body : B -> A -> M A) (acc : A) : M A :=
  match l with
  | [] => ret acc
  | x :: rest => acc' <- body x acc ;; for_each rest body acc'
  end.

(** ** [total_loss] *)

Record TotalLossReturn : Type := {
  loss : Q;
  positivity_mip_objective : Q;
  derivative_mip_objective : Q;
  positivity_sample_loss : Q;
  derivative_sample_loss : Q;
  positivity_mip_loss : Q;
  derivative_mip_loss : Q;
  positivity_state_samples : ref;
  derivative_state_samples : ref;
  derivative_state_samples_next : ref;
  (* the autograd graph the returned losses hang on *)
  loss_graph : LossInputs
}.

Definition set_weight (val : option Q) (default_val : Q) : Q :=
  match val with
  | Some v => v
  | None => default_val
  end.

(** Lines 187-200 and 202-215: build the MILP, silence the solver, ask for
    a solution pool when more than one solution is wanted, solve. *)
Definition solve_milp (c : Condition) (self : TrainLyapunovReLU) : M Solved :=
  th <- get_theta ;;
  let milp :=
    match c with
    | Positivity =>
        lyapunov_positivity_as_milp th (x_equilibrium self) (V_lambda self)
          (lyapunov_positivity_epsilon self)
    | Derivative =>
        lyapunov_derivative_as_milp th (x_equilibrium self) (V_lambda self)
          (lyapunov_derivative_epsilon self)
    end in
  let pool_solutions :=
    match c with
    | Positivity => lyapunov_positivity_mip_pool_solutions self
    | Derivative => lyapunov_derivative_mip_pool_solutions self
    end in
  do emit (EvAsMilp c) ;;
  do emit (EvSetParam c (OutputFlag false)) ;;
  params <-
    (if 1 <? pool_solutions then
       do emit (EvSetParam c (PoolSearchMode 2)) ;;
       do emit (EvSetParam c (PoolSolutions pool_solutions)) ;;
       ret [OutputFlag false; PoolSearchMode 2; PoolSolutions pool_solutions]
     else ret [OutputFlag false]) ;;
  do emit (EvOptimize c) ;;
  ret (optimize milp params).

(** The window of the sample pool that enters the loss (lines 247-251 and
    266-274). *)
Definition samples_in_pool (self : TrainLyapunovReLU) (samples : list State)
  : list State :=
  if max_sample_pool_size self <? length samples
  then slice_last (max_sample_pool_size self) samples
  else samples.

(** Lines 242-260. *)
Definition positivity_sample_term (self : TrainLyapunovReLU)
    (weight : option Q) (samples : Tensor2) (relu_at_equilibrium : Q) : M Q :=
  let lyapunov_positivity_sample_cost_weight :=
    set_weight weight (lyapunov_positivity_sample_cost_weight self) in
  if Qnonzero lyapunov_positivity_sample_cost_weight && (0 <? shape0 samples)
  then
    let positivity_state_samples_in_pool :=
      samples_in_pool self (rows samples) in
    th <- get_theta ;;
    do emit (EvPositivityLossAtSamples positivity_state_samples_in_pool) ;;
    ret (lyapunov_positivity_sample_cost_weight *
         lyapunov_positivity_loss_at_samples th relu_at_equilibrium
           (x_equilibrium self) positivity_state_samples_in_pool
           (V_lambda self) (lyapunov_positivity_epsilon self)
           (lyapunov_positivity_sample_margin self))%Q
  else ret 0%Q.

(** Lines 261-283. *)
Definition derivative_sample_term (self : TrainLyapunovReLU)
    (weight : option Q) (samples samples_next : Tensor2) : M Q :=
  let lyapunov_derivative_sample_cost_weight :=
    set_weight weight (lyapunov_derivative_sample_cost_weight self) in
  if Qnonzero lyapunov_derivative_sample_cost_weight && (0 <? shape0 samples)
  then
    let derivative_state_samples_in_pool :=
      if max_sample_pool_size self <? shape0 samples
      then slice_last (max_sample_pool_size self) (rows samples)
      else rows samples in
    let derivative_state_samples_next_in_pool :=
      if max_sample_pool_size self <? shape0 samples
      then slice_last (max_sample_pool_size self) (rows samples_next)
      else rows samples_next in
    th <- get_theta ;;
    do emit (EvDerivativeLossAtSamples derivative_state_samples_in_pool
            derivative_state_samples_next_in_pool) ;;
    ret (lyapunov_derivative_sample_cost_weight *
         lyapunov_derivative_loss_at_samples_and_next_states th
           (V_lambda self) (lyapunov_derivative_epsilon self)
           derivative_state_samples_in_pool
           derivative_state_samples_next_in_pool (x_equilibrium self)
           (lyapunov_derivative_sample_margin self))%Q
  else ret 0%Q.

(** Lines 285-301. *)
Definition positivity_mip_term (self : TrainLyapunovReLU) (weight : option Q)
    (lyapunov_positivity_mip : Solved) : M Q :=
  let lyapunov_positivity_mip_cost_weight :=
    set_weight weight (lyapunov_positivity_mip_cost_weight self) in
  if Qnonzero lyapunov_positivity_mip_cost_weight then
    for_each (seq 0 (lyapunov_positivity_mip_pool_solutions self))
      (fun mip_sol_number positivity_mip_loss =>
         if mip_sol_number <? solCount lyapunov_positivity_mip then
           do emit (EvObjectiveFromSolution Positivity mip_sol_number) ;;
           ret (positivity_mip_loss +
                lyapunov_positivity_mip_cost_weight *
                pow (lyapunov_positivity_mip_cost_decay_rate self)
                  mip_sol_number *
                - objective_from_solution lyapunov_positivity_mip
                    mip_sol_number)%Q
         else ret positivity_mip_loss)
      0%Q
  else ret 0%Q.

(** Lines 302-320. *)
Definition derivative_mip_term (self : TrainLyapunovReLU) (weight : option Q)
    (lyapunov_derivative_mip : Solved) : M Q :=
  let lyapunov_derivative_mip_cost_weight :=
    set_weight weight (lyapunov_derivative_mip_cost_weight self) in
  if Qnonzero lyapunov_derivative_mip_cost_weight then
    for_each (seq 0 (lyapunov_derivative_mip_pool_solutions self))
      (fun mip_sol_number derivative_mip_loss =>
         if mip_sol_number <? solCount lyapunov_derivative_mip then
           do emit (EvObjectiveFromSolution Derivative mip_sol_number) ;;
           let mip_cost :=
             objective_from_solution lyapunov_derivative_mip mip_sol_number in
           do emit (EvSetParam Derivative (SolutionNumber mip_sol_number)) ;;
           ret (derivative_mip_loss +
                lyapunov_derivative_mip_cost_weight *
                pow (lyapunov_derivative_mip_cost_decay_rate self)
                  mip_sol_number *
                mip_cost)%Q
         else ret derivative_mip_loss)
      0%Q
  else ret 0%Q.

(** [torch.cat([samples, x.unsqueeze(0)], dim=0)]: a new tensor; the operand
    is read, not written. *)
Definition torch_cat (samples : ref) (x : State) : M ref :=
  t <- deref samples ;;
  t' <- lift (torch_cat_row t x) ;;
  alloc t'.

(** Lines 328-350. *)
Definition append_adversarial_states
    (lyapunov_positivity_mip lyapunov_derivative_mip : Solved)
    (positivity_state_samples derivative_state_samples
       derivative_state_samples_next : ref)
  : M (ref * ref * ref) :=
  let positivity_mip_adversarial := x_sol lyapunov_positivity_mip in
  let derivative_mip_adversarial := x_sol lyapunov_derivative_mip in
  derivative_mip_adversarial_mode <-
    lift (match argwhere_first (gamma_sol lyapunov_derivative_mip) 0 with
          | Some m => Ok m
          | None => Raise IndexError
          end) ;;
  do emit (EvStepForward derivative_mip_adversarial
          (Some derivative_mip_adversarial_mode)) ;;
  let derivative_mip_adversarial_next :=
    step_forward derivative_mip_adversarial
      (Some derivative_mip_adversarial_mode) in
  positivity_state_samples' <-
    torch_cat positivity_state_samples positivity_mip_adversarial ;;
  derivative_state_samples' <-
    torch_cat derivative_state_samples derivative_mip_adversarial ;;
  derivative_state_samples_next' <-
    torch_cat derivative_state_samples_next derivative_mip_adversarial_next ;;
  ret (positivity_state_samples', derivative_state_samples',
       derivative_state_samples_next').

(** Whether a term of the loss is a torch tensor.  A sample term is the
    Python float [0.] when it is skipped (lines 260 and 283) and a weight
    times a tensor otherwise.  A certificate term starts as the float [0.]
    (lines 288 and 305) and is a tensor once a rank has been added to it. *)
Definition sample_term_is_tensor (weight : Q) (samples : Tensor2) : bool :=
  Qnonzero weight && (0 <? shape0 samples).

Definition mip_term_is_tensor (weight : Q) (pool_solutions : nat)
    (mip : Solved) : bool :=
  Qnonzero weight &&
  existsb (fun mip_sol_number => mip_sol_number <? solCount mip)
    (seq 0 pool_solutions).

(** Line 321: the sum is a tensor when one of its terms is. *)
Definition loss_is_tensor (self : TrainLyapunovReLU)
    (positivity_sample_weight derivative_sample_weight positivity_mip_weight
       derivative_mip_weight : option Q)
    (positivity_samples derivative_samples : Tensor2)
    (lyapunov_positivity_mip lyapunov_derivative_mip : Solved) : bool :=
  sample_term_is_tensor
    (set_weight positivity_sample_weight
       (lyapunov_positivity_sample_cost_weight self))
    positivity_samples ||
  sample_term_is_tensor
    (set_weight derivative_sample_weight
       (lyapunov_derivative_sample_cost_weight self))
    derivative_samples ||
  mip_term_is_tensor
    (set_weight positivity_mip_weight
       (lyapunov_positivity_mip_cost_weight self))
    (lyapunov_positivity_mip_pool_solutions self) lyapunov_positivity_mip ||
  mip_term_is_tensor
    (set_weight derivative_mip_weight
       (lyapunov_derivative_mip_cost_weight self))
    (lyapunov_derivative_mip_pool_solutions self) lyapunov_derivative_mip.

Definition total_loss (self : TrainLyapunovReLU)
    (positivity_state_samples derivative_state_samples
       derivative_state_samples_next : ref)
    (lyapunov_positivity_sample_cost_weight
       lyapunov_derivative_sample_cost_weight
       lyapunov_positivity_mip_cost_weight
       lyapunov_derivative_mip_cost_weight : option Q)
  : M TotalLossReturn :=
  positivity_t <- deref positivity_state_samples ;;
  derivative_t <- deref derivative_state_samples ;;
  derivative_next_t <- deref derivative_state_samples_next ;;
  do assert (shape1 positivity_t =? x_dim) ;;
  do assert (shape1 derivative_t =? x_dim) ;;
  do assert ((shape0 derivative_next_t =? shape0 derivative_t) &&
          (shape1 derivative_next_t =? x_dim)) ;;
  lyapunov_positivity_mip <- solve_milp Positivity self ;;
  lyapunov_derivative_mip <- solve_milp Derivative self ;;
  th <- get_theta ;;
  do emit EvReluForward ;;
  let relu_at_equilibrium := relu_forward th (x_equilibrium self) in
  positivity_sample_loss <-
    positivity_sample_term self lyapunov_positivity_sample_cost_weight
      positivity_t relu_at_equilibrium ;;
  derivative_sample_loss <-
    derivative_sample_term self lyapunov_derivative_sample_cost_weight
      derivative_t derivative_next_t ;;
  positivity_mip_loss <-
    positivity_mip_term self lyapunov_positivity_mip_cost_weight
      lyapunov_positivity_mip ;;
  derivative_mip_loss <-
    derivative_mip_term self lyapunov_derivative_mip_cost_weight
      lyapunov_derivative_mip ;;
  let loss :=
    (positivity_sample_loss + derivative_sample_loss +
     positivity_mip_loss + derivative_mip_loss)%Q in
  pools <-
    (if add_adversarial_state_to_training self then
       append_adversarial_states lyapunov_positivity_mip
         lyapunov_derivative_mip positivity_state_samples
         derivative_state_samples derivative_state_samples_next
     else
       ret (positivity_state_samples, derivative_state_samples,
            derivative_state_samples_next)) ;;
  ret {|
    loss := loss;
    positivity_mip_objective := ObjVal lyapunov_positivity_mip;
    derivative_mip_objective := ObjVal lyapunov_derivative_mip;
    positivity_sample_loss := positivity_sample_loss;
    derivative_sample_loss := derivative_sample_loss;
    positivity_mip_loss := positivity_mip_loss;
    derivative_mip_loss := derivative_mip_loss;
    positivity_state_samples := pools.1.1;
    derivative_state_samples := pools.1.2;
    derivative_state_samples_next := pools.2;
    loss_graph := {|
      in_positivity_samples := positivity_t;
      in_derivative_samples := derivative_t;
      in_derivative_samples_next := derivative_next_t;
      in_positivity_sample_cost_weight :=
        lyapunov_positivity_sample_cost_weight;
      in_derivative_sample_cost_weight :=
        lyapunov_derivative_sample_cost_weight;
      in_positivity_mip_cost_weight := lyapunov_positivity_mip_cost_weight;
      in_derivative_mip_cost_weight := lyapunov_derivative_mip_cost_weight;
      in_loss_is_tensor :=
        loss_is_tensor self lyapunov_positivity_sample_cost_weight
          lyapunov_derivative_sample_cost_weight
          lyapunov_positivity_mip_cost_weight
          lyapunov_derivative_mip_cost_weight positivity_t derivative_t
          lyapunov_positivity_mip lyapunov_derivative_mip
    |}
  |}.

(** ** Network, autograd and optimizer calls *)

(** [optimizer.zero_grad()] and [lyapunov_relu.zero_grad()]. *)
Definition optimizer_zero_grad : M unit :=
  fun w =>
    (Ok tt, add_events [EvZeroGrad]
              (set_grads (zero_grad (grads w)) w)).

(** [loss.item()] for a loss returned by [total_loss]: the Python float
    has no such attribute. *)
Definition loss_item (r : TotalLossReturn) : Result Q :=
  if in_loss_is_tensor (loss_graph r) then Ok (loss r)
  else Raise AttributeError.

(** [loss.backward()] for a loss returned by [total_loss]: the Python float
    has no such attribute. *)
Definition loss_backward (self : TrainLyapunovReLU) (graph : LossInputs)
  : M unit :=
  fun w =>
    if in_loss_is_tensor graph then
      (Ok tt, add_events [EvBackward]
                (set_grads (backward self (theta w) graph (grads w)) w))
    else (Raise AttributeError, w).

(** [train_utils.project_gradient(lyapunov_relu, loss1, loss2, mode,
    retain_graph=False)]. *)
Definition call_project_gradient (self : TrainLyapunovReLU)
    (graph : LossInputs) (loss1 loss2 : Q) (mode : ProjectGradientMode)
  : M unit :=
  fun w =>
    (Ok tt, add_events [EvProjectGradient loss1 loss2 mode]
              (set_grads (project_gradient self (theta w) graph mode (grads w))
                 w)).

(** [optimizer.step()]: the only writer of the network parameters. *)
Definition call_optimizer_step (o : OptState) : M OptState :=
  fun w =>
    let (theta', o') := optimizer_step o (theta w) (grads w) in
    (Ok o', add_events [EvOptimizerStep] (set_theta theta' w)).

(** [system.step_forward(x)] *)
Definition call_step_forward (x : State) : M State :=
  do emit (EvStepForward x None) ;;
  ret (step_forward x None).

Fixpoint map_m {A B} (f : A -> M B) (l : list A) : M (list B) :=
  match l with
  | [] => ret []
  | x :: rest => y <- f x ;; ys <- map_m f rest ;; ret (y :: ys)
  end.

(** [samples.clone()] *)
Definition clone (samples : ref) : M ref :=
  t <- deref samples ;;
  alloc t.

(** [torch.stack([system.step_forward(samples[i]) for i in
    range(samples.shape[0])], dim=0)] *)
Definition stack_step_forward (samples : ref) : M ref :=
  t <- deref samples ;;
  nexts <- map_m call_step_forward (rows t) ;;
  t' <- lift (torch_stack nexts) ;;
  alloc t'.

(** ** [train] *)

(** The local variables of [train] that live across iterations. *)
Record TrainState : Type := mkTrainState {
  iter_count : nat;
  train_positivity_state_samples : ref;
  train_derivative_state_samples : ref;
  train_derivative_state_samples_next : ref;
  train_optimizer : OptState;
  lyapunov_positivity_mip_costs : list (option Q);
  lyapunov_derivative_mip_costs : list (option Q);
  losses : list (option Q);
  (* unbound until first assigned *)
  project_gradient_mode : option ProjectGradientMode
}.

(** [(converged, losses, positivity costs, derivative costs)] *)
Definition TrainReturn : Type :=
  bool * list (option Q) * list (option Q) * list (option Q).

Definition mode_is_LOSS2 (m : ProjectGradientMode) : bool :=
  match m with
  | LOSS2 => true
  | _ => false
  end.

(** Lines 500-503: the convergence test of [train]. *)
Definition converged (self : TrainLyapunovReLU)
    (positivity_cost derivative_cost : Q) : bool :=
  Qle_bool (- lyapunov_positivity_convergence_tol self) positivity_cost &&
  Qle_bool derivative_cost (lyapunov_derivative_convergence_tol self).

(** Lines 507-522: the projection mode of this iteration. *)
Definition next_project_gradient_mode (self : TrainLyapunovReLU)
    (st : TrainState) : M (option ProjectGradientMode) :=
  match project_gradient_method self with
  | SUM => ret (Some BOTH)
  | ALTERNATE =>
      if iter_count st =? 0 then ret (Some LOSS2)
      else
        match project_gradient_mode st with
        | Some m => ret (Some (if mode_is_LOSS2 m then LOSS1 else LOSS2))
        | None => raise NameError
        end
  | EMPHASIZE_POSITIVITY => ret (Some EMPHASIZE_LOSS1)
  | NONE => ret (project_gradient_mode st)
  end.

(** Lines 474-538: one turn of the [while] loop. *)
Definition train_iteration (self : TrainLyapunovReLU) (st : TrainState)
  : M (Flow TrainState TrainReturn) :=
  do optimizer_zero_grad ;;
  r <- total_loss self (train_positivity_state_samples st)
         (train_derivative_state_samples st)
         (train_derivative_state_samples_next st) None None None None ;;
  positivity_costs <-
    lift (list_set (lyapunov_positivity_mip_costs st) (iter_count st)
            (Some (positivity_mip_objective r))) ;;
  derivative_costs <-
    lift (list_set (lyapunov_derivative_mip_costs st) (iter_count st)
            (Some (derivative_mip_objective r))) ;;
  loss_value <- lift (loss_item r) ;;
  losses' <- lift (list_set (losses st) (iter_count st) (Some loss_value)) ;;
  if converged self (positivity_mip_objective r) (derivative_mip_objective r)
  then
    ret (Return (true, take (iter_count st + 1) losses',
                 take (iter_count st + 1) positivity_costs,
                 take (iter_count st + 1) derivative_costs))
  else
    mode <- next_project_gradient_mode self st ;;
    do (match project_gradient_method self with
        | NONE => loss_backward self (loss_graph r)
        | _ =>
            match mode with
            | Some m =>
                call_project_gradient self (loss_graph r)
                  (positivity_sample_loss r + positivity_mip_loss r)%Q
                  (derivative_sample_loss r + derivative_mip_loss r)%Q m
            | None => raise NameError
            end
        end) ;;
    optimizer' <- call_optimizer_step (train_optimizer st) ;;
    ret (Continue {|
      iter_count := iter_count st + 1;
      train_positivity_state_samples := positivity_state_samples r;
      train_derivative_state_samples := derivative_state_samples r;
      train_derivative_state_samples_next := derivative_state_samples_next r;
      train_optimizer := optimizer';
      lyapunov_positivity_mip_costs := positivity_costs;
      lyapunov_derivative_mip_costs := derivative_costs;
      losses := losses';
      project_gradient_mode := mode
    |}).

(** [while iter_count < self.max_iterations]: [iter_count] grows by one per
    turn, so the loop takes one turn per remaining iteration. *)
Fixpoint train_loop (self : TrainLyapunovReLU) (remaining : nat)
    (st : TrainState) : M TrainReturn :=
  match remaining with
  | 0 =>
      ret (false, losses st, lyapunov_positivity_mip_costs st,
           lyapunov_derivative_mip_costs st)
  | S n =>
      flow <- train_iteration self st ;;
      match flow with
      | Continue st' => train_loop self n st'
      | Return r => ret r
      end
  end.

(** Lines 453-464. *)
Definition make_optimizer (self : TrainLyapunovReLU) : M OptState :=
  if String.eqb (optimizer self) "Adam" then
    ret (adam_init (learning_rate self))
  else if String.eqb (optimizer self) "SGD" then
    ret (sgd_init (learning_rate self) (momentum self))
  else raise UnknownOptimizer.

(** The state in which [train] enters its loop (lines 446-472). *)
Definition train_setup (self : TrainLyapunovReLU) (state_samples_all : ref)
  : M TrainState :=
  t <- deref state_samples_all ;;
  do assert (shape1 t =? x_dim) ;;
  positivity_state_samples <- clone state_samples_all ;;
  derivative_state_samples <- clone state_samples_all ;;
  derivative_state_samples_next <-
    stack_step_forward derivative_state_samples ;;
  optimizer <- make_optimizer self ;;
  ret {|
    iter_count := 0;
    train_positivity_state_samples := positivity_state_samples;
    train_derivative_state_samples := derivative_state_samples;
    train_derivative_state_samples_next := derivative_state_samples_next;
    train_optimizer := optimizer;
    lyapunov_positivity_mip_costs := replicate (max_iterations self) None;
    lyapunov_derivative_mip_costs := replicate (max_iterations self) None;
    losses := replicate (max_iterations self) None;
    project_gradient_mode := None
  |}.

Definition train (self : TrainLyapunovReLU) (state_samples_all : ref)
  : M TrainReturn :=
  st <- train_setup self state_samples_all ;;
  train_loop self (max_iterations self - iter_count st) st.

(** ** [train_lyapunov_on_samples] *)

(** The local variables of [train_lyapunov_on_samples] that live across
    iterations; [best_relu] is unbound until the first snapshot. *)
Record SamplesState : Type := mkSamplesState {
  samples_iter_count : nat;
  best_loss : ext;
  best_relu : option Params;
  num_increasing_iterations : nat;
  previous_mip_loss : ext;
  samples_optimizer : OptState
}.

(** [copy.deepcopy(lyapunov_relu)] *)
Definition call_deepcopy : M Params :=
  fun w => (Ok (theta w), add_events [EvDeepcopy] w).

(** [lyapunov_relu.load_state_dict(best_relu.state_dict())] *)
Definition call_load_state_dict (best : Params) : M unit :=
  fun w => (Ok tt, add_events [EvLoadStateDict] (set_theta best w)).

(** Lines 583-586. *)
Definition mip_loss_of (self : TrainLyapunovReLU)
    (lyapunov_positivity_mip_cost lyapunov_derivative_mip_cost : Q) : Q :=
  (lyapunov_positivity_mip_cost_weight self * - lyapunov_positivity_mip_cost +
   lyapunov_derivative_mip_cost_weight self * lyapunov_derivative_mip_cost)%Q.

(** Lines 575-608: one turn of the [for] loop. *)
Definition on_samples_iteration (self : TrainLyapunovReLU)
    (state_samples_all state_samples_next : ref)
    (max_increasing_iterations : nat) (i : nat) (st : SamplesState)
  : M (ForFlow SamplesState) :=
  do optimizer_zero_grad ;;
  r <- total_loss self state_samples_all state_samples_all state_samples_next
         None None (Some 0%Q) (Some 0%Q) ;;
  let mip_loss :=
    mip_loss_of self (positivity_mip_objective r)
      (derivative_mip_objective r) in
  best <-
    (if lt_ext mip_loss (best_loss st) then
       snapshot <- call_deepcopy ;;
       ret (Fin mip_loss, Some snapshot)
     else ret (best_loss st, best_relu st)) ;;
  if gt_ext mip_loss (previous_mip_loss st) then
    if num_increasing_iterations st + 1 =? max_increasing_iterations then
      ret (Break {|
        samples_iter_count := i;
        best_loss := best.1;
        best_relu := best.2;
        num_increasing_iterations := num_increasing_iterations st + 1;
        previous_mip_loss := previous_mip_loss st;
        samples_optimizer := samples_optimizer st
      |})
    else
      do loss_backward self (loss_graph r) ;;
      optimizer' <- call_optimizer_step (samples_optimizer st) ;;
      ret (Next {|
        samples_iter_count := i;
        best_loss := best.1;
        best_relu := best.2;
        num_increasing_iterations := num_increasing_iterations st + 1;
        previous_mip_loss := Fin mip_loss;
        samples_optimizer := optimizer'
      |})
  else
    do loss_backward self (loss_graph r) ;;
    optimizer' <- call_optimizer_step (samples_optimizer st) ;;
    ret (Next {|
      samples_iter_count := i;
      best_loss := best.1;
      best_relu := best.2;
      num_increasing_iterations := 0;
      previous_mip_loss := Fin mip_loss;
      samples_optimizer := optimizer'
    |}).

(** [for iter_count in iterations: ...], left by [break] or at the end of
    the range. *)
Fixpoint on_samples_loop (self : TrainLyapunovReLU)
    (state_samples_all state_samples_next : ref)
    (max_increasing_iterations : nat) (iterations : list nat)
    (st : SamplesState) : M (ForFlow SamplesState) :=
  match iterations with
  | [] => ret (Next st)
  | i :: rest =>
      flow <- on_samples_iteration self state_samples_all state_samples_next
                max_increasing_iterations i st ;;
      match flow with
      | Next st' =>
          on_samples_loop self state_samples_all state_samples_next
            max_increasing_iterations rest st'
      | Break st' => ret (Break st')
      end
  end.

Definition flow_state {S} (f : ForFlow S) : S :=
  match f with
  | Next s => s
  | Break s => s
  end.

(** Lines 564-573: the state in which the loop is entered. *)
Definition on_samples_setup (self : TrainLyapunovReLU)
    (state_samples_all : ref) : M (ref * SamplesState) :=
  t <- deref state_samples_all ;;
  do assert (shape1 t =? x_dim) ;;
  state_samples_next <- stack_step_forward state_samples_all ;;
  ret (state_samples_next, {|
    samples_iter_count := 0;
    best_loss := Inf;
    best_relu := None;
    num_increasing_iterations := 0;
    previous_mip_loss := Inf;
    samples_optimizer := adam_init (learning_rate self)
  |}).

(** The function returns nothing; the embedding returns how the loop was
    left, so that the iteration at which it stopped can be read off. *)
Definition train_lyapunov_on_samples (self : TrainLyapunovReLU)
    (state_samples_all : ref) (max_iterations max_increasing_iterations : nat)
  : M (ForFlow SamplesState) :=
  start <- on_samples_setup self state_samples_all ;;
  flow <- on_samples_loop self state_samples_all start.1
            max_increasing_iterations (seq 0 max_iterations) start.2 ;;
  match best_relu (flow_state flow) with
  | Some best =>
      do call_load_state_dict best ;;
      ret flow
  | None => raise NameError
  end.

(** ** [train_with_line_search] *)

(** A loss tensor: its value and the graph it hangs on. *)
Definition LossTensor : Type := Q * LossInputs.

(** The variables of [train_with_line_search] that [closure] captures. *)
Record LineSearchFrame : Type := mkLineSearchFrame {
  ls_iter_count : nat;
  ls_positivity_mip_costs : list (option Q);
  ls_derivative_mip_costs : list (option Q)
}.

(** Lines 379-388. *)
Definition closure (self : TrainLyapunovReLU)
    (positivity_state_samples derivative_state_samples
       derivative_state_samples_next : ref)
    (frame : LineSearchFrame) : M (LossTensor * LineSearchFrame) :=
  do optimizer_zero_grad ;;
  r <- total_loss self positivity_state_samples derivative_state_samples
         derivative_state_samples_next None None None None ;;
  positivity_costs <-
    lift (list_set (ls_positivity_mip_costs frame) (ls_iter_count frame)
            (Some (positivity_mip_objective r))) ;;
  derivative_costs <-
    lift (list_set (ls_derivative_mip_costs frame) (ls_iter_count frame)
            (Some (derivative_mip_objective r))) ;;
  ret ((loss r, loss_graph r),
       {| ls_iter_count := ls_iter_count frame;
          ls_positivity_mip_costs := positivity_costs;
          ls_derivative_mip_costs := derivative_costs |}).

(** [l[i]] on a Python list, for an index that is not negative. *)
Definition list_get {A} (l : list A) (i : nat) : Result A :=
  match l !! i with
  | Some v => Ok v
  | None => Raise IndexError
  end.

(** [a < b] where [a] may be [None]. *)
Definition lt_or_type_error (a : option Q) (b : Q) : Result bool :=
  match a with
  | Some v => Ok (Qlt_bool v b)
  | None => Raise TypeError
  end.

Section LineSearch.

(** [line_search_gd.LineSearchGD] and [line_search_adam.LineSearchAdam] are
    not among the sources: their constructors and [step(closure,
    current_loss)] are parameters.  [step] may run the closure any number of
    times and move the network parameters. *)
Variable LineSearchState : Type.
Variable LineSearchGD : Q -> Q -> Q -> Q -> Q -> Q -> LineSearchState.
Variable LineSearchAdam : Q -> Q -> Q -> Q -> Q -> LineSearchState.
Variable line_search_step :
  LineSearchState -> (LineSearchFrame -> M (LossTensor * LineSearchFrame)) ->
  option Q -> LineSearchFrame ->
  M (LossTensor * LineSearchFrame * LineSearchState).

Record LineSearchLoop : Type := mkLineSearchLoop {
  ls_frame : LineSearchFrame;
  ls_losses : list (option Q);
  (* unbound unless the optimizer is "GD" or "LineSearchAdam" *)
  ls_optimizer : option LineSearchState
}.

(** Lines 399-412. *)
Definition make_line_search_optimizer (self : TrainLyapunovReLU)
  : M (option LineSearchState) :=
  if String.eqb (optimizer self) "GD" then
    match min_improvement self with
    | Some mi =>
        ret (Some (LineSearchGD (learning_rate self) (momentum self)
                     (1 # 10000)%Q (loss_minimal_decrement self) (2 # 10)%Q
                     mi))
    | None => raise AttributeError
    end
  else if String.eqb (optimizer self) "LineSearchAdam" then
    match min_improvement self with
    | Some mi =>
        ret (Some (LineSearchAdam (learning_rate self) (1 # 10000)%Q
                     (loss_minimal_decrement self) (2 # 10)%Q mi))
    | None => raise AttributeError
    end
  else ret None.

(** Lines 420-423: the convergence test of [train_with_line_search]. *)
Definition line_search_converged (self : TrainLyapunovReLU)
    (positivity_cost derivative_cost : option Q) : Result bool :=
  match lt_or_type_error positivity_cost
          (lyapunov_positivity_convergence_tol self) with
  | Ok true =>
      lt_or_type_error derivative_cost
        (lyapunov_derivative_convergence_tol self)
  | Ok false => Ok false
  | Raise e => Raise e
  end.

(** Lines 414-438: one turn of the [while] loop. *)
Definition line_search_iteration (self : TrainLyapunovReLU)
    (positivity_state_samples derivative_state_samples
       derivative_state_samples_next : ref)
    (st : LineSearchLoop) : M (Flow LineSearchLoop bool) :=
  let iter_count := ls_iter_count (ls_frame st) in
  optimizer <-
    lift (match ls_optimizer st with
          | Some o => Ok o
          | None => Raise NameError
          end) ;;
  previous_loss <- lift (list_get (ls_losses st) (iter_count - 1)) ;;
  stepped <-
    line_search_step optimizer
      (closure self positivity_state_samples derivative_state_samples
         derivative_state_samples_next)
      previous_loss (ls_frame st) ;;
  let loss := stepped.1.1 in
  let frame := stepped.1.2 in
  do loss_backward self loss.2 ;;
  losses' <- lift (list_set (ls_losses st) iter_count (Some loss.1)) ;;
  positivity_cost <-
    lift (list_get (ls_positivity_mip_costs frame) iter_count) ;;
  derivative_cost <-
    lift (list_get (ls_derivative_mip_costs frame) iter_count) ;;
  done <- lift (line_search_converged self positivity_cost derivative_cost) ;;
  if (done : bool) then ret (Return true)
  else
    ret (Continue {|
      ls_frame := {|
        ls_iter_count := iter_count + 1;
        ls_positivity_mip_costs := ls_positivity_mip_costs frame;
        ls_derivative_mip_costs := ls_derivative_mip_costs frame
      |};
      ls_losses := losses';
      ls_optimizer := Some stepped.2
    |}).

Fixpoint line_search_loop (self : TrainLyapunovReLU)
    (positivity_state_samples derivative_state_samples
       derivative_state_samples_next : ref)
    (remaining : nat) (st : LineSearchLoop) : M bool :=
  match remaining with
  | 0 => ret false
  | S n =>
      flow <- line_search_iteration self positivity_state_samples
                derivative_state_samples derivative_state_samples_next st ;;
      match flow with
      | Continue st' =>
          line_search_loop self positivity_state_samples
            derivative_state_samples derivative_state_samples_next n st'
      | Return b => ret b
      end
  end.

Definition train_with_line_search (self : TrainLyapunovReLU)
    (state_samples_all : ref) : M bool :=
  t <- deref state_samples_all ;;
  do assert (shape1 t =? x_dim) ;;
  positivity_state_samples <- clone state_samples_all ;;
  derivative_state_samples <- clone state_samples_all ;;
  derivative_state_samples_next <-
    stack_step_forward derivative_state_samples ;;
  first <-
    closure self positivity_state_samples derivative_state_samples
      derivative_state_samples_next
      {| ls_iter_count := 0;
         ls_positivity_mip_costs := replicate (max_iterations self) None;
         ls_derivative_mip_costs := replicate (max_iterations self) None |} ;;
  do loss_backward self first.1.2 ;;
  losses <-
    lift (list_set (replicate (max_iterations self) None) 0
            (Some first.1.1)) ;;
  optimizer <- make_line_search_optimizer self ;;
  line_search_loop self positivity_state_samples derivative_state_samples
    derivative_state_samples_next (max_iterations self - 1)
    {| ls_frame := {|
         ls_iter_count := 1;
         ls_positivity_mip_costs := ls_positivity_mip_costs first.2;
         ls_derivative_mip_costs := ls_derivative_mip_costs first.2
       |};
       ls_losses := losses;
       ls_optimizer := optimizer |}.

End LineSearch.

End Trainer.

Notation "x <- c ;; k" := (bind c (fun x => k))
  (at level 20, c at level 99, k at level 200, only parsing).
Notation "'do' c ;; k" := (bind c (fun _ => k))
  (at level 20, c at level 99, k at level 200, only parsing).

(** * [TrainValueApproximator]: the model *)

Module ValueApproximator.

(** The attributes of [TrainValueApproximator]. *)
Record TrainValueApproximator : Type := {
  max_epochs : nat;
  convergence_tolerance : Q;
  learning_rate : Q
}.

(** The values [__init__] assigns. *)
Definition init : TrainValueApproximator := {|
  max_epochs := 100;
  convergence_tolerance := (1 # 1000)%Q;
  learning_rate := (2 # 100)%Q
|}.

(** [torch.norm(x, p=1)] on a row. *)
Definition norm1 (x : State) : Q := fold_left Qplus (map Qabs x) 0%Q.

(** [state_samples_all - x_equilibrium.reshape((1, -1)).expand(
    state_samples_all.shape[0], -1)]: [reshape((1, -1))] refuses a tensor
    without elements, and the subtraction broadcasts on the second axis,
    where the two sizes must be equal or one of them 1. *)
Definition difference_to_equilibrium (state_samples_all : Tensor2)
    (x_equilibrium : State) : Result (list State) :=
  if length x_equilibrium =? 0 then Raise RuntimeError
  else if length x_equilibrium =? shape1 state_samples_all then
    Ok (map (fun x => zip_with Qminus x x_equilibrium)
          (rows state_samples_all))
  else if length x_equilibrium =? 1 then
    Ok (map (fun x => map (fun a => a - hd 0 x_equilibrium)%Q x)
          (rows state_samples_all))
  else if shape1 state_samples_all =? 1 then
    Ok (map (fun x => map (fun e => hd 0 x - e)%Q x_equilibrium)
          (rows state_samples_all))
  else Raise RuntimeError.

(** [torch.nn.MSELoss()(input, target)] on two 1-D tensors of one size. *)
Definition MSELoss (input target : list Q) : Q :=
  (fold_left Qplus (zip_with (fun a b => (a - b) * (a - b)) input target) 0 /
   inject_Z (Z.of_nat (length input)))%Q.

Section Approximator.

(** The network is a torch module with one output, as [lyapunov_relu] is:
    its parameters, forward pass, gradient buffers and Adam are those of the
    class, and the forward pass of a batch is the forward pass of its rows.
    Autograd for the loss of [train_with_cost_to_go] is a parameter.
    [hybrid_linear_system.generate_cost_to_go_samples] is not among the
    sources: it is a parameter too, with its arguments [T],
    [instantaneous_cost_fun], [discrete_time_flag], [x_goal] and [pruner]
    taken together. *)
Context `{system : LyapunovHybridSystem}.

Variable value_backward :
  Params -> Tensor2 -> list Q -> Q -> State -> Grads -> Grads.
Variable CostToGoArguments : Type.
Variable generate_cost_to_go_samples :
  list State -> CostToGoArguments -> M (list (State * Q)).

(** Lines 639-644: [value_relu]. *)
Definition value_relu (th : Params) (state_samples_all : Tensor2)
    (V_lambda : Q) (x_equilibrium : State) : Result (list Q) :=
  let relu_output := map (relu_forward th) (rows state_samples_all) in
  let relu_x_equilibrium := relu_forward th x_equilibrium in
  match difference_to_equilibrium state_samples_all x_equilibrium with
  | Ok differences =>
      Ok (zip_with
            (fun output difference =>
               output - relu_x_equilibrium + V_lambda * norm1 difference)%Q
            relu_output differences)
  | Raise x => Raise x
  end.

(** [loss.backward()] for the loss of [train_with_cost_to_go]. *)
Definition call_value_backward (state_samples_all : Tensor2)
    (value_samples_all : list Q) (V_lambda : Q) (x_equilibrium : State)
  : M unit :=
  fun w =>
    (Ok tt, add_events [EvBackward]
              (set_grads
                 (value_backward (theta w) state_samples_all value_samples_all
                    V_lambda x_equilibrium (grads w)) w)).

(** The local variables of [train_with_cost_to_go] that live across epochs;
    [loss] is unbound until the first epoch. *)
Record EpochState : Type := mkEpochState {
  epoch_optimizer : OptState;
  epoch_loss : option Q
}.

(** Lines 638-649: one turn of the loop. *)
Definition cost_to_go_epoch (self : TrainValueApproximator)
    (state_samples_all : Tensor2) (value_samples_all : list Q)
    (V_lambda : Q) (x_equilibrium : State) (st : EpochState)
  : M (Flow EpochState (bool * Q)) :=
  do optimizer_zero_grad ;;
  th <- get_theta ;;
  do emit EvReluForward ;;
  do emit EvReluForward ;;
  value <- lift (value_relu th state_samples_all V_lambda x_equilibrium) ;;
  let loss := MSELoss value value_samples_all in
  if Qle_bool loss (convergence_tolerance self) then
    ret (Return (true, loss))
  else
    do call_value_backward state_samples_all value_samples_all V_lambda
         x_equilibrium ;;
    optimizer' <- call_optimizer_step (epoch_optimizer st) ;;
    ret (Continue {| epoch_optimizer := optimizer';
                     epoch_loss := Some loss |}).

(** [for epoch in range(self.max_epochs)], followed by line 650. *)
Fixpoint cost_to_go_loop (self : TrainValueApproximator)
    (state_samples_all : Tensor2) (value_samples_all : list Q)
    (V_lambda : Q) (x_equilibrium : State) (epochs : nat) (st : EpochState)
  : M (bool * Q) :=
  match epochs with
  | 0 =>
      match epoch_loss st with
      | Some loss => ret (false, loss)
      | None => raise NameError
      end
  | S n =>
      flow <- cost_to_go_epoch self state_samples_all value_samples_all
                V_lambda x_equilibrium st ;;
      match flow with
      | Continue st' =>
          cost_to_go_loop self state_samples_all value_samples_all V_lambda
            x_equilibrium n st'
      | Return r => ret r
      end
  end.

(** [torch.stack] of a list of zero-dimensional tensors. *)
Definition stack_scalars (values : list Q) : Result (list Q) :=
  match values with
  | [] => Raise RuntimeError
  | _ => Ok values
  end.

Definition train_with_cost_to_go (self : TrainValueApproximator)
    (x0_value_samples : list (State * Q)) (V_lambda : Q)
    (x_equilibrium : State) : M (bool * Q) :=
  state_samples_all <- lift (torch_stack (map fst x0_value_samples)) ;;
  value_samples_all <- lift (stack_scalars (map snd x0_value_samples)) ;;
  let optimizer := adam_init (learning_rate self) in
  cost_to_go_loop self state_samples_all value_samples_all V_lambda
    x_equilibrium (max_epochs self)
    {| epoch_optimizer := optimizer; epoch_loss := None |}.

(** Lines 652-688. *)
Definition train (self : TrainValueApproximator) (V_lambda : Q)
    (x_equilibrium : State) (x0_samples : ref)
    (arguments : CostToGoArguments) : M (bool * Q) :=
  do assert (length x_equilibrium =? x_dim) ;;
  x0 <- deref x0_samples ;;
  x0_value_samples <- generate_cost_to_go_samples (rows x0) arguments ;;
  train_with_cost_to_go self x0_value_samples V_lambda x_equilibrium.

End Approximator.

End ValueApproximator.

(** * Properties *)

Section Properties.

Context `{system : LyapunovHybridSystem}.

(** ** Worlds and traces *)

Lemma add_events_nil (w : World) : add_events [] w = w.
Proof. destruct w; unfold add_events; simpl. by rewrite app_nil_r. Qed.

Lemma add_events_app (evs1 evs2 : list Event) (w : World) :
  add_events evs2 (add_events evs1 w) = add_events (evs1 ++ evs2) w.
Proof. unfold add_events; simpl. by rewrite app_assoc. Qed.

Lemma bind_ok {A B} (c : M A) (k : A -> M B) (w w' : World) (a : A) :
  c w = (Ok a, w') -> bind c k w = k a w'.
Proof. intros E. unfold bind. by rewrite E. Qed.


(** A loop whose body adds a term and records a call below a bound [c], and
    does nothing from [c] on, is a fold over the indices below [c]. *)
Lemma for_each_guarded {A} (body : nat -> A -> M A) (f : A -> nat -> A)
    (ev : nat -> list Event) (c : nat) :
  (forall j acc w,
     body j acc w =
     if j <? c then (Ok (f acc j), add_events (ev j) w) else (Ok acc, w)) ->
  forall n a acc w,
    for_each (seq a n) body acc w =
    (Ok (fold_left f (seq a (Nat.min (a + n) c - a)) acc),
     add_events (flat_map ev (seq a (Nat.min (a + n) c - a))) w).
Proof.
  intros Hbody n. induction n as [|n IH]; intros a acc w.
  - replace (Nat.min (a + 0) c - a) with 0 by lia. simpl.
    by rewrite add_events_nil.
  - simpl. unfold bind. rewrite Hbody.
    destruct (a <? c) eqn:Hac.
    + apply Nat.ltb_lt in Hac. rewrite IH.
      replace (Nat.min (a + S n) c - a) with (S (Nat.min (S a + n) c - S a))
        by lia.
      simpl. by rewrite add_events_app.
    + apply Nat.ltb_ge in Hac. rewrite IH.
      replace (Nat.min (S a + n) c - S a) with 0 by lia.
      replace (Nat.min (a + S n) c - a) with 0 by lia.
      done.
Qed.

(** ** The parts of [total_loss], as values and recorded calls *)

Definition solve_params (pool_solutions : nat) : list GurobiParam :=
  if 1 <? pool_solutions
  then [OutputFlag false; PoolSearchMode 2; PoolSolutions pool_solutions]
  else [OutputFlag false].

Definition pool_solutions_of (c : Condition) (self : TrainLyapunovReLU) : nat :=
  match c with
  | Positivity => lyapunov_positivity_mip_pool_solutions self
  | Derivative => lyapunov_derivative_mip_pool_solutions self
  end.

(** The solved MILP of condition [c] for the network parameters [th]. *)
Definition solved (c : Condition) (self : TrainLyapunovReLU) (th : Params)
  : Solved :=
  optimize
    match c with
    | Positivity =>
        lyapunov_positivity_as_milp th (x_equilibrium self) (V_lambda self)
          (lyapunov_positivity_epsilon self)
    | Derivative =>
        lyapunov_derivative_as_milp th (x_equilibrium self) (V_lambda self)
          (lyapunov_derivative_epsilon self)
    end
    (solve_params (pool_solutions_of c self)).

Definition solve_events (c : Condition) (self : TrainLyapunovReLU)
  : list Event :=
  [EvAsMilp c; EvSetParam c (OutputFlag false)] ++
  (if 1 <? pool_solutions_of c self
   then [EvSetParam c (PoolSearchMode 2);
         EvSetParam c (PoolSolutions (pool_solutions_of c self))]
   else []) ++
  [EvOptimize c].

Lemma solve_milp_run (c : Condition) (self : TrainLyapunovReLU) (w : World) :
  solve_milp c self w =
  (Ok (solved c self (theta w)), add_events (solve_events c self) w).
Proof.
  unfold solve_milp, solved, solve_events, solve_params, pool_solutions_of.
  unfold bind, get_theta, emit, ret; simpl.
  destruct c; simpl.
  - destruct (1 <? lyapunov_positivity_mip_pool_solutions self); simpl;
      by rewrite !add_events_app.
  - destruct (1 <? lyapunov_derivative_mip_pool_solutions self); simpl;
      by rewrite !add_events_app.
Qed.

Definition positivity_sample_value (self : TrainLyapunovReLU) (th : Params)
    (weight : option Q) (samples : Tensor2) : Q :=
  let w := set_weight weight (lyapunov_positivity_sample_cost_weight self) in
  if Qnonzero w && (0 <? shape0 samples) then
    (w * lyapunov_positivity_loss_at_samples th
           (relu_forward th (x_equilibrium self)) (x_equilibrium self)
           (samples_in_pool self (rows samples)) (V_lambda self)
           (lyapunov_positivity_epsilon self)
           (lyapunov_positivity_sample_margin self))%Q
  else 0%Q.

Definition positivity_sample_events (self : TrainLyapunovReLU)
    (weight : option Q) (samples : Tensor2) : list Event :=
  let w := set_weight weight (lyapunov_positivity_sample_cost_weight self) in
  if Qnonzero w && (0 <? shape0 samples)
  then [EvPositivityLossAtSamples (samples_in_pool self (rows samples))]
  else [].

Lemma positivity_sample_term_run self weight samples th (w : World) :
  theta w = th ->
  positivity_sample_term self weight samples
    (relu_forward th (x_equilibrium self)) w =
  (Ok (positivity_sample_value self th weight samples),
   add_events (positivity_sample_events self weight samples) w).
Proof.
  intros <-.
  unfold positivity_sample_term, positivity_sample_value,
    positivity_sample_events.
  destruct (Qnonzero _ && _); simpl.
  - reflexivity.
  - unfold ret. by rewrite add_events_nil.
Qed.

(** The derivative window is cut where the derivative pool exceeds the
    configured size; the next-state pool is cut at the same place. *)
Definition derivative_window (self : TrainLyapunovReLU)
    (samples other : Tensor2) : list State :=
  if max_sample_pool_size self <? shape0 samples
  then slice_last (max_sample_pool_size self) (rows other)
  else rows other.

Definition derivative_sample_value (self : TrainLyapunovReLU) (th : Params)
    (weight : option Q) (samples samples_next : Tensor2) : Q :=
  let w := set_weight weight (lyapunov_derivative_sample_cost_weight self) in
  if Qnonzero w && (0 <? shape0 samples) then
    (w * lyapunov_derivative_loss_at_samples_and_next_states th
           (V_lambda self) (lyapunov_derivative_epsilon self)
           (derivative_window self samples samples)
           (derivative_window self samples samples_next)
           (x_equilibrium self) (lyapunov_derivative_sample_margin self))%Q
  else 0%Q.

Definition derivative_sample_events (self : TrainLyapunovReLU)
    (weight : option Q) (samples samples_next : Tensor2) : list Event :=
  let w := set_weight weight (lyapunov_derivative_sample_cost_weight self) in
  if Qnonzero w && (0 <? shape0 samples)
  then [EvDerivativeLossAtSamples (derivative_window self samples samples)
          (derivative_window self samples samples_next)]
  else [].

Lemma derivative_sample_term_run self weight samples samples_next (w : World) :
  derivative_sample_term self weight samples samples_next w =
  (Ok (derivative_sample_value self (theta w) weight samples samples_next),
   add_events (derivative_sample_events self weight samples samples_next) w).
Proof.
  unfold derivative_sample_term, derivative_sample_value,
    derivative_sample_events, derivative_window.
  destruct (Qnonzero _ && _); simpl.
  - reflexivity.
  - unfold ret. by rewrite add_events_nil.
Qed.

(** One ranked solution's share of a certificate loss. *)
Definition positivity_rank_term (self : TrainLyapunovReLU) (weight : Q)
    (mip : Solved) (acc : Q) (j : nat) : Q :=
  (acc + weight * pow (lyapunov_positivity_mip_cost_decay_rate self) j *
         - objective_from_solution mip j)%Q.

Definition derivative_rank_term (self : TrainLyapunovReLU) (weight : Q)
    (mip : Solved) (acc : Q) (j : nat) : Q :=
  (acc + weight * pow (lyapunov_derivative_mip_cost_decay_rate self) j *
         objective_from_solution mip j)%Q.

(** The ranks that enter a certificate loss. *)
Definition ranks (pool_solutions : nat) (mip : Solved) : list nat :=
  seq 0 (Nat.min pool_solutions (solCount mip)).

Definition positivity_mip_value (self : TrainLyapunovReLU) (weight : option Q)
    (mip : Solved) : Q :=
  let w := set_weight weight (lyapunov_positivity_mip_cost_weight self) in
  if Qnonzero w then
    fold_left (positivity_rank_term self w mip)
      (ranks (lyapunov_positivity_mip_pool_solutions self) mip) 0%Q
  else 0%Q.

Definition positivity_mip_events (self : TrainLyapunovReLU)
    (weight : option Q) (mip : Solved) : list Event :=
  let w := set_weight weight (lyapunov_positivity_mip_cost_weight self) in
  if Qnonzero w then
    flat_map (fun j => [EvObjectiveFromSolution Positivity j])
      (ranks (lyapunov_positivity_mip_pool_solutions self) mip)
  else [].

Lemma positivity_mip_term_run self weight mip (w : World) :
  positivity_mip_term self weight mip w =
  (Ok (positivity_mip_value self weight mip),
   add_events (positivity_mip_events self weight mip) w).
Proof.
  unfold positivity_mip_term, positivity_mip_value, positivity_mip_events,
    ranks.
  destruct (Qnonzero _).
  - erewrite for_each_guarded with
      (f := positivity_rank_term self _ mip)
      (ev := fun j => [EvObjectiveFromSolution Positivity j])
      (c := solCount mip).
    + simpl. by rewrite Nat.sub_0_r.
    + intros j acc w'. destruct (j <? solCount mip); reflexivity.
  - unfold ret. by rewrite add_events_nil.
Qed.

Definition derivative_mip_value (self : TrainLyapunovReLU) (weight : option Q)
    (mip : Solved) : Q :=
  let w := set_weight weight (lyapunov_derivative_mip_cost_weight self) in
  if Qnonzero w then
    fold_left (derivative_rank_term self w mip)
      (ranks (lyapunov_derivative_mip_pool_solutions self) mip) 0%Q
  else 0%Q.

Definition derivative_mip_events (self : TrainLyapunovReLU)
    (weight : option Q) (mip : Solved) : list Event :=
  let w := set_weight weight (lyapunov_derivative_mip_cost_weight self) in
  if Qnonzero w then
    flat_map (fun j => [EvObjectiveFromSolution Derivative j;
                        EvSetParam Derivative (SolutionNumber j)])
      (ranks (lyapunov_derivative_mip_pool_solutions self) mip)
  else [].

Lemma derivative_mip_term_run self weight mip (w : World) :
  derivative_mip_term self weight mip w =
  (Ok (derivative_mip_value self weight mip),
   add_events (derivative_mip_events self weight mip) w).
Proof.
  unfold derivative_mip_term, derivative_mip_value, derivative_mip_events,
    ranks.
  destruct (Qnonzero _).
  - erewrite for_each_guarded with
      (f := derivative_rank_term self _ mip)
      (ev := fun j => [EvObjectiveFromSolution Derivative j;
                       EvSetParam Derivative (SolutionNumber j)])
      (c := solCount mip).
    + simpl. by rewrite Nat.sub_0_r.
    + intros j acc w'. destruct (j <? solCount mip); [|reflexivity].
      unfold bind, emit, ret; simpl. by rewrite add_events_app.
  - unfold ret. by rewrite add_events_nil.
Qed.

(** ** [total_loss] in normal form *)

(** The assertions at the entry of [total_loss] (lines 176-185). *)
Definition entry_checks (pt dt nt : Tensor2) : bool :=
  (shape1 pt =? x_dim) && (shape1 dt =? x_dim) &&
  ((shape0 nt =? shape0 dt) && (shape1 nt =? x_dim)).

(** The calls [total_loss] makes before it turns to the adversarial
    states. *)
Definition loss_events (self : TrainLyapunovReLU) (th : Params)
    (pt dt nt : Tensor2) (a b c e : option Q) : list Event :=
  solve_events Positivity self ++ solve_events Derivative self ++
  [EvReluForward] ++
  positivity_sample_events self a pt ++
  derivative_sample_events self b dt nt ++
  positivity_mip_events self c (solved Positivity self th) ++
  derivative_mip_events self e (solved Derivative self th).

Definition loss_return (self : TrainLyapunovReLU) (th : Params)
    (pt dt nt : Tensor2) (a b c e : option Q) (pools : ref * ref * ref)
  : TotalLossReturn := {|
  loss :=
    (positivity_sample_value self th a pt +
     derivative_sample_value self th b dt nt +
     positivity_mip_value self c (solved Positivity self th) +
     derivative_mip_value self e (solved Derivative self th))%Q;
  positivity_mip_objective := ObjVal (solved Positivity self th);
  derivative_mip_objective := ObjVal (solved Derivative self th);
  positivity_sample_loss := positivity_sample_value self th a pt;
  derivative_sample_loss := derivative_sample_value self th b dt nt;
  positivity_mip_loss := positivity_mip_value self c (solved Positivity self th);
  derivative_mip_loss := derivative_mip_value self e (solved Derivative self th);
  positivity_state_samples := pools.1.1;
  derivative_state_samples := pools.1.2;
  derivative_state_samples_next := pools.2;
  loss_graph := {|
    in_positivity_samples := pt;
    in_derivative_samples := dt;
    in_derivative_samples_next := nt;
    in_positivity_sample_cost_weight := a;
    in_derivative_sample_cost_weight := b;
    in_positivity_mip_cost_weight := c;
    in_derivative_mip_cost_weight := e;
    in_loss_is_tensor :=
      loss_is_tensor self a b c e pt dt (solved Positivity self th)
        (solved Derivative self th)
  |}
|}.

(** The last step of [total_loss]: the pools it returns. *)
Definition returned_pools (self : TrainLyapunovReLU) (th : Params)
    (p d n : ref) : M (ref * ref * ref) :=
  if add_adversarial_state_to_training self
  then append_adversarial_states (solved Positivity self th)
         (solved Derivative self th) p d n
  else ret (p, d, n).

Lemma total_loss_unfold self p d n a b c e (w : World) :
  total_loss self p d n a b c e w =
  match tensors w !! p, tensors w !! d, tensors w !! n with
  | Some pt, Some dt, Some nt =>
      if entry_checks pt dt nt then
        match returned_pools self (theta w) p d n
                (add_events (loss_events self (theta w) pt dt nt a b c e) w)
        with
        | (Ok pools, w') =>
            (Ok (loss_return self (theta w) pt dt nt a b c e pools), w')
        | (Raise x, w') => (Raise x, w')
        end
      else (Raise AssertionError, w)
  | _, _, _ => (Raise AssertionError, w)
  end.
Proof.
  unfold total_loss, entry_checks.
  unfold bind at 1, deref at 1. destruct (tensors w !! p) as [pt|]; [|done].
  unfold bind at 1, deref at 1. destruct (tensors w !! d) as [dt|]; [|done].
  unfold bind at 1, deref at 1. destruct (tensors w !! n) as [nt|]; [|done].
  unfold bind at 1, assert at 1.
  destruct (shape1 pt =? x_dim); [|done]. simpl.
  unfold bind at 1, assert at 1.
  destruct (shape1 dt =? x_dim); [|done]. simpl.
  unfold bind at 1, assert at 1.
  destruct ((shape0 nt =? shape0 dt) && (shape1 nt =? x_dim)); [|done]. simpl.
  unfold bind at 1. rewrite solve_milp_run.
  unfold bind at 1. rewrite solve_milp_run.
  unfold bind at 1, get_theta at 1.
  unfold bind at 1, emit at 1.
  unfold bind at 1. rewrite positivity_sample_term_run by reflexivity.
  unfold bind at 1. rewrite derivative_sample_term_run.
  unfold bind at 1. rewrite positivity_mip_term_run.
  unfold bind at 1. rewrite derivative_mip_term_run.
  rewrite !add_events_app. cbn [theta add_events].
  unfold bind at 1, returned_pools, loss_events.
  rewrite <- !app_assoc.
  destruct (add_adversarial_state_to_training self).
  - destruct (append_adversarial_states _ _ _ _ _ _) as [[pools|x] w'];
      reflexivity.
  - reflexivity.
Qed.

(** ** What a computation leaves alone *)

(** [w'] comes from [w] by adding tensors to the store and calls satisfying
    [P] to the trace; the network is the same. *)
Definition frame_of (P : Event -> Prop) (w w' : World) : Prop :=
  tensors w `prefix_of` tensors w' /\
  theta w' = theta w /\
  grads w' = grads w /\
  exists evs, trace w' = trace w ++ evs /\ Forall P evs.

Definition framed (P : Event -> Prop) {A} (c : M A) : Prop :=
  forall w, frame_of P w (c w).2.

Lemma frame_refl P (w : World) : frame_of P w w.
Proof.
  repeat split; try done. exists []. by rewrite app_nil_r.
Qed.

Lemma frame_trans P (w1 w2 w3 : World) :
  frame_of P w1 w2 -> frame_of P w2 w3 -> frame_of P w1 w3.
Proof.
  intros (Ht & Hth & Hg & evs & Hev & HP) (Ht' & Hth' & Hg' & evs' & Hev' & HP').
  repeat split.
  - by etrans.
  - congruence.
  - congruence.
  - exists (evs ++ evs'). split.
    + rewrite Hev', Hev. by rewrite app_assoc.
    + by apply Forall_app.
Qed.

Lemma frame_add_events P evs (w : World) :
  Forall P evs -> frame_of P w (add_events evs w).
Proof. intros H. repeat split; try done. by exists evs. Qed.

Lemma frame_add_tensors P ts (w : World) : frame_of P w (add_tensors ts w).
Proof.
  repeat split; simpl.
  - by apply prefix_app_r.
  - exists []. by rewrite app_nil_r.
Qed.

Lemma frame_weaken (P P' : Event -> Prop) (w w' : World) :
  (forall e, P e -> P' e) -> frame_of P w w' -> frame_of P' w w'.
Proof.
  intros HPP (Ht & Hth & Hg & evs & Hev & HP).
  repeat split; try done. exists evs. split; [done|].
  eapply Forall_impl; eauto.
Qed.

Lemma framed_ret P {A} (a : A) : framed P (ret a).
Proof. intros w. apply frame_refl. Qed.

Lemma framed_raise P {A} (e : Exn) : framed P (@raise _ A e).
Proof. intros w. apply frame_refl. Qed.

Lemma framed_lift P {A} (r : Result A) : framed P (lift r).
Proof. intros w. apply frame_refl. Qed.

Lemma framed_bind P {A B} (c : M A) (k : A -> M B) :
  framed P c -> (forall a, framed P (k a)) -> framed P (bind c k).
Proof.
  intros Hc Hk w. unfold bind. specialize (Hc w).
  destruct (c w) as [[a|e] w1]; simpl in *; [|done].
  eapply frame_trans; [exact Hc|apply Hk].
Qed.

Lemma framed_emit (P : Event -> Prop) (e : Event) : P e -> framed P (emit e).
Proof. intros H w. apply frame_add_events. by constructor. Qed.

Lemma framed_deref P (r : ref) : framed P (deref r).
Proof.
  intros w. unfold deref. destruct (tensors w !! r); apply frame_refl.
Qed.

Lemma framed_alloc P (t : Tensor2) : framed P (alloc t).
Proof. intros w. apply frame_add_tensors. Qed.

Lemma framed_torch_cat P (r : ref) (x : State) : framed P (torch_cat r x).
Proof.
  unfold torch_cat. apply framed_bind; [apply framed_deref|intros t].
  apply framed_bind; [apply framed_lift|intros t']. apply framed_alloc.
Qed.

Definition is_step_forward (e : Event) : Prop :=
  match e with
  | EvStepForward _ _ => True
  | _ => False
  end.

Lemma framed_append_adversarial_states (P : Event -> Prop) pmip dmip p d n :
  (forall e, is_step_forward e -> P e) ->
  framed P (append_adversarial_states pmip dmip p d n).
Proof.
  intros HP. unfold append_adversarial_states.
  apply framed_bind; [apply framed_lift|intros m].
  apply framed_bind; [apply framed_emit; by apply HP|intros _].
  apply framed_bind; [apply framed_torch_cat|intros p'].
  apply framed_bind; [apply framed_torch_cat|intros d'].
  apply framed_bind; [apply framed_torch_cat|intros n'].
  apply framed_ret.
Qed.

Lemma framed_returned_pools (P : Event -> Prop) self th p d n :
  (forall e, is_step_forward e -> P e) ->
  framed P (returned_pools self th p d n).
Proof.
  intros HP. unfold returned_pools.
  destruct (add_adversarial_state_to_training self).
  - by apply framed_append_adversarial_states.
  - apply framed_ret.
Qed.

(** [total_loss] adds tensors and calls; the calls are those of
    [loss_events], then at most one [step_forward]. *)
Lemma total_loss_frame (P : Event -> Prop) self p d n a b c e (w : World) :
  (forall ev, is_step_forward ev -> P ev) ->
  (forall pt dt nt,
     tensors w !! p = Some pt -> tensors w !! d = Some dt ->
     tensors w !! n = Some nt ->
     Forall P (loss_events self (theta w) pt dt nt a b c e)) ->
  frame_of P w (total_loss self p d n a b c e w).2.
Proof.
  intros Hstep Hev. rewrite total_loss_unfold.
  destruct (tensors w !! p) as [pt|]; [|apply frame_refl].
  destruct (tensors w !! d) as [dt|]; [|apply frame_refl].
  destruct (tensors w !! n) as [nt|]; [|apply frame_refl].
  destruct (entry_checks pt dt nt); [|apply frame_refl].
  pose proof (framed_returned_pools P self (theta w) p d n Hstep
                (add_events (loss_events self (theta w) pt dt nt a b c e) w))
    as Hpools.
  assert (frame_of P w
            (add_events (loss_events self (theta w) pt dt nt a b c e) w))
    as Hloss by (apply frame_add_events; by apply Hev).
  destruct (returned_pools _ _ _ _ _ _) as [[pools|x] w']; simpl in *;
    by eapply frame_trans.
Qed.

(** ** The adversarial states *)

Lemma torch_cat_run (r : ref) (x : State) (t : Tensor2) (w : World) :
  tensors w !! r = Some t ->
  torch_cat r x w =
  if length x =? shape1 t
  then (Ok (length (tensors w)),
        add_tensors [mkTensor2 (shape1 t) (rows t ++ [x])] w)
  else (Raise RuntimeError, w).
Proof.
  intros Hr. unfold torch_cat, bind, deref, lift, torch_cat_row, alloc.
  rewrite Hr. by destruct (length x =? shape1 t).
Qed.

(** The sizes [torch.cat] compares in the adversarial block. *)
Definition adversarial_rows_fit (pmip dmip : Solved) (pt dt nt : Tensor2)
    (m : nat) : bool :=
  (length (x_sol pmip) =? shape1 pt) &&
  (length (x_sol dmip) =? shape1 dt) &&
  (length (step_forward (x_sol dmip) (Some m)) =? shape1 nt).

(** The pools after the adversarial block: three new tensors, each an old
    pool followed by one adversarial row. *)
Definition adversarial_pools (pmip dmip : Solved) (pt dt nt : Tensor2)
    (m : nat) : list Tensor2 :=
  [mkTensor2 (shape1 pt) (rows pt ++ [x_sol pmip]);
   mkTensor2 (shape1 dt) (rows dt ++ [x_sol dmip]);
   mkTensor2 (shape1 nt) (rows nt ++ [step_forward (x_sol dmip) (Some m)])].

Lemma append_adversarial_states_run pmip dmip p d n (w : World) pt dt nt m :
  tensors w !! p = Some pt -> tensors w !! d = Some dt ->
  tensors w !! n = Some nt ->
  argwhere_first (gamma_sol dmip) 0 = Some m ->
  adversarial_rows_fit pmip dmip pt dt nt m = true ->
  append_adversarial_states pmip dmip p d n w =
  (Ok (length (tensors w), S (length (tensors w)),
       S (S (length (tensors w)))),
   add_tensors (adversarial_pools pmip dmip pt dt nt m)
     (add_events [EvStepForward (x_sol dmip) (Some m)] w)).
Proof.
  intros Hp Hd Hn Hm Hfit. unfold adversarial_rows_fit in Hfit.
  apply andb_true_iff in Hfit as [Hfit H3].
  apply andb_true_iff in Hfit as [H1 H2].
  unfold append_adversarial_states.
  unfold bind at 1, lift at 1. rewrite Hm.
  unfold bind at 1, emit at 1.
  unfold bind at 1. erewrite torch_cat_run by (simpl; exact Hp). rewrite H1.
  unfold bind at 1. erewrite torch_cat_run
    by (simpl; apply lookup_app_l_Some; exact Hd).
  rewrite H2.
  unfold bind at 1. erewrite torch_cat_run
    by (simpl; do 2 apply lookup_app_l_Some; exact Hn).
  rewrite H3. unfold ret, add_tensors, adversarial_pools; simpl.
  rewrite !length_app; simpl. rewrite <- !app_assoc; simpl.
  do 2 f_equal. do 2 f_equal; lia.
Qed.

(** When the adversarial block returns, the mode was found and the rows
    fitted. *)
Lemma append_adversarial_states_ok pmip dmip p d n (w w' : World) pools
    pt dt nt :
  tensors w !! p = Some pt -> tensors w !! d = Some dt ->
  tensors w !! n = Some nt ->
  append_adversarial_states pmip dmip p d n w = (Ok pools, w') ->
  exists m,
    argwhere_first (gamma_sol dmip) 0 = Some m /\
    adversarial_rows_fit pmip dmip pt dt nt m = true /\
    pools = (length (tensors w), S (length (tensors w)),
             S (S (length (tensors w)))) /\
    w' = add_tensors (adversarial_pools pmip dmip pt dt nt m)
           (add_events [EvStepForward (x_sol dmip) (Some m)] w).
Proof.
  intros Hp Hd Hn Hrun.
  destruct (argwhere_first (gamma_sol dmip) 0) as [m|] eqn:Hm; cycle 1.
  { unfold append_adversarial_states, bind, lift in Hrun.
    by rewrite Hm in Hrun. }
  destruct (adversarial_rows_fit pmip dmip pt dt nt m) eqn:Hfit.
  { erewrite append_adversarial_states_run in Hrun by eassumption.
    injection Hrun as <- <-. by exists m. }
  exfalso. unfold adversarial_rows_fit in Hfit.
  unfold append_adversarial_states in Hrun.
  unfold bind at 1, lift at 1 in Hrun. rewrite Hm in Hrun.
  unfold bind at 1, emit at 1 in Hrun.
  unfold bind at 1 in Hrun.
  erewrite torch_cat_run in Hrun by (simpl; exact Hp).
  destruct (length (x_sol pmip) =? shape1 pt); [|done].
  unfold bind at 1 in Hrun.
  erewrite torch_cat_run in Hrun
    by (simpl; apply lookup_app_l_Some; exact Hd).
  destruct (length (x_sol dmip) =? shape1 dt); [|done].
  unfold bind at 1 in Hrun.
  erewrite torch_cat_run in Hrun
    by (simpl; do 2 apply lookup_app_l_Some; exact Hn).
  destruct (length (step_forward (x_sol dmip) (Some m)) =? shape1 nt);
    done.
Qed.

(** A call of [total_loss] that returns went through the entry assertions,
    and its results are the values above. *)
Lemma total_loss_ok self p d n a b c e (w w' : World) r :
  total_loss self p d n a b c e w = (Ok r, w') ->
  exists pt dt nt pools,
    tensors w !! p = Some pt /\ tensors w !! d = Some dt /\
    tensors w !! n = Some nt /\ entry_checks pt dt nt = true /\
    returned_pools self (theta w) p d n
      (add_events (loss_events self (theta w) pt dt nt a b c e) w) =
      (Ok pools, w') /\
    r = loss_return self (theta w) pt dt nt a b c e pools.
Proof.
  rewrite total_loss_unfold.
  destruct (tensors w !! p) as [pt|] eqn:Hp; [|done].
  destruct (tensors w !! d) as [dt|] eqn:Hd; [|done].
  destruct (tensors w !! n) as [nt|] eqn:Hn; [|done].
  destruct (entry_checks pt dt nt) eqn:Hchecks; [|done].
  destruct (returned_pools _ _ _ _ _ _) as [[pools|x] w1] eqn:Hpools; [|done].
  intros [= <- <-]. by exists pt, dt, nt, pools.
Qed.

(** ** [total_loss] and the tensors of its caller *)

(** C10. [total_loss] writes to no tensor: every tensor of the store, the
    three arguments among them, holds the same contents after the call,
    whether it returns or raises.  With [add_adversarial_state_to_training]
    the three pools returned are tensors that did not exist before the call,
    each the concatenation of an argument and one new row; without it the
    arguments themselves are returned. *)
Theorem total_loss_leaves_inputs_untouched self p d n a b c e (w : World) :
  let out := total_loss self p d n a b c e w in
  (forall i t, tensors w !! i = Some t -> tensors out.2 !! i = Some t) /\
  (forall r, out.1 = Ok r ->
     if add_adversarial_state_to_training self then
       exists pt dt nt mode,
         tensors w !! p = Some pt /\ tensors w !! d = Some dt /\
         tensors w !! n = Some nt /\
         argwhere_first (gamma_sol (solved Derivative self (theta w))) 0 =
           Some mode /\
         tensors w !! positivity_state_samples r = None /\
         tensors w !! derivative_state_samples r = None /\
         tensors w !! derivative_state_samples_next r = None /\
         tensors out.2 !! positivity_state_samples r =
           Some (mkTensor2 (shape1 pt)
                   (rows pt ++ [x_sol (solved Positivity self (theta w))])) /\
         tensors out.2 !! derivative_state_samples r =
           Some (mkTensor2 (shape1 dt)
                   (rows dt ++ [x_sol (solved Derivative self (theta w))])) /\
         tensors out.2 !! derivative_state_samples_next r =
           Some (mkTensor2 (shape1 nt)
                   (rows nt ++
                    [step_forward (x_sol (solved Derivative self (theta w)))
                       (Some mode)]))
     else
       positivity_state_samples r = p /\ derivative_state_samples r = d /\
       derivative_state_samples_next r = n).
Proof.
  intros out. split.
  - intros i t Hi.
    assert (frame_of (fun _ => True) w out.2) as (Hpre & _).
    { apply total_loss_frame; [done|]. intros. by apply Forall_forall. }
    by eapply prefix_lookup_Some.
  - intros r Hr. subst out.
    destruct (total_loss self p d n a b c e w) as [res w'] eqn:Hrun.
    simpl in Hr. subst res.
    apply total_loss_ok in Hrun
      as (pt & dt & nt & pools & Hp & Hd & Hn & _ & Hpools & ->).
    unfold returned_pools in Hpools. simpl.
    destruct (add_adversarial_state_to_training self).
    + eapply append_adversarial_states_ok in Hpools
        as (m & Hm & _ & -> & ->); [|exact Hp|exact Hd|exact Hn].
      exists pt, dt, nt, m. unfold adversarial_pools.
      simpl in *.
      repeat split; try done.
      * apply lookup_ge_None_2. lia.
      * apply lookup_ge_None_2. lia.
      * apply lookup_ge_None_2. lia.
      * by rewrite lookup_app_r, Nat.sub_diag by lia.
      * rewrite lookup_app_r by lia.
        by replace (S (length (tensors w)) - length (tensors w)) with 1 by lia.
      * rewrite lookup_app_r by lia.
        by replace (S (S (length (tensors w))) - length (tensors w)) with 2
          by lia.
    + unfold ret in Hpools. by injection Hpools as <- _.
Qed.

(** ** The certificate losses *)

Definition Qsum (l : list Q) : Q := fold_left Qplus l 0%Q.

(** The certificate loss in the words of the specification: rank [j] of the
    solution pool contributes [weight * decay^j * objective_j] when [j] is
    below the number of solutions the solver reports, and zero otherwise.
    [objective] is the signed objective: [- objective_j] for the positivity
    condition, [objective_j] for the derivative condition. *)
Definition rank_contribution (weight decay : Q) (objective : nat -> Q)
    (count j : nat) : Q :=
  if j <? count then (weight * pow decay j * objective j)%Q else 0%Q.

Definition ranked_certificate_loss (weight decay : Q) (objective : nat -> Q)
    (pool_solutions count : nat) : Q :=
  Qsum (map (fun j => weight * pow decay j * objective j)%Q
          (seq 0 (Nat.min pool_solutions count))).

Lemma Qnonzero_true (x : Q) : ~ (x == 0)%Q -> Qnonzero x = true.
Proof.
  intros H. unfold Qnonzero. apply negb_true_iff.
  destruct (Qeq_bool x 0) eqn:E; [|done].
  apply Qeq_bool_iff in E. contradiction.
Qed.

Lemma Qnonzero_false (x : Q) : (x == 0)%Q -> Qnonzero x = false.
Proof.
  intros H. unfold Qnonzero. apply negb_false_iff. by apply Qeq_bool_iff.
Qed.

Lemma Qplus_0_r_eq (x : Q) : (x + 0)%Q = x.
Proof.
  destruct x as [a b]. unfold Qplus; simpl.
  f_equal; [lia|]. apply Pos.mul_1_r.
Qed.

Lemma fold_positivity_rank_terms self weight mip (l : list nat) (acc : Q) :
  fold_left (positivity_rank_term self weight mip) l acc =
  fold_left Qplus
    (map (fun j => weight *
                   pow (lyapunov_positivity_mip_cost_decay_rate self) j *
                   - objective_from_solution mip j)%Q l) acc.
Proof.
  revert acc. induction l as [|j l IH]; intros acc; simpl; [done|].
  by rewrite IH.
Qed.

Lemma fold_derivative_rank_terms self weight mip (l : list nat) (acc : Q) :
  fold_left (derivative_rank_term self weight mip) l acc =
  fold_left Qplus
    (map (fun j => weight *
                   pow (lyapunov_derivative_mip_cost_decay_rate self) j *
                   objective_from_solution mip j)%Q l) acc.
Proof.
  revert acc. induction l as [|j l IH]; intros acc; simpl; [done|].
  by rewrite IH.
Qed.

(** Summing the contributions of all ranks of the pool is summing the terms
    of the ranks below the solution count. *)
Lemma sum_rank_contributions weight decay objective (count : nat) :
  forall n a acc,
    fold_left Qplus
      (map (rank_contribution weight decay objective count) (seq a n)) acc =
    fold_left Qplus
      (map (fun j => weight * pow decay j * objective j)%Q
         (seq a (Nat.min (a + n) count - a))) acc.
Proof.
  induction n as [|n IH]; intros a acc.
  - by replace (Nat.min (a + 0) count - a) with 0 by lia.
  - simpl. rewrite IH. unfold rank_contribution at 1.
    destruct (a <? count) eqn:Hac.
    + apply Nat.ltb_lt in Hac.
      by replace (Nat.min (a + S n) count - a)
        with (S (Nat.min (S a + n) count - S a)) by lia.
    + apply Nat.ltb_ge in Hac.
      replace (Nat.min (S a + n) count - S a) with 0 by lia.
      replace (Nat.min (a + S n) count - a) with 0 by lia.
      simpl. apply Qplus_0_r_eq.
Qed.

(** C5. With a nonzero certificate weight, the positivity certificate loss
    returned by [total_loss] is the sum of [weight * decay^j * (- objective_j)]
    and the derivative certificate loss the sum of
    [weight * decay^j * objective_j], over the ranks [j] of the solution pool
    that are below the solver's solution count; summing over all ranks of the
    pool with a zero contribution at and beyond that count gives the same
    value. *)
Theorem certificate_loss_is_ranked_sum self p d n a b c e (w w' : World) r :
  total_loss self p d n a b c e w = (Ok r, w') ->
  let positivity_weight :=
    set_weight c (lyapunov_positivity_mip_cost_weight self) in
  let derivative_weight :=
    set_weight e (lyapunov_derivative_mip_cost_weight self) in
  let positivity_mip := solved Positivity self (theta w) in
  let derivative_mip := solved Derivative self (theta w) in
  (~ (positivity_weight == 0)%Q ->
   positivity_mip_loss r =
     ranked_certificate_loss positivity_weight
       (lyapunov_positivity_mip_cost_decay_rate self)
       (fun j => - objective_from_solution positivity_mip j)%Q
       (lyapunov_positivity_mip_pool_solutions self)
       (solCount positivity_mip) /\
   positivity_mip_loss r =
     Qsum (map (rank_contribution positivity_weight
                  (lyapunov_positivity_mip_cost_decay_rate self)
                  (fun j => - objective_from_solution positivity_mip j)%Q
                  (solCount positivity_mip))
             (seq 0 (lyapunov_positivity_mip_pool_solutions self)))) /\
  (~ (derivative_weight == 0)%Q ->
   derivative_mip_loss r =
     ranked_certificate_loss derivative_weight
       (lyapunov_derivative_mip_cost_decay_rate self)
       (objective_from_solution derivative_mip)
       (lyapunov_derivative_mip_pool_solutions self)
       (solCount derivative_mip) /\
   derivative_mip_loss r =
     Qsum (map (rank_contribution derivative_weight
                  (lyapunov_derivative_mip_cost_decay_rate self)
                  (objective_from_solution derivative_mip)
                  (solCount derivative_mip))
             (seq 0 (lyapunov_derivative_mip_pool_solutions self)))).
Proof.
  intros Hrun. apply total_loss_ok in Hrun
    as (pt & dt & nt & pools & _ & _ & _ & _ & _ & ->).
  simpl. split; intros Hw.
  - unfold positivity_mip_value, ranked_certificate_loss, Qsum, ranks.
    rewrite (Qnonzero_true _ Hw), fold_positivity_rank_terms.
    split; [done|].
    rewrite sum_rank_contributions. simpl. by rewrite Nat.sub_0_r.
  - unfold derivative_mip_value, ranked_certificate_loss, Qsum, ranks.
    rewrite (Qnonzero_true _ Hw), fold_derivative_rank_terms.
    split; [done|].
    rewrite sum_rank_contributions. simpl. by rewrite Nat.sub_0_r.
Qed.

(** ** The calls [total_loss] makes *)

(** The arguments as they pass the entry assertions. *)
Definition entry (w : World) (p d n : ref)
  : option (Tensor2 * Tensor2 * Tensor2) :=
  match tensors w !! p, tensors w !! d, tensors w !! n with
  | Some pt, Some dt, Some nt =>
      if entry_checks pt dt nt then Some (pt, dt, nt) else None
  | _, _, _ => None
  end.

(** The one call of the adversarial block. *)
Definition adversarial_events (self : TrainLyapunovReLU) (th : Params)
  : list Event :=
  if add_adversarial_state_to_training self then
    match argwhere_first (gamma_sol (solved Derivative self th)) 0 with
    | Some m => [EvStepForward (x_sol (solved Derivative self th)) (Some m)]
    | None => []
    end
  else [].

Lemma framed_no_events {A} (c : M A) (w : World) :
  framed (fun _ => False) c -> trace (c w).2 = trace w.
Proof.
  intros Hc. destruct (Hc w) as (_ & _ & _ & evs & -> & Hevs).
  destruct evs as [|ev evs]; [by rewrite app_nil_r|].
  by apply Forall_cons in Hevs as [[] _].
Qed.

Lemma returned_pools_trace self th p d n (w : World) :
  trace (returned_pools self th p d n w).2 =
  trace w ++ adversarial_events self th.
Proof.
  unfold returned_pools, adversarial_events.
  destruct (add_adversarial_state_to_training self);
    [|simpl; by rewrite app_nil_r].
  unfold append_adversarial_states.
  unfold bind at 1, lift at 1.
  destruct (argwhere_first _ 0) as [m|]; [|simpl; by rewrite app_nil_r].
  unfold bind at 1, emit at 1.
  rewrite framed_no_events; [done|].
  apply framed_bind; [apply framed_torch_cat|intros p'].
  apply framed_bind; [apply framed_torch_cat|intros d'].
  apply framed_bind; [apply framed_torch_cat|intros n'].
  apply framed_ret.
Qed.

(** The trace of a call of [total_loss], in full. *)
Lemma total_loss_trace self p d n a b c e (w : World) :
  trace (total_loss self p d n a b c e w).2 =
  trace w ++
  match entry w p d n with
  | Some (pt, dt, nt) =>
      loss_events self (theta w) pt dt nt a b c e ++
      adversarial_events self (theta w)
  | None => []
  end.
Proof.
  rewrite total_loss_unfold. unfold entry.
  destruct (tensors w !! p) as [pt|]; [|by rewrite app_nil_r].
  destruct (tensors w !! d) as [dt|]; [|by rewrite app_nil_r].
  destruct (tensors w !! n) as [nt|]; [|by rewrite app_nil_r].
  destruct (entry_checks pt dt nt); [|by rewrite app_nil_r].
  pose proof (returned_pools_trace self (theta w) p d n
                (add_events (loss_events self (theta w) pt dt nt a b c e) w))
    as Htr.
  destruct (returned_pools _ _ _ _ _ _) as [[pools|x] w'];
    cbn [snd trace add_events] in *; by rewrite Htr, app_assoc.
Qed.

(** Kinds of calls. *)
Definition is_sample_evaluation (c : Condition) (ev : Event) : bool :=
  match c, ev with
  | Positivity, EvPositivityLossAtSamples _ => true
  | Derivative, EvDerivativeLossAtSamples _ _ => true
  | _, _ => false
  end.

Definition is_objective_extraction (c : Condition) (ev : Event) : bool :=
  match c, ev with
  | Positivity, EvObjectiveFromSolution Positivity _ => true
  | Derivative, EvObjectiveFromSolution Derivative _ => true
  | _, _ => false
  end.

Definition is_solver_call (ev : Event) : bool :=
  match ev with
  | EvOptimize _ => true
  | _ => false
  end.

Lemma Forall_filter_nil {A} (f : A -> bool) (l : list A) :
  Forall (fun x => f x = false) l -> List.filter f l = [].
Proof.
  induction 1 as [|x l Hx _ IH]; simpl; [done|]. by rewrite Hx.
Qed.

Lemma Forall_flat_map_events {A} (P : Event -> Prop) (f : A -> list Event)
    (l : list A) :
  (forall x, Forall P (f x)) -> Forall P (flat_map f l).
Proof.
  intros Hf. induction l as [|x l IH]; simpl; [done|].
  apply Forall_app. by split.
Qed.

Ltac event_kinds :=
  unfold solve_events, positivity_sample_events, derivative_sample_events,
    positivity_mip_events, derivative_mip_events, adversarial_events;
  repeat match goal with
         | |- context [if ?b then _ else _] => destruct b
         | |- context [match ?o with Some _ => _ | None => _ end] => destruct o
         end;
  first [ apply Forall_flat_map_events; intros; repeat constructor
        | repeat constructor ].

(** Only the two solves call the solver. *)
Lemma loss_events_solver_calls self th pt dt nt a b c e :
  List.filter is_solver_call (loss_events self th pt dt nt a b c e) =
  [EvOptimize Positivity; EvOptimize Derivative].
Proof.
  unfold loss_events.
  assert (forall k, List.filter is_solver_call (solve_events k self) =
                    [EvOptimize k]) as Hsolve.
  { intros k. unfold solve_events.
    by destruct (1 <? pool_solutions_of k self). }
  rewrite !List.filter_app, !Hsolve.
  rewrite (Forall_filter_nil _ [EvReluForward]) by event_kinds.
  rewrite (Forall_filter_nil _ (positivity_sample_events _ _ _))
    by event_kinds.
  rewrite (Forall_filter_nil _ (derivative_sample_events _ _ _ _))
    by event_kinds.
  rewrite (Forall_filter_nil _ (positivity_mip_events _ _ _)) by event_kinds.
  rewrite (Forall_filter_nil _ (derivative_mip_events _ _ _)) by event_kinds.
  done.
Qed.

Lemma adversarial_events_solver_calls self th :
  List.filter is_solver_call (adversarial_events self th) = [].
Proof. apply Forall_filter_nil. event_kinds. Qed.

(** Only the sample term of a condition evaluates its sample loss. *)
Lemma loss_events_sample_evaluation (k : Condition) self th pt dt nt a b c e :
  match k with
  | Positivity => positivity_sample_events self a pt
  | Derivative => derivative_sample_events self b dt nt
  end = [] ->
  Forall (fun ev => is_sample_evaluation k ev = false)
    (loss_events self th pt dt nt a b c e ++ adversarial_events self th).
Proof.
  intros Hoff. unfold loss_events. rewrite !Forall_app.
  destruct k; rewrite Hoff; repeat split; event_kinds.
Qed.

(** Only the certificate term of a condition reads its ranked objectives. *)
Lemma loss_events_objective_extraction (k : Condition) self th pt dt nt
    a b c e :
  match k with
  | Positivity => positivity_mip_events self c (solved Positivity self th)
  | Derivative => derivative_mip_events self e (solved Derivative self th)
  end = [] ->
  Forall (fun ev => is_objective_extraction k ev = false)
    (loss_events self th pt dt nt a b c e ++ adversarial_events self th).
Proof.
  intros Hoff. unfold loss_events. rewrite !Forall_app.
  destruct k; rewrite Hoff; repeat split; event_kinds.
Qed.

Lemma entry_Some (w : World) p d n pt dt nt :
  entry w p d n = Some (pt, dt, nt) ->
  tensors w !! p = Some pt /\ tensors w !! d = Some dt /\
  tensors w !! n = Some nt.
Proof.
  unfold entry.
  destruct (tensors w !! p), (tensors w !! d), (tensors w !! n); try done.
  destruct (entry_checks _ _ _); [|done]. by intros [= -> -> ->].
Qed.

Lemma positivity_sample_off self th a pt :
  (set_weight a (lyapunov_positivity_sample_cost_weight self) == 0)%Q \/
  shape0 pt = 0 ->
  positivity_sample_value self th a pt = 0%Q /\
  positivity_sample_events self a pt = [].
Proof.
  unfold positivity_sample_value, positivity_sample_events.
  intros [Hw | Hn].
  - by rewrite (Qnonzero_false _ Hw).
  - rewrite Hn. by rewrite andb_false_r.
Qed.

Lemma derivative_sample_off self th b dt nt :
  (set_weight b (lyapunov_derivative_sample_cost_weight self) == 0)%Q \/
  shape0 dt = 0 ->
  derivative_sample_value self th b dt nt = 0%Q /\
  derivative_sample_events self b dt nt = [].
Proof.
  unfold derivative_sample_value, derivative_sample_events.
  intros [Hw | Hn].
  - by rewrite (Qnonzero_false _ Hw).
  - rewrite Hn. by rewrite andb_false_r.
Qed.

Lemma positivity_mip_off self c mip :
  (set_weight c (lyapunov_positivity_mip_cost_weight self) == 0)%Q ->
  positivity_mip_value self c mip = 0%Q /\
  positivity_mip_events self c mip = [].
Proof.
  unfold positivity_mip_value, positivity_mip_events. intros Hw.
  by rewrite (Qnonzero_false _ Hw).
Qed.

Lemma derivative_mip_off self e mip :
  (set_weight e (lyapunov_derivative_mip_cost_weight self) == 0)%Q ->
  derivative_mip_value self e mip = 0%Q /\
  derivative_mip_events self e mip = [].
Proof.
  unfold derivative_mip_value, derivative_mip_events. intros Hw.
  by rewrite (Qnonzero_false _ Hw).
Qed.

(** C4. Let [evs] be the calls made by one call of [total_loss].  If the
    positivity (derivative) sample weight resolves to zero or the positivity
    (derivative) pool is empty, the sample loss of that condition is not
    evaluated and the term returned is the float [0]; if a certificate
    weight resolves to zero, no ranked objective of that condition is read
    and the term returned is the float [0]; and the calls of the solver are
    the same whatever the four weights are, so none of them is due to a
    weight. *)
Theorem zero_weight_terms_are_skipped self p d n a b c e (w : World)
    (evs : list Event) :
  let out := total_loss self p d n a b c e w in
  trace out.2 = trace w ++ evs ->
  ((set_weight a (lyapunov_positivity_sample_cost_weight self) == 0)%Q \/
   (exists t, tensors w !! p = Some t /\ shape0 t = 0) ->
   Forall (fun ev => is_sample_evaluation Positivity ev = false) evs /\
   forall r, out.1 = Ok r -> positivity_sample_loss r = 0%Q) /\
  ((set_weight b (lyapunov_derivative_sample_cost_weight self) == 0)%Q \/
   (exists t, tensors w !! d = Some t /\ shape0 t = 0) ->
   Forall (fun ev => is_sample_evaluation Derivative ev = false) evs /\
   forall r, out.1 = Ok r -> derivative_sample_loss r = 0%Q) /\
  ((set_weight c (lyapunov_positivity_mip_cost_weight self) == 0)%Q ->
   Forall (fun ev => is_objective_extraction Positivity ev = false) evs /\
   forall r, out.1 = Ok r -> positivity_mip_loss r = 0%Q) /\
  ((set_weight e (lyapunov_derivative_mip_cost_weight self) == 0)%Q ->
   Forall (fun ev => is_objective_extraction Derivative ev = false) evs /\
   forall r, out.1 = Ok r -> derivative_mip_loss r = 0%Q) /\
  (forall a' b' c' e' evs',
     trace (total_loss self p d n a' b' c' e' w).2 = trace w ++ evs' ->
     List.filter is_solver_call evs' = List.filter is_solver_call evs).
Proof.
  intros out Htrace. subst out.
  rewrite total_loss_trace in Htrace. apply app_inv_head in Htrace.
  assert (forall r,
            (total_loss self p d n a b c e w).1 = Ok r ->
            exists pt dt nt pools,
              tensors w !! p = Some pt /\ tensors w !! d = Some dt /\
              tensors w !! n = Some nt /\
              r = loss_return self (theta w) pt dt nt a b c e pools) as Hret.
  { intros r Hr.
    destruct (total_loss self p d n a b c e w) as [res w'] eqn:Hrun.
    simpl in Hr. subst res.
    apply total_loss_ok in Hrun
      as (pt & dt & nt & pools & Hp & Hd & Hn & _ & _ & ->).
    by exists pt, dt, nt, pools. }
  repeat split.
  - destruct (entry w p d n) as [[[pt dt] nt]|] eqn:Hentry;
      [|by subst evs].
    apply entry_Some in Hentry as (Hp & _ & _). subst evs.
    apply (loss_events_sample_evaluation Positivity).
    apply (positivity_sample_off self (theta w)).
    destruct H as [Hw | (t & Ht & Hn)]; [by left|right]. congruence.
  - intros r Hr. apply Hret in Hr as (pt & dt & nt & pools & Hp & _ & _ & ->).
    simpl. apply positivity_sample_off.
    destruct H as [Hw | (t & Ht & Hn)]; [by left|right]. congruence.
  - destruct (entry w p d n) as [[[pt dt] nt]|] eqn:Hentry;
      [|by subst evs].
    apply entry_Some in Hentry as (_ & Hd & _). subst evs.
    apply (loss_events_sample_evaluation Derivative).
    apply (derivative_sample_off self (theta w)).
    destruct H as [Hw | (t & Ht & Hn)]; [by left|right]. congruence.
  - intros r Hr. apply Hret in Hr as (pt & dt & nt & pools & _ & Hd & _ & ->).
    simpl. apply derivative_sample_off.
    destruct H as [Hw | (t & Ht & Hn)]; [by left|right]. congruence.
  - destruct (entry w p d n) as [[[pt dt] nt]|] eqn:Hentry;
      [|by subst evs].
    subst evs. apply (loss_events_objective_extraction Positivity).
    by apply positivity_mip_off.
  - intros r Hr. apply Hret in Hr as (pt & dt & nt & pools & _ & _ & _ & ->).
    simpl. by apply positivity_mip_off.
  - destruct (entry w p d n) as [[[pt dt] nt]|] eqn:Hentry;
      [|by subst evs].
    subst evs. apply (loss_events_objective_extraction Derivative).
    by apply derivative_mip_off.
  - intros r Hr. apply Hret in Hr as (pt & dt & nt & pools & _ & _ & _ & ->).
    simpl. by apply derivative_mip_off.
  - intros a' b' c' e' evs' Htrace'.
    rewrite total_loss_trace in Htrace'. apply app_inv_head in Htrace'.
    subst evs evs'.
    destruct (entry w p d n) as [[[pt dt] nt]|]; [|done].
    by rewrite !List.filter_app, !loss_events_solver_calls.
Qed.

(** ** The window of the sample pools *)

Lemma slice_last_prepend (k : nat) (extra l : list State) :
  0 < k -> k <= length l ->
  slice_last k (extra ++ l) = drop (length l - k) l.
Proof.
  intros Hk Hl. unfold slice_last.
  destruct (k =? 0) eqn:E; [apply Nat.eqb_eq in E; lia|].
  rewrite length_app.
  replace (length extra + length l - k) with (length extra + (length l - k))
    by lia.
  by rewrite drop_app_add.
Qed.

Lemma samples_in_pool_drop self (l : list State) :
  0 < max_sample_pool_size self -> max_sample_pool_size self <= length l ->
  samples_in_pool self l = drop (length l - max_sample_pool_size self) l.
Proof.
  intros Hk Hl. unfold samples_in_pool.
  destruct (max_sample_pool_size self <? length l) eqn:E.
  - by rewrite (slice_last_prepend _ [] l).
  - apply Nat.ltb_ge in E.
    by replace (length l - max_sample_pool_size self) with 0 by lia.
Qed.

(** Rows put in front of a pool that fills the window do not enter it. *)
Lemma samples_in_pool_prepend self (extra l : list State) :
  0 < max_sample_pool_size self -> max_sample_pool_size self <= length l ->
  samples_in_pool self (extra ++ l) = samples_in_pool self l.
Proof.
  intros Hk Hl. rewrite (samples_in_pool_drop self l) by done.
  unfold samples_in_pool.
  destruct (max_sample_pool_size self <? length (extra ++ l)) eqn:E.
  - by apply slice_last_prepend.
  - apply Nat.ltb_ge in E. rewrite length_app in E.
    assert (length extra = 0) as Hx by lia.
    destruct extra; [|done]. simpl.
    by replace (length l - max_sample_pool_size self) with 0 by lia.
Qed.

Lemma derivative_window_prepend self (samples other : Tensor2)
    (extra_s extra_o : list State) :
  0 < max_sample_pool_size self ->
  max_sample_pool_size self <= shape0 samples ->
  shape0 other = shape0 samples ->
  length extra_o = length extra_s ->
  derivative_window self
    (mkTensor2 (shape1 samples) (extra_s ++ rows samples))
    (mkTensor2 (shape1 other) (extra_o ++ rows other)) =
  derivative_window self samples other.
Proof.
  unfold shape0. intros Hk Hl Hso Hx.
  pose proof (samples_in_pool_prepend self extra_o (rows other) Hk) as Hpre.
  unfold samples_in_pool in Hpre. unfold derivative_window, shape0; simpl.
  rewrite length_app in *. rewrite <- Hso, <- Hx. apply Hpre. lia.
Qed.

(** X1. For a window of at least one row: rows put in front of pools that
    already fill the window change none of the losses [total_loss]
    returns. *)
Lemma sample_window_invariance self p d n p' d' n' a b c e (w w1 : World)
    pt dt nt (extra_p extra_d extra_n : list State) r :
  0 < max_sample_pool_size self ->
  tensors w !! p = Some pt -> tensors w !! d = Some dt ->
  tensors w !! n = Some nt ->
  tensors w !! p' = Some (mkTensor2 (shape1 pt) (extra_p ++ rows pt)) ->
  tensors w !! d' = Some (mkTensor2 (shape1 dt) (extra_d ++ rows dt)) ->
  tensors w !! n' = Some (mkTensor2 (shape1 nt) (extra_n ++ rows nt)) ->
  length extra_n = length extra_d ->
  max_sample_pool_size self <= shape0 pt ->
  max_sample_pool_size self <= shape0 dt ->
  total_loss self p d n a b c e w = (Ok r, w1) ->
  exists r' w1',
    total_loss self p' d' n' a b c e w = (Ok r', w1') /\
    loss r' = loss r /\
    positivity_mip_objective r' = positivity_mip_objective r /\
    derivative_mip_objective r' = derivative_mip_objective r /\
    positivity_sample_loss r' = positivity_sample_loss r /\
    derivative_sample_loss r' = derivative_sample_loss r /\
    positivity_mip_loss r' = positivity_mip_loss r /\
    derivative_mip_loss r' = derivative_mip_loss r.
Proof.
  intros Hk Hp Hd Hn Hp' Hd' Hn' Hx Hlp Hld Hrun.
  apply total_loss_ok in Hrun
    as (pt0 & dt0 & nt0 & pools & Hp0 & Hd0 & Hn0 & Hchecks & Hpools & ->).
  assert (pt0 = pt) as -> by congruence.
  assert (dt0 = dt) as -> by congruence.
  assert (nt0 = nt) as -> by congruence.
  unfold entry_checks in Hchecks.
  apply andb_true_iff in Hchecks as [Hc12 Hc3].
  apply andb_true_iff in Hc12 as [Hc1 Hc2].
  apply andb_true_iff in Hc3 as [Hc3 Hc4].
  pose proof Hc3 as Hlen. apply Nat.eqb_eq in Hlen.
  set (pt' := mkTensor2 (shape1 pt) (extra_p ++ rows pt)) in *.
  set (dt' := mkTensor2 (shape1 dt) (extra_d ++ rows dt)) in *.
  set (nt' := mkTensor2 (shape1 nt) (extra_n ++ rows nt)) in *.
  assert (positivity_sample_value self (theta w) a pt' =
          positivity_sample_value self (theta w) a pt) as Hps.
  { unfold positivity_sample_value, pt', shape0 in *; simpl.
    rewrite samples_in_pool_prepend by done. rewrite length_app.
    replace (0 <? length extra_p + length (rows pt)) with true
      by (symmetry; apply Nat.ltb_lt; lia).
    replace (0 <? length (rows pt)) with true
      by (symmetry; apply Nat.ltb_lt; lia).
    done. }
  assert (derivative_sample_value self (theta w) b dt' nt' =
          derivative_sample_value self (theta w) b dt nt) as Hds.
  { unfold derivative_sample_value, dt', nt'.
    rewrite !derivative_window_prepend by done.
    unfold shape0 in *; simpl. rewrite length_app.
    replace (0 <? length extra_d + length (rows dt)) with true
      by (symmetry; apply Nat.ltb_lt; lia).
    replace (0 <? length (rows dt)) with true
      by (symmetry; apply Nat.ltb_lt; lia).
    done. }
  assert (entry_checks pt' dt' nt' = true) as Hchecks'.
  { unfold entry_checks, pt', dt', nt', shape0 in *; simpl.
    rewrite Hc1, Hc2, Hc4. simpl. rewrite andb_true_r.
    apply Nat.eqb_eq. rewrite !length_app. lia. }
  assert (exists pools' w1',
            returned_pools self (theta w) p' d' n'
              (add_events (loss_events self (theta w) pt' dt' nt' a b c e) w)
            = (Ok pools', w1')) as (pools' & w1' & Hpools').
  { unfold returned_pools in *.
    destruct (add_adversarial_state_to_training self); [|by eexists _, _].
    eapply append_adversarial_states_ok in Hpools
      as (m & Hm & Hfit & _ & _); [|exact Hp|exact Hd|exact Hn].
    eexists _, _.
    eapply append_adversarial_states_run;
      [exact Hp'|exact Hd'|exact Hn'|exact Hm|exact Hfit]. }
  exists (loss_return self (theta w) pt' dt' nt' a b c e pools'), w1'.
  split.
  - rewrite total_loss_unfold, Hp', Hd', Hn'.
    fold pt' dt' nt'. by rewrite Hchecks', Hpools'.
  - simpl. by rewrite Hps, Hds.
Qed.

(** ** Runs of [train] *)

(** The first [k] turns of the loop of [train], as long as none returns. *)
Fixpoint train_iterations (self : TrainLyapunovReLU) (k : nat)
    (st : TrainState) : M (Flow TrainState TrainReturn) :=
  match k with
  | 0 => ret (Continue st)
  | S k' =>
      flow <- train_iteration self st ;;
      match flow with
      | Continue st' => train_iterations self k' st'
      | Return r => ret (Return r)
      end
  end.

(** The world in which [total_loss] is called: the gradients are reset. *)
Definition after_zero_grad (w : World) : World :=
  add_events [EvZeroGrad] (set_grads (zero_grad (grads w)) w).

(** The call that fills the gradient buffers in an iteration of [train]. *)
Definition gradient_event (self : TrainLyapunovReLU) (r : TotalLossReturn)
    (mode : option ProjectGradientMode) : list Event :=
  match project_gradient_method self, mode with
  | NONE, _ => [EvBackward]
  | _, Some m =>
      [EvProjectGradient
         (positivity_sample_loss r + positivity_mip_loss r)%Q
         (derivative_sample_loss r + derivative_mip_loss r)%Q m]
  | _, None => []
  end.

Lemma list_set_ok {A} (l l' : list A) (i : nat) (v : A) :
  list_set l i v = Ok l' -> i < length l /\ l' = <[i := v]> l.
Proof.
  unfold list_set. destruct (i <? length l) eqn:E; [|done].
  apply Nat.ltb_lt in E. by intros [= <-].
Qed.

Lemma next_project_gradient_mode_pure self st (w w' : World) res :
  next_project_gradient_mode self st w = (res, w') -> w' = w.
Proof.
  unfold next_project_gradient_mode.
  destruct (project_gradient_method self); try by intros [= _ <-].
  destruct (iter_count st =? 0); [by intros [= _ <-]|].
  destruct (project_gradient_mode st); by intros [= _ <-].
Qed.

(** A turn of the loop that goes on to the next iteration. *)
Lemma train_iteration_continue self st st' (w w' : World) :
  train_iteration self st w = (Ok (Continue st'), w') ->
  exists r w1,
    total_loss self (train_positivity_state_samples st)
      (train_derivative_state_samples st)
      (train_derivative_state_samples_next st) None None None None
      (after_zero_grad w) = (Ok r, w1) /\
    converged self (positivity_mip_objective r) (derivative_mip_objective r)
      = false /\
    iter_count st < length (lyapunov_positivity_mip_costs st) /\
    iter_count st < length (lyapunov_derivative_mip_costs st) /\
    iter_count st < length (losses st) /\
    next_project_gradient_mode self st w1 = (Ok (project_gradient_mode st'), w1) /\
    iter_count st' = iter_count st + 1 /\
    train_positivity_state_samples st' = positivity_state_samples r /\
    train_derivative_state_samples st' = derivative_state_samples r /\
    train_derivative_state_samples_next st' =
      derivative_state_samples_next r /\
    lyapunov_positivity_mip_costs st' =
      <[iter_count st := Some (positivity_mip_objective r)]>
        (lyapunov_positivity_mip_costs st) /\
    lyapunov_derivative_mip_costs st' =
      <[iter_count st := Some (derivative_mip_objective r)]>
        (lyapunov_derivative_mip_costs st) /\
    losses st' = <[iter_count st := Some (loss r)]> (losses st) /\
    tensors w' = tensors w1 /\
    trace w' =
      trace w1 ++ gradient_event self r (project_gradient_mode st') ++
      [EvOptimizerStep] /\
    (project_gradient_method self <> NONE ->
     is_Some (project_gradient_mode st')).
Proof.
  unfold train_iteration.
  unfold bind at 1. change (optimizer_zero_grad w) with (Ok tt, after_zero_grad w).
  cbv iota beta.
  unfold bind at 1.
  destruct (total_loss _ _ _ _ _ _ _ _ _) as [[r|x] w1] eqn:Hloss; [|done].
  unfold bind at 1, lift at 1.
  destruct (list_set (lyapunov_positivity_mip_costs st) _ _) as [pcs|x] eqn:Hp;
    [|done].
  unfold bind at 1, lift at 1.
  destruct (list_set (lyapunov_derivative_mip_costs st) _ _) as [dcs|x] eqn:Hd;
    [|done].
  unfold bind at 1, lift at 1, loss_item.
  destruct (in_loss_is_tensor (loss_graph r)) eqn:Htensor; [|done].
  unfold bind at 1, lift at 1.
  destruct (list_set (losses st) _ _) as [ls|x] eqn:Hl; [|done].
  apply list_set_ok in Hp as [Hp ->].
  apply list_set_ok in Hd as [Hd ->].
  apply list_set_ok in Hl as [Hl ->].
  destruct (converged self _ _) eqn:Hconv; [done|].
  unfold bind at 1.
  destruct (next_project_gradient_mode self st w1) as [[mode|x] w2] eqn:Hmode;
    [|done].
  pose proof (next_project_gradient_mode_pure _ _ _ _ _ Hmode) as ->.
  unfold bind at 1. intros Hrest.
  exists r, w1.
  assert (exists wg,
            match project_gradient_method self with
            | NONE => loss_backward self (loss_graph r)
            | _ =>
                match mode with
                | Some m =>
                    call_project_gradient self (loss_graph r)
                      (positivity_sample_loss r + positivity_mip_loss r)%Q
                      (derivative_sample_loss r + derivative_mip_loss r)%Q m
                | None => raise NameError
                end
            end w1 = (Ok tt, wg) /\
            tensors wg = tensors w1 /\
            trace wg = trace w1 ++ gradient_event self r mode /\
            (project_gradient_method self <> NONE -> is_Some mode))
    as (wg & Hg & Htg & Hevg & Hsome).
  { unfold gradient_event.
    destruct (project_gradient_method self) eqn:Hmethod.
    - unfold loss_backward. rewrite Htensor. eexists; repeat split. done.
    - destruct mode as [m|]; [|done]. eexists; repeat split. by eexists.
    - destruct mode as [m|]; [|done]. eexists; repeat split. by eexists.
    - destruct mode as [m|]; [|done]. eexists; repeat split. by eexists. }
  rewrite Hg in Hrest. unfold bind at 1, call_optimizer_step in Hrest.
  destruct (optimizer_step _ _ _) as [theta' o'].
  unfold ret in Hrest. injection Hrest as <- <-. simpl.
  rewrite Htg, Hevg, <- app_assoc.
  repeat split; try done.
Qed.

Lemma bind_inv {A B} (c : M A) (k : A -> M B) (w w' : World) (b : B) :
  bind c k w = (Ok b, w') ->
  exists a w1, c w = (Ok a, w1) /\ k a w1 = (Ok b, w').
Proof.
  unfold bind. destruct (c w) as [[a|x] w1]; [|done]. by exists a, w1.
Qed.

Lemma train_iterations_invariant self (Inv : TrainState -> World -> Prop) :
  (forall st w st' w',
     Inv st w -> train_iteration self st w = (Ok (Continue st'), w') ->
     Inv st' w') ->
  forall k st w st' w',
    Inv st w -> train_iterations self k st w = (Ok (Continue st'), w') ->
    Inv st' w'.
Proof.
  intros Hstep k. induction k as [|k IH]; intros st w st' w' Hinv; simpl.
  - by intros [= <- <-].
  - intros Hrun. apply bind_inv in Hrun as ([st1|res] & w1 & Hit & Hrest);
      [|done].
    eapply IH; [|exact Hrest]. by eapply Hstep.
Qed.

Lemma train_iterations_count self k st st' (w w' : World) :
  train_iterations self k st w = (Ok (Continue st'), w') ->
  iter_count st' = iter_count st + k.
Proof.
  revert st w. induction k as [|k IH]; intros st w; simpl.
  - intros [= <- <-]. lia.
  - intros Hrun. apply bind_inv in Hrun as ([st1|res] & w1 & Hit & Hrest);
      [|done].
    apply IH in Hrest.
    apply train_iteration_continue in Hit
      as (r & w2 & _ & _ & _ & _ & _ & _ & Hcount & _).
    lia.
Qed.


(** *** Entering the loop *)

Lemma map_m_step_forward_run (l : list State) (w : World) :
  map_m call_step_forward l w =
  (Ok (map (fun x => step_forward x None) l),
   add_events (map (fun x => EvStepForward x None) l) w).
Proof.
  revert w. induction l as [|x l IH]; intros w; simpl.
  - unfold ret. by rewrite add_events_nil.
  - unfold bind at 1, call_step_forward at 1, bind at 1, emit, ret.
    unfold bind at 1. rewrite IH. unfold ret.
    by rewrite add_events_app.
Qed.

Lemma torch_stack_ok (xs : list State) (t : Tensor2) :
  torch_stack xs = Ok t -> rows t = xs.
Proof.
  unfold torch_stack. destruct xs as [|x rest]; [done|].
  destruct (forallb (fun y => length y =? length x) rest); [|done].
  by intros [= <-].
Qed.

Lemma stack_step_forward_ok (samples : ref) (w w' : World) (next : ref) :
  stack_step_forward samples w = (Ok next, w') ->
  exists t nt,
    tensors w !! samples = Some t /\
    rows nt = map (fun x => step_forward x None) (rows t) /\
    next = length (tensors w) /\
    w' = add_tensors [nt]
           (add_events (map (fun x => EvStepForward x None) (rows t)) w).
Proof.
  unfold stack_step_forward. unfold bind at 1, deref.
  destruct (tensors w !! samples) as [t|]; [|done].
  unfold bind at 1. rewrite map_m_step_forward_run.
  unfold bind at 1, lift.
  destruct (torch_stack _) as [nt|x] eqn:Hstack; [|done].
  unfold alloc. intros [= <- <-]. exists t, nt.
  repeat split; try done. by apply torch_stack_ok.
Qed.

(** [train] enters its loop with two copies of the samples, one next state
    per sample, empty histories and no projection mode. *)
Lemma train_setup_ok self (all : ref) (w0 w : World) st :
  train_setup self all w0 = (Ok st, w) ->
  exists t nt opt,
    tensors w0 !! all = Some t /\
    rows nt = map (fun x => step_forward x None) (rows t) /\
    tensors w = tensors w0 ++ [t; t; nt] /\
    theta w = theta w0 /\
    trace w = trace w0 ++ map (fun x => EvStepForward x None) (rows t) /\
    st = {|
      iter_count := 0;
      train_positivity_state_samples := length (tensors w0);
      train_derivative_state_samples := S (length (tensors w0));
      train_derivative_state_samples_next := S (S (length (tensors w0)));
      train_optimizer := opt;
      lyapunov_positivity_mip_costs := replicate (max_iterations self) None;
      lyapunov_derivative_mip_costs := replicate (max_iterations self) None;
      losses := replicate (max_iterations self) None;
      project_gradient_mode := None
    |}.
Proof.
  unfold train_setup. unfold bind at 1, deref.
  destruct (tensors w0 !! all) as [t|] eqn:Hall; [|done].
  unfold bind at 1, assert. destruct (shape1 t =? x_dim); [|done].
  unfold ret at 1. cbv iota beta.
  unfold bind at 1, clone at 1, bind at 1, deref. rewrite Hall.
  unfold alloc at 1. cbv iota beta.
  unfold bind at 1, clone at 1, bind at 1, deref.
  cbn [tensors add_tensors]. rewrite (lookup_app_l_Some _ _ _ _ Hall).
  unfold alloc at 1. cbv iota beta.
  unfold bind at 1.
  destruct (stack_step_forward _ _) as [[next|x] w1] eqn:Hstack; [|done].
  apply stack_step_forward_ok in Hstack as (t' & nt & Ht' & Hrows & -> & ->).
  cbn [tensors add_tensors add_events] in Ht'.
  rewrite length_app in Ht'. simpl in Ht'.
  rewrite lookup_app_r in Ht' by (rewrite length_app; simpl; lia).
  rewrite length_app in Ht'. simpl in Ht'.
  replace (length (tensors w0) + 1 - (length (tensors w0) + 1)) with 0
    in Ht' by lia.
  injection Ht' as <-.
  unfold bind at 1, make_optimizer.
  assert (forall o : OptState,
            ret (A := OptState) o
              (add_tensors [nt]
                 (add_events (map (fun x => EvStepForward x None) (rows t))
                    (add_tensors [t] (add_tensors [t] w0)))) =
            (Ok o, add_tensors [nt]
                     (add_events
                        (map (fun x => EvStepForward x None) (rows t))
                        (add_tensors [t] (add_tensors [t] w0))))) as Hret
    by done.
  destruct (String.eqb (optimizer self) "Adam");
    [|destruct (String.eqb (optimizer self) "SGD"); [|done]].
  all: rewrite Hret; unfold ret; intros [= <- <-].
  all: eexists t, nt, _; cbn [tensors trace theta add_tensors add_events].
  all: rewrite !length_app; simpl; rewrite <- !app_assoc; simpl.
  all: repeat split; try done.
  all: f_equal; lia.
Qed.

(** ** The sample pools *)

(** Rows a call of [total_loss] appends to each pool. *)
Definition pool_growth (self : TrainLyapunovReLU) : nat :=
  if add_adversarial_state_to_training self then 1 else 0.

(** The pools a call of [total_loss] returns are its arguments, each
    followed by [pool_growth] new rows. *)
Lemma total_loss_pool_rows self p d n a b c e (w w' : World) r :
  total_loss self p d n a b c e w = (Ok r, w') ->
  exists pt dt nt,
    tensors w !! p = Some pt /\ tensors w !! d = Some dt /\
    tensors w !! n = Some nt /\ entry_checks pt dt nt = true /\
    tensors w `prefix_of` tensors w' /\
    if add_adversarial_state_to_training self then
      exists m,
        argwhere_first (gamma_sol (solved Derivative self (theta w))) 0 =
          Some m /\
        tensors w' !! positivity_state_samples r =
          Some (mkTensor2 (shape1 pt)
                  (rows pt ++ [x_sol (solved Positivity self (theta w))])) /\
        tensors w' !! derivative_state_samples r =
          Some (mkTensor2 (shape1 dt)
                  (rows dt ++ [x_sol (solved Derivative self (theta w))])) /\
        tensors w' !! derivative_state_samples_next r =
          Some (mkTensor2 (shape1 nt)
                  (rows nt ++
                   [step_forward (x_sol (solved Derivative self (theta w)))
                      (Some m)]))
    else
      positivity_state_samples r = p /\ derivative_state_samples r = d /\
      derivative_state_samples_next r = n.
Proof.
  intros Hrun.
  assert (frame_of (fun _ => True) w w') as (Hpre & _).
  { replace w' with (total_loss self p d n a b c e w).2 by by rewrite Hrun.
    apply total_loss_frame; [done|]. intros. by apply Forall_forall. }
  apply total_loss_ok in Hrun
    as (pt & dt & nt & pools & Hp & Hd & Hn & Hchecks & Hpools & ->).
  exists pt, dt, nt. do 5 (split; [done|]).
  unfold returned_pools in Hpools. simpl.
  destruct (add_adversarial_state_to_training self).
  - eapply append_adversarial_states_ok in Hpools
      as (m & Hm & _ & -> & ->); [|exact Hp|exact Hd|exact Hn].
    exists m. unfold adversarial_pools. simpl in *.
    split; [done|]. split; [|split].
    + by rewrite lookup_app_r, Nat.sub_diag by lia.
    + rewrite lookup_app_r by lia.
      by replace (S (length (tensors w)) - length (tensors w)) with 1 by lia.
    + rewrite lookup_app_r by lia.
      by replace (S (S (length (tensors w))) - length (tensors w)) with 2
        by lia.
  - unfold ret in Hpools. by injection Hpools as <- _.
Qed.

Lemma total_loss_pools self p d n a b c e (w w' : World) r :
  total_loss self p d n a b c e w = (Ok r, w') ->
  exists pt dt nt extra_p extra_d extra_n,
    tensors w !! p = Some pt /\ tensors w !! d = Some dt /\
    tensors w !! n = Some nt /\ shape0 nt = shape0 dt /\
    tensors w' !! positivity_state_samples r =
      Some (mkTensor2 (shape1 pt) (rows pt ++ extra_p)) /\
    tensors w' !! derivative_state_samples r =
      Some (mkTensor2 (shape1 dt) (rows dt ++ extra_d)) /\
    tensors w' !! derivative_state_samples_next r =
      Some (mkTensor2 (shape1 nt) (rows nt ++ extra_n)) /\
    length extra_p = pool_growth self /\
    length extra_d = pool_growth self /\
    length extra_n = pool_growth self.
Proof.
  intros Hrun.
  apply total_loss_pool_rows in Hrun
    as (pt & dt & nt & Hp & Hd & Hn & Hchecks & Hpre & Hret).
  unfold entry_checks in Hchecks.
  apply andb_true_iff in Hchecks as [_ Hc].
  apply andb_true_iff in Hc as [Hlen%Nat.eqb_eq _].
  unfold pool_growth.
  destruct (add_adversarial_state_to_training self).
  - destruct Hret as (m & _ & Hrp & Hrd & Hrn).
    by eexists pt, dt, nt, [_], [_], [_].
  - destruct Hret as (-> & -> & ->).
    exists pt, dt, nt, [], [], []. rewrite !app_nil_r.
    destruct pt, dt, nt. simpl in *.
    repeat split; try done; by eapply prefix_lookup_Some.
Qed.

(** The derivative pool and its next-state pool, as held by [train], are
    tensors of equal length. *)
Definition pools_aligned (w : World) (st : TrainState) : Prop :=
  exists dt nt,
    tensors w !! train_derivative_state_samples st = Some dt /\
    tensors w !! train_derivative_state_samples_next st = Some nt /\
    shape0 nt = shape0 dt.

Lemma pools_aligned_step self st st' (w w' : World) :
  train_iteration self st w = (Ok (Continue st'), w') ->
  pools_aligned w' st'.
Proof.
  intros Hit. apply train_iteration_continue in Hit
    as (r & w1 & Hloss & _ & _ & _ & _ & _ & _ & _ & Hd & Hn & _ & _ & _ &
        Hts & _).
  apply total_loss_pools in Hloss
    as (pt & dt & nt & xp & xd & xn & _ & _ & _ & Hlen & _ & Hd' & Hn' & _ &
        Hxd & Hxn).
  unfold pools_aligned. rewrite Hd, Hn, Hts.
  eexists _, _. split; [exact Hd'|]. split; [exact Hn'|].
  unfold shape0 in *; simpl. rewrite !length_app. lia.
Qed.

(** C9. In every run of [train]: the loop is entered with a next-state pool
    that holds one next state per sample of the derivative pool; at every
    iteration reached the two pools have equal length; and a call of
    [total_loss] returns each of the three pools with at most one row added
    at its end, one when [add_adversarial_state_to_training] is set and none
    otherwise, the same number for the derivative pool and its next-state
    pool. *)
Theorem derivative_pools_have_equal_length self (all : ref) (w0 : World) :
  (forall st w,
     train_setup self all w0 = (Ok st, w) ->
     exists t nt,
       tensors w0 !! all = Some t /\
       tensors w !! train_derivative_state_samples st = Some t /\
       tensors w !! train_derivative_state_samples_next st = Some nt /\
       rows nt = map (fun x => step_forward x None) (rows t)) /\
  (forall k st w,
     (st0 <- train_setup self all ;; train_iterations self k st0) w0 =
       (Ok (Continue st), w) ->
     pools_aligned w st) /\
  (forall p d n a b c e w r w',
     total_loss self p d n a b c e w = (Ok r, w') ->
     exists pt dt nt extra_p extra_d extra_n,
       tensors w !! p = Some pt /\ tensors w !! d = Some dt /\
       tensors w !! n = Some nt /\
       tensors w' !! positivity_state_samples r =
         Some (mkTensor2 (shape1 pt) (rows pt ++ extra_p)) /\
       tensors w' !! derivative_state_samples r =
         Some (mkTensor2 (shape1 dt) (rows dt ++ extra_d)) /\
       tensors w' !! derivative_state_samples_next r =
         Some (mkTensor2 (shape1 nt) (rows nt ++ extra_n)) /\
       length extra_p <= 1 /\ length extra_d <= 1 /\
       length extra_n = length extra_d /\
       length extra_d =
         if add_adversarial_state_to_training self then 1 else 0).
Proof.
  assert (forall st w,
            train_setup self all w0 = (Ok st, w) ->
            exists t nt,
              tensors w0 !! all = Some t /\
              tensors w !! train_derivative_state_samples st = Some t /\
              tensors w !! train_derivative_state_samples_next st = Some nt /\
              rows nt = map (fun x => step_forward x None) (rows t))
    as Hsetup.
  { intros st w Hst. apply train_setup_ok in Hst
      as (t & nt & opt & Hall & Hrows & Hts & _ & _ & ->).
    exists t, nt. simpl. rewrite Hts. repeat split; try done.
    - rewrite lookup_app_r by lia.
      by replace (S (length (tensors w0)) - length (tensors w0)) with 1
        by lia.
    - rewrite lookup_app_r by lia.
      by replace (S (S (length (tensors w0))) - length (tensors w0)) with 2
        by lia. }
  split; [exact Hsetup|]. split.
  - intros k st w Hrun.
    apply bind_inv in Hrun as (st0 & w1 & Hst0 & Hrun).
    eapply (train_iterations_invariant self (fun st w => pools_aligned w st));
      [| |exact Hrun].
    + intros st1 w2 st2 w3 _. apply pools_aligned_step.
    + destruct (Hsetup _ _ Hst0) as (t & nt & _ & Hd & Hn & Hrows).
      exists t, nt. repeat split; try done.
      unfold shape0. by rewrite Hrows, length_map.
  - intros p d n a b c e w r w' Hrun.
    apply total_loss_pools in Hrun
      as (pt & dt & nt & xp & xd & xn & Hp & Hd & Hn & _ & Hp' & Hd' & Hn' &
          Hxp & Hxd & Hxn).
    exists pt, dt, nt, xp, xd, xn. unfold pool_growth in *.
    repeat split; try done;
      destruct (add_adversarial_state_to_training self); lia.
Qed.

(** ** Convergence in [train] *)

(** The calls a call of [total_loss] can make: to the solver, to the
    network's forward pass, to the sample losses and to the system. *)
Definition is_total_loss_event (ev : Event) : Prop :=
  match ev with
  | EvAsMilp _ | EvSetParam _ _ | EvOptimize _ | EvReluForward
  | EvPositivityLossAtSamples _ | EvDerivativeLossAtSamples _ _
  | EvObjectiveFromSolution _ _ | EvStepForward _ _ => True
  | EvZeroGrad | EvBackward | EvProjectGradient _ _ _ | EvOptimizerStep
  | EvDeepcopy | EvLoadStateDict => False
  end.

(** [total_loss] leaves the network parameters and the gradients as they
    are, and neither differentiates nor steps the optimizer. *)
Lemma total_loss_framed self p d n a b c e (w : World) :
  frame_of is_total_loss_event w (total_loss self p d n a b c e w).2.
Proof.
  apply total_loss_frame.
  - by intros [].
  - intros pt dt nt _ _ _. unfold loss_events. rewrite !Forall_app.
    repeat split; event_kinds.
Qed.

Definition histories_filled (self : TrainLyapunovReLU) (st : TrainState)
  : Prop :=
  length (losses st) = max_iterations self /\
  length (lyapunov_positivity_mip_costs st) = max_iterations self /\
  length (lyapunov_derivative_mip_costs st) = max_iterations self /\
  Forall is_Some (take (iter_count st) (losses st)) /\
  Forall is_Some (take (iter_count st) (lyapunov_positivity_mip_costs st)) /\
  Forall is_Some (take (iter_count st) (lyapunov_derivative_mip_costs st)).

Lemma take_recorded (l : list (option Q)) (i : nat) (v : Q) :
  i < length l ->
  take (i + 1) (<[i := Some v]> l) = take i l ++ [Some v].
Proof.
  intros Hi. rewrite Nat.add_1_r.
  rewrite (take_S_r _ _ (Some v)) by (by apply list_lookup_insert_eq).
  by rewrite take_insert_ge.
Qed.

Lemma histories_filled_step self st st' (w w' : World) :
  histories_filled self st ->
  train_iteration self st w = (Ok (Continue st'), w') ->
  histories_filled self st'.
Proof.
  intros (Hl & Hp & Hd & Hfl & Hfp & Hfd) Hit.
  apply train_iteration_continue in Hit
    as (r & w1 & _ & _ & Hip & Hid & Hil & _ & Hi & _ & _ & _ & Hp' & Hd' &
        Hl' & _).
  unfold histories_filled. rewrite Hi, Hp', Hd', Hl'.
  rewrite !length_insert, !take_recorded by done.
  repeat split; try done; apply Forall_app; split; try done;
    by repeat constructor.
Qed.





(** ** The ALTERNATE projection policy *)

(** The projection mode of iteration [k] under ALTERNATE. *)
Definition alternate_mode (k : nat) : ProjectGradientMode :=
  if Nat.even k then LOSS2 else LOSS1.

(** The modes of the calls of [project_gradient] in a trace, in order. *)
Definition projection_modes (evs : list Event) : list ProjectGradientMode :=
  flat_map (fun ev =>
              match ev with
              | EvProjectGradient _ _ m => [m]
              | _ => []
              end) evs.

Lemma projection_modes_app (evs1 evs2 : list Event) :
  projection_modes (evs1 ++ evs2) =
  projection_modes evs1 ++ projection_modes evs2.
Proof. apply flat_map_app. Qed.

Lemma projection_modes_total_loss (evs : list Event) :
  Forall is_total_loss_event evs -> projection_modes evs = [].
Proof.
  induction 1 as [|ev evs Hev _ IH]; [done|].
  simpl. rewrite IH. by destruct ev.
Qed.

Lemma alternate_mode_flip (k : nat) :
  (if mode_is_LOSS2 (alternate_mode k) then LOSS1 else LOSS2) =
  alternate_mode (S k).
Proof.
  unfold alternate_mode. rewrite Nat.even_succ, <- Nat.negb_even.
  by destruct (Nat.even k).
Qed.

(** What one ALTERNATE iteration does, given the mode left by the one
    before. *)
Lemma alternate_step self st st' (w w' : World) :
  project_gradient_method self = ALTERNATE ->
  (0 < iter_count st ->
   project_gradient_mode st = Some (alternate_mode (iter_count st - 1))) ->
  train_iteration self st w = (Ok (Continue st'), w') ->
  project_gradient_mode st' = Some (alternate_mode (iter_count st)) /\
  exists r w1,
    total_loss self (train_positivity_state_samples st)
      (train_derivative_state_samples st)
      (train_derivative_state_samples_next st) None None None None
      (after_zero_grad w) = (Ok r, w1) /\
    trace w' =
      trace w1 ++
      [EvProjectGradient
         (positivity_sample_loss r + positivity_mip_loss r)%Q
         (derivative_sample_loss r + derivative_mip_loss r)%Q
         (alternate_mode (iter_count st));
       EvOptimizerStep].
Proof.
  intros Hmethod Hprev Hit.
  apply train_iteration_continue in Hit
    as (r & w1 & Hloss & _ & _ & _ & _ & Hmode & _ & _ & _ & _ & _ & _ & _ &
        _ & Htrace & _).
  assert (project_gradient_mode st' = Some (alternate_mode (iter_count st)))
    as Hst'.
  { unfold next_project_gradient_mode in Hmode. rewrite Hmethod in Hmode.
    destruct (iter_count st =? 0) eqn:E.
    - apply Nat.eqb_eq in E. rewrite E. by injection Hmode as <-.
    - apply Nat.eqb_neq in E. rewrite Hprev in Hmode by lia.
      injection Hmode as <-. rewrite alternate_mode_flip.
      do 2 f_equal. lia. }
  split; [done|]. exists r, w1. split; [done|].
  rewrite Htrace. unfold gradient_event. by rewrite Hmethod, Hst'.
Qed.

(** C7. Under [ProjectGradientMethod.ALTERNATE], in every run of [train]:
    the modes of the calls of [project_gradient] made in the first [k]
    iterations are [alternate_mode 0, ..., alternate_mode (k - 1)]; the
    iteration [k], when it does not return, calls [project_gradient] once,
    with the positivity loss as [loss1], the derivative loss as [loss2] and
    the mode [alternate_mode k], then steps the optimizer; and
    [alternate_mode] is [LOSS2] at [0] and changes from every iteration to
    the next.  The mode is a function of the iteration number alone. *)
Theorem alternate_projection_alternates self (all : ref) (w0 : World) :
  project_gradient_method self = ALTERNATE ->
  (forall k st w,
     (st0 <- train_setup self all ;; train_iterations self k st0) w0 =
       (Ok (Continue st), w) ->
     projection_modes (trace w) =
       projection_modes (trace w0) ++ map alternate_mode (seq 0 k)) /\
  (forall k st w st' w',
     (st0 <- train_setup self all ;; train_iterations self k st0) w0 =
       (Ok (Continue st), w) ->
     train_iteration self st w = (Ok (Continue st'), w') ->
     project_gradient_mode st' = Some (alternate_mode k) /\
     exists r w1,
       total_loss self (train_positivity_state_samples st)
         (train_derivative_state_samples st)
         (train_derivative_state_samples_next st) None None None None
         (after_zero_grad w) = (Ok r, w1) /\
       trace w' =
         trace w1 ++
         [EvProjectGradient
            (positivity_sample_loss r + positivity_mip_loss r)%Q
            (derivative_sample_loss r + derivative_mip_loss r)%Q
            (alternate_mode k);
          EvOptimizerStep]) /\
  alternate_mode 0 = LOSS2 /\
  (forall k, alternate_mode (S k) <> alternate_mode k).
Proof.
  intros Hmethod.
  assert (forall k st w,
            (st0 <- train_setup self all ;; train_iterations self k st0) w0 =
              (Ok (Continue st), w) ->
            iter_count st = k /\
            projection_modes (trace w) =
              projection_modes (trace w0) ++
              map alternate_mode (seq 0 (iter_count st)) /\
            (0 < iter_count st ->
             project_gradient_mode st =
               Some (alternate_mode (iter_count st - 1)))) as Hinv.
  { intros k st w Hrun.
    apply bind_inv in Hrun as (st0 & w00 & Hsetup & Hrun).
    pose proof (train_iterations_count _ _ _ _ _ _ Hrun) as Hcount.
    apply train_setup_ok in Hsetup
      as (t & nt & opt & _ & _ & _ & _ & Htr0 & ->).
    simpl in Hcount. split; [done|].
    eapply (train_iterations_invariant self
              (fun st w =>
                 projection_modes (trace w) =
                   projection_modes (trace w0) ++
                   map alternate_mode (seq 0 (iter_count st)) /\
                 (0 < iter_count st ->
                  project_gradient_mode st =
                    Some (alternate_mode (iter_count st - 1)))));
      [| |exact Hrun].
    - intros st1 w2 st2 w3 [Hmodes Hprev] Hit.
      pose proof Hit as Hit'.
      apply alternate_step in Hit' as (Hmode2 & r & w1 & Hloss & Htrace);
        [|done|done].
      apply train_iteration_continue in Hit
        as (_ & _ & _ & _ & _ & _ & _ & _ & Hi & _).
      split.
      + pose proof (total_loss_framed self
                      (train_positivity_state_samples st1)
                      (train_derivative_state_samples st1)
                      (train_derivative_state_samples_next st1)
                      None None None None (after_zero_grad w2))
          as (_ & _ & _ & evs & Hev & HP).
        rewrite Hloss in Hev. simpl in Hev.
        rewrite Htrace, Hev, !projection_modes_app, Hmodes.
        rewrite (projection_modes_total_loss evs HP). simpl.
        rewrite Hi, Nat.add_1_r, seq_S, map_app. simpl.
        by rewrite !app_nil_r, <- app_assoc.
      + intros _. rewrite Hmode2, Hi. do 2 f_equal. lia.
    - simpl. split; [|lia]. rewrite Htr0, projection_modes_app.
      rewrite app_nil_r. rewrite <- (app_nil_r (projection_modes (trace w0)))
        at 2.
      f_equal. apply projection_modes_total_loss.
      apply Forall_forall. intros ev Hev.
      apply list_elem_of_In, in_map_iff in Hev as (x & <- & _). done. }
  repeat split.
  - intros k st w Hrun. destruct (Hinv _ _ _ Hrun) as (<- & Hmodes & _).
    exact Hmodes.
  - destruct (Hinv _ _ _ H) as (<- & _ & Hprev).
    eapply alternate_step in H0 as [Hmode _]; done.
  - destruct (Hinv _ _ _ H) as (<- & _ & Hprev).
    eapply alternate_step in H0 as [_ Hcall]; done.
  - intros k. unfold alternate_mode. rewrite Nat.even_succ, <- Nat.negb_even.
    by destruct (Nat.even k).
Qed.

(** ** [train_lyapunov_on_samples] *)

(** The scalar that [train_lyapunov_on_samples] compares, for the network
    parameters [th]: the weighted sum of minus the positivity objective and
    of the derivative objective. *)
Definition mip_loss_at (self : TrainLyapunovReLU) (th : Params) : Q :=
  mip_loss_of self (ObjVal (solved Positivity self th))
    (ObjVal (solved Derivative self th)).

(** [loss.backward(); optimizer.step()] *)
Definition backward_and_step (self : TrainLyapunovReLU) (graph : LossInputs)
    (o : OptState) : M OptState :=
  do loss_backward self graph ;;
  call_optimizer_step o.

Lemma backward_and_step_ok self graph o (w : World) :
  in_loss_is_tensor graph = true ->
  exists o' w', backward_and_step self graph o w = (Ok o', w').
Proof.
  intros Htensor.
  unfold backward_and_step, bind, loss_backward, call_optimizer_step.
  rewrite Htensor.
  destruct (optimizer_step _ _ _) as [theta' o']. by eexists _, _.
Qed.

(** [loss.backward()] on the Python float. *)
Lemma backward_and_step_float self graph o (w : World) :
  in_loss_is_tensor graph = false ->
  backward_and_step self graph o w = (Raise AttributeError, w).
Proof.
  intros Hfloat. unfold backward_and_step, bind, loss_backward.
  by rewrite Hfloat.
Qed.

(** The state after an iteration, but for the optimizer. *)
Definition samples_update (self : TrainLyapunovReLU)
    (max_increasing_iterations i : nat) (st : SamplesState) (th : Params)
    (o : OptState) : SamplesState :=
  let mip_loss := mip_loss_at self th in
  let improved := lt_ext mip_loss (best_loss st) in
  let increased := gt_ext mip_loss (previous_mip_loss st) in
  {|
    samples_iter_count := i;
    best_loss := if improved then Fin mip_loss else best_loss st;
    best_relu := if improved then Some th else best_relu st;
    num_increasing_iterations :=
      if increased then num_increasing_iterations st + 1 else 0;
    previous_mip_loss :=
      if increased &&
         (num_increasing_iterations st + 1 =? max_increasing_iterations)
      then previous_mip_loss st else Fin mip_loss;
    samples_optimizer := o
  |}.

(** Whether the iteration leaves the loop. *)
Definition samples_break (self : TrainLyapunovReLU)
    (max_increasing_iterations : nat) (st : SamplesState) (th : Params)
  : bool :=
  gt_ext (mip_loss_at self th) (previous_mip_loss st) &&
  (num_increasing_iterations st + 1 =? max_increasing_iterations).

(** One turn of the loop of [train_lyapunov_on_samples], in normal form. *)
Lemma on_samples_iteration_run self all next max_inc i st (w w1 : World) r :
  total_loss self all all next None None (Some 0%Q) (Some 0%Q)
    (after_zero_grad w) = (Ok r, w1) ->
  let improved := lt_ext (mip_loss_at self (theta w)) (best_loss st) in
  let w2 := if improved then add_events [EvDeepcopy] w1 else w1 in
  on_samples_iteration self all next max_inc i st w =
  if samples_break self max_inc st (theta w) then
    (Ok (Break (samples_update self max_inc i st (theta w)
                  (samples_optimizer st))), w2)
  else
    match backward_and_step self (loss_graph r) (samples_optimizer st) w2 with
    | (Ok o', w') =>
        (Ok (Next (samples_update self max_inc i st (theta w) o')), w')
    | (Raise x, w') => (Raise x, w')
    end.
Proof.
  intros Hloss.
  assert (theta w1 = theta w) as Hth.
  { pose proof (total_loss_framed self all all next None None (Some 0%Q)
                  (Some 0%Q) (after_zero_grad w)) as (_ & Hth & _).
    by rewrite Hloss in Hth. }
  assert (mip_loss_of self (positivity_mip_objective r)
            (derivative_mip_objective r) = mip_loss_at self (theta w))
    as Hkey.
  { apply total_loss_ok in Hloss
      as (pt & dt & nt & pools & _ & _ & _ & _ & _ & ->). done. }
  cbv zeta. unfold on_samples_iteration.
  unfold bind at 1.
  change (optimizer_zero_grad w) with (Ok tt, after_zero_grad w).
  cbv iota beta. unfold bind at 1. rewrite Hloss. cbv iota beta.
  rewrite Hkey. unfold samples_break, samples_update, backward_and_step.
  destruct (lt_ext (mip_loss_at self (theta w)) (best_loss st)) eqn:Himp.
  - unfold bind at 1, call_deepcopy at 1, bind at 1. cbv iota beta.
    unfold ret at 1. cbv iota beta. cbn [fst snd]. rewrite Hth.
    destruct (gt_ext _ (previous_mip_loss st)); simpl.
    + destruct (num_increasing_iterations st + 1 =? max_inc); [done|].
      unfold bind, loss_backward, call_optimizer_step, ret.
      destruct (in_loss_is_tensor _); [|done].
      by destruct (optimizer_step _ _ _).
    + unfold bind, loss_backward, call_optimizer_step, ret.
      destruct (in_loss_is_tensor _); [|done].
      by destruct (optimizer_step _ _ _).
  - unfold bind at 1, ret at 1. cbv iota beta. cbn [fst snd].
    destruct (gt_ext _ (previous_mip_loss st)); simpl.
    + destruct (num_increasing_iterations st + 1 =? max_inc); [done|].
      unfold bind, loss_backward, call_optimizer_step, ret.
      destruct (in_loss_is_tensor _); [|done].
      by destruct (optimizer_step _ _ _).
    + unfold bind, loss_backward, call_optimizer_step, ret.
      destruct (in_loss_is_tensor _); [|done].
      by destruct (optimizer_step _ _ _).
Qed.

(** An iteration that does not raise has called [total_loss] with both
    certificate weights forced to zero, and is the normal form above. *)
Lemma on_samples_iteration_ok self all next max_inc i st (w w' : World) flow :
  on_samples_iteration self all next max_inc i st w = (Ok flow, w') ->
  exists r w1 o',
    total_loss self all all next None None (Some 0%Q) (Some 0%Q)
      (after_zero_grad w) = (Ok r, w1) /\
    mip_loss_at self (theta w) =
      mip_loss_of self (positivity_mip_objective r)
        (derivative_mip_objective r) /\
    theta w1 = theta w /\
    flow_state flow = samples_update self max_inc i st (theta w) o' /\
    flow =
      (if samples_break self max_inc st (theta w) then Break else Next)
        (flow_state flow) /\
    (samples_break self max_inc st (theta w) = true ->
     o' = samples_optimizer st /\
     w' = if lt_ext (mip_loss_at self (theta w)) (best_loss st)
          then add_events [EvDeepcopy] w1 else w1) /\
    (samples_break self max_inc st (theta w) = false ->
     backward_and_step self (loss_graph r) (samples_optimizer st)
       (if lt_ext (mip_loss_at self (theta w)) (best_loss st)
        then add_events [EvDeepcopy] w1 else w1) = (Ok o', w')).
Proof.
  intros Hit.
  destruct (total_loss self all all next None None (Some 0%Q) (Some 0%Q)
              (after_zero_grad w)) as [[r|x] w1] eqn:Hloss; cycle 1.
  { unfold on_samples_iteration in Hit. unfold bind at 1 in Hit.
    change (optimizer_zero_grad w) with (Ok tt, after_zero_grad w) in Hit.
    cbv iota beta in Hit. unfold bind at 1 in Hit. by rewrite Hloss in Hit. }
  pose proof (on_samples_iteration_run self all next max_inc i st w w1 r Hloss)
    as Hrun.
  cbv zeta in Hrun. rewrite Hrun in Hit. clear Hrun.
  assert (theta w1 = theta w) as Hth.
  { pose proof (total_loss_framed self all all next None None (Some 0%Q)
                  (Some 0%Q) (after_zero_grad w)) as (_ & Hth & _).
    by rewrite Hloss in Hth. }
  assert (mip_loss_at self (theta w) =
          mip_loss_of self (positivity_mip_objective r)
            (derivative_mip_objective r)) as Hkey.
  { apply total_loss_ok in Hloss
      as (pt & dt & nt & pools & _ & _ & _ & _ & _ & ->). done. }
  destruct (samples_break self max_inc st (theta w)) eqn:Hbreak.
  - injection Hit as <- <-. exists r, w1, (samples_optimizer st).
    repeat split; try done.
  - destruct (backward_and_step _ _ _ _) as [[o'|x] w2] eqn:Hstep; [|done].
    injection Hit as <- <-. exists r, w1, o'. repeat split; try done.
Qed.

Lemma on_samples_loop_app self all next max_inc (l1 l2 : list nat) st
    (w : World) :
  on_samples_loop self all next max_inc (l1 ++ l2) st w =
  match on_samples_loop self all next max_inc l1 st w with
  | (Ok (Next st'), w') => on_samples_loop self all next max_inc l2 st' w'
  | other => other
  end.
Proof.
  revert st w. induction l1 as [|i l1 IH]; intros st w; simpl; [done|].
  unfold bind.
  destruct (on_samples_iteration _ _ _ _ _ _ _) as [[[st1|st1]|x] w1];
    first [done | apply IH].
Qed.

(** After [break] no further iteration runs. *)
Lemma on_samples_loop_break self all next max_inc i (rest : list nat) st st'
    (w w' : World) :
  on_samples_iteration self all next max_inc i st w = (Ok (Break st'), w') ->
  on_samples_loop self all next max_inc (i :: rest) st w =
  (Ok (Break st'), w').
Proof. intros Hit. simpl. unfold bind. by rewrite Hit. Qed.

Definition is_deepcopy (ev : Event) : bool :=
  match ev with
  | EvDeepcopy => true
  | _ => false
  end.

Lemma backward_and_step_trace self graph o o' (w w' : World) :
  backward_and_step self graph o w = (Ok o', w') ->
  trace w' = trace w ++ [EvBackward; EvOptimizerStep].
Proof.
  unfold backward_and_step, bind, loss_backward, call_optimizer_step.
  destruct (in_loss_is_tensor graph); [|done].
  destruct (optimizer_step _ _ _) as [theta' o'']. intros [= _ <-].
  simpl. by rewrite <- app_assoc.
Qed.

(** In an iteration that does not raise, with [mip_loss] the unclamped
    weighted sum of the objectives [total_loss] returns: if [mip_loss] is
    strictly below [best_loss], [best_loss] becomes [mip_loss] and the
    snapshot becomes a copy of the current network, taken by one [deepcopy];
    otherwise both stay as they are and no copy is taken. *)
Lemma snapshot_rule_step self all next max_inc i st
    (w w' : World) flow :
  on_samples_iteration self all next max_inc i st w = (Ok flow, w') ->
  exists r w1 evs,
    total_loss self all all next None None (Some 0%Q) (Some 0%Q)
      (after_zero_grad w) = (Ok r, w1) /\
    trace w' = trace w1 ++ evs /\
    let mip_loss :=
      (lyapunov_positivity_mip_cost_weight self * - positivity_mip_objective r +
       lyapunov_derivative_mip_cost_weight self * derivative_mip_objective r)%Q
    in
    (lt_ext mip_loss (best_loss st) = true ->
     best_loss (flow_state flow) = Fin mip_loss /\
     best_relu (flow_state flow) = Some (theta w) /\
     List.filter is_deepcopy evs = [EvDeepcopy]) /\
    (lt_ext mip_loss (best_loss st) = false ->
     best_loss (flow_state flow) = best_loss st /\
     best_relu (flow_state flow) = best_relu st /\
     List.filter is_deepcopy evs = []).
Proof.
  intros Hit. apply on_samples_iteration_ok in Hit
    as (r & w1 & o' & Hloss & Hkey & Hth & Hst & _ & Hbreak & Hnext).
  exists r, w1.
  assert (exists evs : list Event,
            trace w' =
              trace w1 ++
              (if lt_ext (mip_loss_at self (theta w)) (best_loss st)
               then [EvDeepcopy] else []) ++ evs /\
            List.filter is_deepcopy evs = []) as (evs & Htrace & Hevs).
  { destruct (samples_break self max_inc st (theta w)).
    - destruct (Hbreak eq_refl) as [_ ->]. exists [].
      destruct (lt_ext _ (best_loss st)); simpl; by rewrite ?app_nil_r.
    - specialize (Hnext eq_refl). apply backward_and_step_trace in Hnext.
      exists [EvBackward; EvOptimizerStep]. rewrite Hnext.
      destruct (lt_ext _ (best_loss st)); simpl; [|done].
      by rewrite <- app_assoc. }
  eexists. split; [exact Hloss|]. split; [exact Htrace|].
  cbv zeta. fold (mip_loss_of self (positivity_mip_objective r)
                    (derivative_mip_objective r)).
  rewrite <- Hkey, Hst. unfold samples_update; simpl.
  split; intros Himp; rewrite Himp; simpl; by rewrite Hevs.
Qed.

(** *** Runs of [train_lyapunov_on_samples] *)

(** The run from the world [w0] goes through [k] iterations without
    [break] and stands, before iteration [k], in the state [st] and the
    world [w]; [next] is the tensor of next states. *)
Definition samples_reaches (self : TrainLyapunovReLU) (all : ref)
    (max_inc : nat) (w0 : World) (k : nat) (next : ref) (st : SamplesState)
    (w : World) : Prop :=
  exists st0 w00,
    on_samples_setup self all w0 = (Ok (next, st0), w00) /\
    on_samples_loop self all next max_inc (seq 0 k) st0 w00 =
      (Ok (Next st), w).

Lemma samples_reaches_S self all max_inc (w0 : World) k next st st'
    (w w' : World) :
  samples_reaches self all max_inc w0 k next st w ->
  on_samples_iteration self all next max_inc k st w = (Ok (Next st'), w') ->
  samples_reaches self all max_inc w0 (S k) next st' w'.
Proof.
  intros (st0 & w00 & Hsetup & Hloop) Hit. exists st0, w00.
  split; [done|].
  rewrite seq_S, on_samples_loop_app, Hloop. simpl. unfold bind.
  by rewrite Hit.
Qed.

Lemma samples_reaches_S_inv self all max_inc (w0 : World) k next st'
    (w' : World) :
  samples_reaches self all max_inc w0 (S k) next st' w' ->
  exists st w,
    samples_reaches self all max_inc w0 k next st w /\
    on_samples_iteration self all next max_inc k st w = (Ok (Next st'), w').
Proof.
  intros (st0 & w00 & Hsetup & Hloop).
  rewrite seq_S, on_samples_loop_app in Hloop.
  destruct (on_samples_loop self all next max_inc (seq 0 k) st0 w00)
    as [[[st|st]|x] w] eqn:Hk; try done.
  exists st, w. split; [by exists st0, w00|].
  simpl in Hloop. unfold bind in Hloop.
  destruct (on_samples_iteration _ _ _ _ _ _ _) as [[[st1|st1]|x] w1];
    try done.
Qed.

(** A run that reaches iteration [k] has reached every iteration before. *)
Lemma samples_reaches_le self all max_inc (w0 : World) j k next st
    (w : World) :
  samples_reaches self all max_inc w0 k next st w ->
  j <= k ->
  exists st' w', samples_reaches self all max_inc w0 j next st' w'.
Proof.
  intros Hreach Hle. revert st w Hreach.
  induction Hle as [|k Hle IH]; intros st w Hreach; [by eexists _, _|].
  apply samples_reaches_S_inv in Hreach as (st1 & w1 & Hreach & _).
  by eapply IH.
Qed.

Lemma samples_reaches_fun self all max_inc (w0 : World) k next1 next2 st1 st2
    (w1 w2 : World) :
  samples_reaches self all max_inc w0 k next1 st1 w1 ->
  samples_reaches self all max_inc w0 k next2 st2 w2 ->
  next1 = next2 /\ st1 = st2 /\ w1 = w2.
Proof.
  intros (st0 & w00 & Hsetup & Hloop) (st0' & w00' & Hsetup' & Hloop').
  rewrite Hsetup in Hsetup'. injection Hsetup' as <- <- <-.
  rewrite Hloop in Hloop'. by injection Hloop' as <- <-.
Qed.

Lemma samples_reaches_0 self all max_inc (w0 : World) next st (w : World) :
  samples_reaches self all max_inc w0 0 next st w ->
  best_loss st = Inf /\ best_relu st = None /\
  num_increasing_iterations st = 0 /\ previous_mip_loss st = Inf.
Proof.
  intros (st0 & w00 & Hsetup & Hloop). simpl in Hloop.
  injection Hloop as <- <-. unfold on_samples_setup in Hsetup.
  apply bind_inv in Hsetup as (t & w1 & _ & Hsetup).
  apply bind_inv in Hsetup as (u & w2 & _ & Hsetup).
  apply bind_inv in Hsetup as (nx & w3 & _ & Hsetup).
  by injection Hsetup as <- <- <-.
Qed.

(** A run that reaches iteration [k] and breaks there. *)
Lemma samples_reaches_break self all max_inc (w0 : World) k next st st'
    (w w' : World) (max_iterations : nat) :
  samples_reaches self all max_inc w0 k next st w ->
  on_samples_iteration self all next max_inc k st w = (Ok (Break st'), w') ->
  k < max_iterations ->
  train_lyapunov_on_samples self all max_iterations max_inc w0 =
  match best_relu st' with
  | Some best => (Ok (Break st'), add_events [EvLoadStateDict]
                                    (set_theta best w'))
  | None => (Raise NameError, w')
  end.
Proof.
  intros (st0 & w00 & Hsetup & Hloop) Hit Hk.
  unfold train_lyapunov_on_samples.
  erewrite bind_ok by exact Hsetup. simpl.
  replace max_iterations with (k + S (max_iterations - S k)) by lia.
  rewrite seq_app. simpl seq.
  unfold bind at 1. rewrite on_samples_loop_app, Hloop.
  erewrite on_samples_loop_break by exact Hit. simpl.
  by destruct (best_relu st').
Qed.

(** *** Order on the compared values *)

Lemma Qlt_bool_true (x y : Q) : Qlt_bool x y = true <-> (x < y)%Q.
Proof.
  unfold Qlt_bool. rewrite negb_true_iff. split.
  - intros H. apply Qnot_le_lt. intros Hle.
    apply Qle_bool_iff in Hle. congruence.
  - intros H. destruct (Qle_bool y x) eqn:E; [|done].
    apply Qle_bool_iff in E. by apply Qlt_not_le in H.
Qed.

Lemma Qlt_bool_false (x y : Q) : Qlt_bool x y = false <-> (y <= x)%Q.
Proof.
  unfold Qlt_bool. rewrite negb_false_iff. apply Qle_bool_iff.
Qed.

(** No value is both strictly below the best value and strictly above the
    previous one. *)
Definition best_below_previous (st : SamplesState) : Prop :=
  forall m, lt_ext m (best_loss st) = true ->
            gt_ext m (previous_mip_loss st) = false.

Lemma best_below_previous_step self max_inc i st th o :
  samples_break self max_inc st th = false ->
  best_below_previous (samples_update self max_inc i st th o).
Proof.
  intros Hbreak m. unfold samples_update; simpl.
  unfold samples_break in Hbreak. rewrite Hbreak.
  destruct (lt_ext (mip_loss_at self th) (best_loss st)) eqn:Himp; simpl.
  - intros Hm%Qlt_bool_true. apply Qlt_bool_false. lra.
  - destruct (best_loss st) as [b|]; [|done]. simpl in *.
    apply Qlt_bool_false in Himp.
    intros Hm%Qlt_bool_true. apply Qlt_bool_false. lra.
Qed.

(** [total_loss] returns in the iteration that starts in the world [w]. *)
Definition loss_returns (self : TrainLyapunovReLU) (all next : ref)
    (w : World) : Prop :=
  exists r w1,
    total_loss self all all next None None (Some 0%Q) (Some 0%Q)
      (after_zero_grad w) = (Ok r, w1) /\
    in_loss_is_tensor (loss_graph r) = true.

Lemma samples_step self all max_inc (w0 : World) k next st (w : World) :
  samples_reaches self all max_inc w0 k next st w ->
  loss_returns self all next w ->
  samples_break self max_inc st (theta w) = false ->
  exists o' w',
    samples_reaches self all max_inc w0 (S k) next
      (samples_update self max_inc k st (theta w) o') w'.
Proof.
  intros Hreach (r & w1 & Hloss & Htensor) Hbreak.
  pose proof (on_samples_iteration_run self all next max_inc k st w w1 r Hloss)
    as Hrun.
  cbv zeta in Hrun. rewrite Hbreak in Hrun.
  destruct (backward_and_step_ok self (loss_graph r) (samples_optimizer st)
              (if lt_ext (mip_loss_at self (theta w)) (best_loss st)
               then add_events [EvDeepcopy] w1 else w1) Htensor)
    as (o' & w' & Hstep).
  rewrite Hstep in Hrun. exists o', w'.
  by eapply samples_reaches_S.
Qed.

(** The counter of increasing iterations cannot reach its threshold while
    the iteration number is below the threshold minus one. *)
Lemma no_early_break self all max_inc (w0 : World) :
  forall k,
    k + 1 <= max_inc ->
    (exists next st w, samples_reaches self all max_inc w0 0 next st w) ->
    (forall j next st w,
       j < k -> samples_reaches self all max_inc w0 j next st w ->
       loss_returns self all next w) ->
    exists next st w,
      samples_reaches self all max_inc w0 k next st w /\
      num_increasing_iterations st <= k /\
      best_below_previous st.
Proof.
  induction k as [|k IH]; intros Hk Hstart Hok.
  - destruct Hstart as (next & st & w & Hreach).
    exists next, st, w. split; [done|].
    apply samples_reaches_0 in Hreach as (Hb & _ & Hn & Hp).
    split; [lia|]. intros m _. by rewrite Hp.
  - destruct IH as (next & st & w & Hreach & Hnum & Hbbp);
      [lia|done|intros j n0 s0 x0 Hj Hr; apply (Hok j n0 s0 x0); [lia|done]|].
    assert (samples_break self max_inc st (theta w) = false) as Hbreak.
    { unfold samples_break. apply andb_false_iff. right.
      apply Nat.eqb_neq. lia. }
    destruct (samples_step self all max_inc w0 k next st w Hreach)
      as (o' & w' & Hreach'); [apply (Hok k next st w); [lia|done]|done|].
    eexists next, _, w'. split; [exact Hreach'|]. split.
    + unfold samples_update; simpl.
      destruct (gt_ext _ (previous_mip_loss st)); lia.
    + by apply best_below_previous_step.
Qed.

(** The state of the run while the compared value keeps increasing after
    the snapshot of the parameters [th]: the best value belongs to [th] and
    is not above the previous value. *)
Definition snapshot_kept (th : Params) (st : SamplesState) : Prop :=
  exists b p,
    best_loss st = Fin b /\ previous_mip_loss st = Fin p /\ (b <= p)%Q /\
    best_relu st = Some th.

Lemma snapshot_kept_increasing self max_inc i st th th3 o :
  snapshot_kept th3 st ->
  gt_ext (mip_loss_at self th) (previous_mip_loss st) = true ->
  best_relu (samples_update self max_inc i st th o) = Some th3 /\
  num_increasing_iterations (samples_update self max_inc i st th o) =
    num_increasing_iterations st + 1 /\
  (num_increasing_iterations st + 1 <> max_inc ->
   snapshot_kept th3 (samples_update self max_inc i st th o)).
Proof.
  intros (b & p & Hb & Hp & Hbp & Hrelu) Hinc.
  unfold samples_update; simpl. rewrite Hinc, Hb, Hp in *. simpl in *.
  apply Qlt_bool_true in Hinc.
  assert (Qlt_bool (mip_loss_at self th) b = false) as ->
    by (apply Qlt_bool_false; lra).
  repeat split; try done.
  intros Hne. apply Nat.eqb_neq in Hne. rewrite Hne.
  exists b, (mip_loss_at self th). repeat split; try done. lra.
Qed.

(** If the snapshot is replaced at iteration [s] and the compared value
    strictly increases at each of the [max_inc] iterations that follow, the
    loop breaks at iteration [s + max_inc] and the network is given the
    parameters it had at iteration [s]. *)
Lemma plateau_stop self all (max_inc max_iterations s : nat) (w0 : World) :
  s < max_inc ->
  s + max_inc < max_iterations ->
  (exists next st w, samples_reaches self all max_inc w0 0 next st w) ->
  (forall j next st w,
     j <= s + max_inc -> samples_reaches self all max_inc w0 j next st w ->
     loss_returns self all next w) ->
  (forall next st w,
     samples_reaches self all max_inc w0 s next st w ->
     lt_ext (mip_loss_at self (theta w)) (best_loss st) = true) ->
  (forall j next st w,
     s < j <= s + max_inc ->
     samples_reaches self all max_inc w0 j next st w ->
     gt_ext (mip_loss_at self (theta w)) (previous_mip_loss st) = true) ->
  exists next st_s w_s st_end w_end,
    samples_reaches self all max_inc w0 s next st_s w_s /\
    train_lyapunov_on_samples self all max_iterations max_inc w0 =
      (Ok (Break st_end), w_end) /\
    samples_iter_count st_end = s + max_inc /\
    num_increasing_iterations st_end = max_inc /\
    best_relu st_end = Some (theta w_s) /\
    theta w_end = theta w_s.
Proof.
  intros Hs Hmax Hstart Hok Hsnap Hinc.
  destruct (no_early_break self all max_inc w0 s) as
    (next & st_s & w_s & Hreach_s & _ & Hbbp); [lia|done| |].
  { intros j n0 s0 x0 Hj Hr. apply (Hok j n0 s0 x0); [lia|done]. }
  exists next, st_s, w_s.
  pose proof (Hsnap _ _ _ Hreach_s) as Himp.
  pose proof (Hbbp _ Himp) as Hnotinc.
  assert (samples_break self max_inc st_s (theta w_s) = false) as Hbreak_s.
  { unfold samples_break. by rewrite Hnotinc. }
  destruct (samples_step self all max_inc w0 s next st_s w_s Hreach_s)
    as (o1 & w1 & Hreach1); [apply (Hok s next st_s w_s); [lia|done]|done|].
  assert (forall m,
            m < max_inc ->
            exists st w,
              samples_reaches self all max_inc w0 (s + 1 + m) next st w /\
              num_increasing_iterations st = m /\
              snapshot_kept (theta w_s) st) as Hphase.
  { induction m as [|m IH]; intros Hm.
    - eexists _, w1. rewrite Nat.add_0_r, Nat.add_1_r.
      split; [exact Hreach1|].
      unfold samples_update, snapshot_kept; simpl.
      rewrite Himp, Hnotinc. simpl. split; [done|].
      eexists _, _. repeat split; try done. lra.
    - destruct IH as (st & w & Hreach & Hnum & Hkept); [lia|].
      pose proof (Hinc (s + 1 + m) next st w ltac:(lia) Hreach) as Hup.
      assert (samples_break self max_inc st (theta w) = false) as Hbreak.
      { unfold samples_break. apply andb_false_iff. right.
        apply Nat.eqb_neq. lia. }
      destruct (samples_step self all max_inc w0 (s + 1 + m) next st w Hreach)
        as (o' & w' & Hreach');
        [apply (Hok (s + 1 + m) next st w); [lia|done]|done|].
      destruct (snapshot_kept_increasing self max_inc (s + 1 + m) st (theta w)
                  (theta w_s) o' Hkept Hup) as (_ & Hnum' & Hkept').
      eexists _, w'. replace (s + 1 + S m) with (S (s + 1 + m)) by lia.
      split; [exact Hreach'|]. split; [lia|]. apply Hkept'. lia. }
  destruct (Hphase (max_inc - 1)) as (st & w & Hreach & Hnum & Hkept); [lia|].
  replace (s + 1 + (max_inc - 1)) with (s + max_inc) in Hreach by lia.
  pose proof (Hinc (s + max_inc) next st w ltac:(lia) Hreach) as Hup.
  destruct (Hok (s + max_inc) next st w ltac:(lia) Hreach)
    as (r & w2 & Hloss & _).
  assert (samples_break self max_inc st (theta w) = true) as Hbreak.
  { unfold samples_break. rewrite Hup. simpl. apply Nat.eqb_eq. lia. }
  pose proof (on_samples_iteration_run self all next max_inc (s + max_inc) st
                w w2 r Hloss) as Hrun.
  cbv zeta in Hrun. rewrite Hbreak in Hrun.
  destruct (snapshot_kept_increasing self max_inc (s + max_inc) st (theta w)
              (theta w_s) (samples_optimizer st) Hkept Hup)
    as (Hrelu & Hnum' & _).
  eexists _, _. split; [exact Hreach_s|]. split.
  - erewrite samples_reaches_break; [|exact Hreach|exact Hrun|lia].
    by rewrite Hrelu.
  - repeat split; try done. lia.
Qed.

(** C8, as the code has it. In [train_lyapunov_on_samples]:
    - an iteration in which the compared value is strictly above that of
      the previous iteration adds one to the counter, any other iteration
      resets it to zero; the iteration breaks the loop exactly when the
      counter, so increased, equals [max_increasing_iterations]; an
      iteration that goes on leaves its value as the previous one;
    - after a [break] no further iteration runs and the parameters are
      those the iteration started with;
    - when the function returns, the network has the parameters of the
      best snapshot;
    - if the snapshot is replaced at iteration 3, that is, if the compared
      value of iteration 3 is strictly below the best value before it, and
      the compared value strictly increases at each of the iterations 4 to
      8, then with [max_increasing_iterations = 5] and more than 8
      iterations allowed, in a run in which every call of [total_loss]
      returns a loss that is a tensor, the loop breaks at iteration [3 + 5]
      with the counter at 5 and the network is given the parameters it had
      at iteration 3.
    An increase from iteration 4 on is not enough: when the value already
    increases at iteration 3 the loop breaks before iteration 8, and when
    an earlier iteration had a smaller value its network is the one
    restored. *)
Theorem plateau_counter_stops_and_restores self (all : ref) :
  (forall next max_inc i st w flow w',
     on_samples_iteration self all next max_inc i st w = (Ok flow, w') ->
     let mip_loss := mip_loss_at self (theta w) in
     num_increasing_iterations (flow_state flow) =
       (if gt_ext mip_loss (previous_mip_loss st)
        then num_increasing_iterations st + 1 else 0) /\
     (flow = Break (flow_state flow) <->
      gt_ext mip_loss (previous_mip_loss st) = true /\
      num_increasing_iterations st + 1 = max_inc) /\
     (flow = Next (flow_state flow) ->
      previous_mip_loss (flow_state flow) = Fin mip_loss)) /\
  (forall next max_inc i rest st w st' w',
     on_samples_iteration self all next max_inc i st w =
       (Ok (Break st'), w') ->
     on_samples_loop self all next max_inc (i :: rest) st w =
       (Ok (Break st'), w') /\
     theta w' = theta w) /\
  (forall max_iterations max_inc w0 flow w',
     train_lyapunov_on_samples self all max_iterations max_inc w0 =
       (Ok flow, w') ->
     exists best,
       best_relu (flow_state flow) = Some best /\ theta w' = best) /\
  (forall max_iterations w0,
     8 < max_iterations ->
     (exists next st w, samples_reaches self all 5 w0 0 next st w) ->
     (forall j next st w,
        j <= 8 -> samples_reaches self all 5 w0 j next st w ->
        loss_returns self all next w) ->
     (forall next st w,
        samples_reaches self all 5 w0 3 next st w ->
        lt_ext (mip_loss_at self (theta w)) (best_loss st) = true) ->
     (forall j next st w,
        3 < j <= 8 -> samples_reaches self all 5 w0 j next st w ->
        gt_ext (mip_loss_at self (theta w)) (previous_mip_loss st) = true) ->
     exists next st3 w3 st_end w_end,
       samples_reaches self all 5 w0 3 next st3 w3 /\
       train_lyapunov_on_samples self all max_iterations 5 w0 =
         (Ok (Break st_end), w_end) /\
       samples_iter_count st_end = 3 + 5 /\
       num_increasing_iterations st_end = 5 /\
       best_relu st_end = Some (theta w3) /\
       theta w_end = theta w3).
Proof.
  split; [|split; [|split]].
  - intros next max_inc i st w flow w' Hit.
    apply on_samples_iteration_ok in Hit
      as (r & w1 & o' & _ & _ & _ & Hst & Hflow & _ & _).
    cbv zeta. rewrite Hst. split; [done|].
    assert (previous_mip_loss (samples_update self max_inc i st (theta w) o') =
            if samples_break self max_inc st (theta w)
            then previous_mip_loss st else Fin (mip_loss_at self (theta w)))
      as Hprev by done.
    rewrite Hprev. rewrite Hst in Hflow.
    destruct (samples_break self max_inc st (theta w)) eqn:Hb;
      unfold samples_break in Hb.
    + apply andb_true_iff in Hb as [Hgt Hn%Nat.eqb_eq].
      split; [by split|]. by rewrite Hflow at 1.
    + split; [|done]. split; [by rewrite Hflow at 1|].
      intros [Hgt Hn%Nat.eqb_eq]. by rewrite Hgt, Hn in Hb.
  - intros next max_inc i rest st w st' w' Hit.
    split; [by apply on_samples_loop_break|].
    apply on_samples_iteration_ok in Hit
      as (r & w1 & o' & _ & _ & Hth & _ & Hflow & Hbreak & _).
    destruct (samples_break self max_inc st (theta w)); [|done].
    destruct (Hbreak eq_refl) as [_ ->].
    by destruct (lt_ext _ (best_loss st)).
  - intros max_iterations max_inc w0 flow w' Hrun.
    unfold train_lyapunov_on_samples in Hrun.
    apply bind_inv in Hrun as (start & w1 & _ & Hrun).
    apply bind_inv in Hrun as (flow' & w2 & _ & Hrun).
    destruct (best_relu (flow_state flow')) as [best|] eqn:Hbest; [|done].
    unfold bind, call_load_state_dict, ret in Hrun.
    injection Hrun as <- <-. by exists best.
  - intros max_iterations w0 Hmax Hstart Hok Hsnap Hinc.
    apply (plateau_stop self all 5 max_iterations 3 w0); try done; lia.
Qed.

(** [best_loss] is the least compared value of the iterations so far:
    [np.inf] before the first, afterwards the value of one of them, which
    none of them is strictly below, kept with the parameters of that
    iteration. *)
Lemma best_loss_is_least_seen self all max_inc (w0 : World) :
  forall k next st w,
    samples_reaches self all max_inc w0 k next st w ->
    (k = 0 -> best_loss st = Inf) /\
    (forall j next' st' w'',
       j < k -> samples_reaches self all max_inc w0 j next' st' w'' ->
       lt_ext (mip_loss_at self (theta w'')) (best_loss st) = false) /\
    (0 < k ->
     exists j next' st' w'',
       j < k /\ samples_reaches self all max_inc w0 j next' st' w'' /\
       best_loss st = Fin (mip_loss_at self (theta w'')) /\
       best_relu st = Some (theta w'')).
Proof.
  induction k as [|k IH]; intros next st w Hreach.
  - apply samples_reaches_0 in Hreach as (Hb & _).
    split; [done|]. split; [intros; lia|lia].
  - apply samples_reaches_S_inv in Hreach as (st0 & w1 & Hreach & Hit).
    destruct (IH _ _ _ Hreach) as (H0 & Hleast & Hsome).
    apply on_samples_iteration_ok in Hit
      as (r & w2 & o' & _ & _ & _ & Hst & _). simpl in Hst. subst st.
    split; [lia|]. unfold samples_update; simpl. split.
    + intros j next' st' w'' Hj Hreach'.
      destruct (decide (j = k)) as [->|Hne].
      * destruct (samples_reaches_fun _ _ _ _ _ _ _ _ _ _ _ Hreach Hreach')
          as (_ & _ & <-).
        destruct (lt_ext (mip_loss_at self (theta w1)) (best_loss st0))
          eqn:Himp; [|done].
        simpl. apply Qlt_bool_false. lra.
      * specialize (Hleast j next' st' w'' ltac:(lia) Hreach').
        destruct (lt_ext (mip_loss_at self (theta w1)) (best_loss st0))
          eqn:Himp; [|done].
        destruct (best_loss st0) as [b|]; [|done]. simpl in *.
        apply Qlt_bool_true in Himp. apply Qlt_bool_false in Hleast.
        apply Qlt_bool_false. lra.
    + intros _.
      destruct (lt_ext (mip_loss_at self (theta w1)) (best_loss st0))
        eqn:Himp.
      * exists k, next, st0, w1. repeat split; try done. lia.
      * destruct k as [|k].
        { rewrite H0 in Himp by done. done. }
        destruct Hsome as (j & next' & st' & w'' & Hj & Hr & Hb & Hrelu);
          [lia|].
        exists j, next', st', w''. repeat split; try done. lia.
Qed.

(** C3, as the code has it. Let a run of [train_lyapunov_on_samples] reach
    iteration [k], and let the iteration not raise.  The value compared is
    [mip_loss = lyapunov_positivity_mip_cost_weight * - positivity objective +
     lyapunov_derivative_mip_cost_weight * derivative objective], the
    objectives being those [total_loss] returns in this iteration, with no
    clamping at zero.  [best_loss] is the least such value of the earlier
    iterations ([np.inf] when there is none).  If [mip_loss] is strictly
    below [best_loss], then [best_loss] becomes [mip_loss] and the snapshot
    becomes a copy of the current network, taken by one [deepcopy];
    otherwise [best_loss] and the snapshot stay as they are and no copy is
    taken. *)
Theorem snapshot_keyed_by_unclamped_mip_loss self all max_inc (w0 : World)
    k next st (w w' : World) flow :
  samples_reaches self all max_inc w0 k next st w ->
  on_samples_iteration self all next max_inc k st w = (Ok flow, w') ->
  ((k = 0 -> best_loss st = Inf) /\
   (forall j next' st' w'',
      j < k -> samples_reaches self all max_inc w0 j next' st' w'' ->
      lt_ext (mip_loss_at self (theta w'')) (best_loss st) = false) /\
   (0 < k ->
    exists j next' st' w'',
      j < k /\ samples_reaches self all max_inc w0 j next' st' w'' /\
      best_loss st = Fin (mip_loss_at self (theta w'')))) /\
  exists r w1 evs,
    total_loss self all all next None None (Some 0%Q) (Some 0%Q)
      (after_zero_grad w) = (Ok r, w1) /\
    trace w' = trace w1 ++ evs /\
    let mip_loss :=
      (lyapunov_positivity_mip_cost_weight self * - positivity_mip_objective r +
       lyapunov_derivative_mip_cost_weight self * derivative_mip_objective r)%Q
    in
    mip_loss = mip_loss_at self (theta w) /\
    (lt_ext mip_loss (best_loss st) = true ->
     best_loss (flow_state flow) = Fin mip_loss /\
     best_relu (flow_state flow) = Some (theta w) /\
     List.filter is_deepcopy evs = [EvDeepcopy]) /\
    (lt_ext mip_loss (best_loss st) = false ->
     best_loss (flow_state flow) = best_loss st /\
     best_relu (flow_state flow) = best_relu st /\
     List.filter is_deepcopy evs = []).
Proof.
  intros Hreach Hit. split.
  - destruct (best_loss_is_least_seen self all max_inc w0 k next st w Hreach)
      as (H0 & Hleast & Hsome).
    split; [done|]. split; [done|]. intros Hk.
    destruct (Hsome Hk) as (j & next' & st' & w'' & Hj & Hr & Hb & _).
    by exists j, next', st', w''.
  - pose proof Hit as Hit'.
    apply snapshot_rule_step in Hit as (r & w1 & evs & Hloss & Htrace & Hrule).
    apply on_samples_iteration_ok in Hit'
      as (r' & w1' & _ & Hloss' & Hkey & _).
    rewrite Hloss in Hloss'. injection Hloss' as <- <-.
    exists r, w1, evs. split; [done|]. split; [done|].
    cbv zeta in *. split; [|exact Hrule]. by rewrite Hkey.
Qed.

End Properties.

(** * Further properties *)

Section FurtherProperties.

Context `{system : LyapunovHybridSystem}.

(** ** How [total_loss] fails *)

(** The three rows [torch.cat] is given have the size of a state. *)
Definition adversarial_rows_have_x_dim (self : TrainLyapunovReLU)
    (th : Params) (m : nat) : bool :=
  (length (x_sol (solved Positivity self th)) =? x_dim) &&
  (length (x_sol (solved Derivative self th)) =? x_dim) &&
  (length (step_forward (x_sol (solved Derivative self th)) (Some m)) =?
   x_dim).

Lemma entry_checks_shapes (pt dt nt : Tensor2) :
  entry_checks pt dt nt = true ->
  shape1 pt = x_dim /\ shape1 dt = x_dim /\ shape1 nt = x_dim /\
  shape0 nt = shape0 dt.
Proof.
  unfold entry_checks. rewrite !andb_true_iff, !Nat.eqb_eq. tauto.
Qed.

Lemma append_adversarial_states_raises pmip dmip p d n (w : World) pt dt nt :
  tensors w !! p = Some pt -> tensors w !! d = Some dt ->
  tensors w !! n = Some nt ->
  (append_adversarial_states pmip dmip p d n w).1 =
  match argwhere_first (gamma_sol dmip) 0 with
  | None => Raise IndexError
  | Some m =>
      if adversarial_rows_fit pmip dmip pt dt nt m
      then Ok (length (tensors w), S (length (tensors w)),
               S (S (length (tensors w))))
      else Raise RuntimeError
  end.
Proof.
  intros Hp Hd Hn.
  destruct (argwhere_first (gamma_sol dmip) 0) as [m|] eqn:Hm.
  - destruct (adversarial_rows_fit pmip dmip pt dt nt m) eqn:Hfit.
    + by erewrite append_adversarial_states_run.
    + unfold append_adversarial_states. rewrite Hm.
      unfold bind at 1. unfold lift at 1. unfold bind at 1.
      unfold emit at 1.
      set (w1 := add_events _ w).
      unfold bind at 1.
      rewrite (torch_cat_run p _ pt w1) by done.
      unfold adversarial_rows_fit in Hfit.
      destruct (length (x_sol pmip) =? shape1 pt); [|done].
      set (w2 := add_tensors _ w1).
      unfold bind at 1.
      assert (tensors w2 !! d = Some dt) as Hd2.
      { subst w2 w1. simpl. apply lookup_app_l_Some. done. }
      rewrite (torch_cat_run d _ dt w2) by done.
      destruct (length (x_sol dmip) =? shape1 dt); [|done].
      set (w3 := add_tensors _ w2).
      unfold bind at 1.
      assert (tensors w3 !! n = Some nt) as Hn3.
      { subst w3 w2 w1. simpl. apply lookup_app_l_Some.
        apply lookup_app_l_Some. done. }
      rewrite (torch_cat_run n _ nt w3) by done.
      simpl in Hfit. by rewrite Hfit.
  - unfold append_adversarial_states. by rewrite Hm.
Qed.

(** X2. The ways [total_loss] ends, on arguments that are tensors with two
    axes or no tensors, and with collaborators whose calls return.  It
    fails its assertions, and then nothing has been done, when an argument
    is no tensor or has the wrong shape.  Past the assertions it returns,
    unless adversarial states are to be added and either no mode indicator
    of the derivative MILP exceeds 0.99
    ([IndexError] from [np.argwhere(...)[0][0]]) or a row to append has not
    [x_dim] entries ([RuntimeError] from [torch.cat]). *)
Theorem total_loss_failure_modes self p d n a b c e (w : World) :
  let out := total_loss self p d n a b c e w in
  let gamma := gamma_sol (solved Derivative self (theta w)) in
  (entry w p d n = None -> out = (Raise AssertionError, w)) /\
  (is_Some (entry w p d n) ->
   add_adversarial_state_to_training self = false ->
   exists r, out.1 = Ok r) /\
  (is_Some (entry w p d n) ->
   add_adversarial_state_to_training self = true ->
   match argwhere_first gamma 0 with
   | None => out.1 = Raise IndexError
   | Some m =>
       if adversarial_rows_have_x_dim self (theta w) m
       then exists r, out.1 = Ok r
       else out.1 = Raise RuntimeError
   end).
Proof.
  cbv zeta. rewrite total_loss_unfold. unfold entry.
  destruct (tensors w !! p) as [pt|] eqn:Hp;
    [|by repeat split; try done; intros []].
  destruct (tensors w !! d) as [dt|] eqn:Hd;
    [|by repeat split; try done; intros []].
  destruct (tensors w !! n) as [nt|] eqn:Hn;
    [|by repeat split; try done; intros []].
  destruct (entry_checks pt dt nt) eqn:Hchecks;
    [|by repeat split; try done; intros []].
  apply entry_checks_shapes in Hchecks as (Hsp & Hsd & Hsn & _).
  split; [done|]. unfold returned_pools. split.
  - intros _ ->. by eexists.
  - intros _ ->.
    set (w1 := add_events _ w).
    pose proof (append_adversarial_states_raises
                  (solved Positivity self (theta w))
                  (solved Derivative self (theta w)) p d n w1 pt dt nt
                  Hp Hd Hn) as Hout.
    destruct (append_adversarial_states _ _ p d n w1) as [res w2].
    simpl in Hout. subst res.
    destruct (argwhere_first _ 0) as [m|]; [|done].
    unfold adversarial_rows_have_x_dim, adversarial_rows_fit.
    rewrite Hsp, Hsd, Hsn.
    destruct (_ && _); [by eexists|done].
Qed.

(** ** What a run of [train] returns *)

Definition is_optimizer_step (ev : Event) : bool :=
  match ev with
  | EvOptimizerStep => true
  | _ => false
  end.

Definition is_backward (ev : Event) : bool :=
  match ev with
  | EvBackward => true
  | _ => false
  end.

(** The number of calls of [optimizer.step()] and of [loss.backward()] in a
    trace. *)
Definition optimizer_steps (evs : list Event) : nat :=
  length (List.filter is_optimizer_step evs).

Definition backward_calls (evs : list Event) : nat :=
  length (List.filter is_backward evs).

Lemma optimizer_steps_app (evs1 evs2 : list Event) :
  optimizer_steps (evs1 ++ evs2) = optimizer_steps evs1 + optimizer_steps evs2.
Proof. unfold optimizer_steps. by rewrite List.filter_app, length_app. Qed.

Lemma backward_calls_app (evs1 evs2 : list Event) :
  backward_calls (evs1 ++ evs2) = backward_calls evs1 + backward_calls evs2.
Proof. unfold backward_calls. by rewrite List.filter_app, length_app. Qed.

Lemma total_loss_events_quiet (evs : list Event) :
  Forall is_total_loss_event evs ->
  optimizer_steps evs = 0 /\ backward_calls evs = 0.
Proof.
  unfold optimizer_steps, backward_calls.
  induction 1 as [|ev evs Hev _ [IH1 IH2]]; [done|].
  destruct ev; try done; simpl; by rewrite ?IH1, ?IH2.
Qed.

(** The calls made by a turn of the loop of [train] that goes on to the next
    turn. *)
Lemma train_iteration_trace self st st' (w w' : World) :
  train_iteration self st w = (Ok (Continue st'), w') ->
  exists r evs,
    Forall is_total_loss_event evs /\
    trace w' =
      trace w ++ [EvZeroGrad] ++ evs ++
      gradient_event self r (project_gradient_mode st') ++ [EvOptimizerStep] /\
    (project_gradient_method self <> NONE ->
     is_Some (project_gradient_mode st')).
Proof.
  intros Hit. apply train_iteration_continue in Hit
    as (r & w1 & Hloss & _ & _ & _ & _ & _ & _ & _ & _ & _ & _ & _ & _ & _ &
        Htrace & Hsome).
  pose proof (total_loss_framed self (train_positivity_state_samples st)
                (train_derivative_state_samples st)
                (train_derivative_state_samples_next st) None None None None
                (after_zero_grad w)) as (_ & _ & _ & evs & Hevs & Hall).
  rewrite Hloss in Hevs. simpl in Hevs.
  exists r, evs. split; [done|]. split; [|done].
  rewrite Htrace, Hevs. by rewrite <- !app_assoc.
Qed.

(** A turn of the loop of [train] that returns. *)
Lemma train_iteration_return_inv self st (w w' : World) res :
  train_iteration self st w = (Ok (Return res), w') ->
  exists r,
    total_loss self (train_positivity_state_samples st)
      (train_derivative_state_samples st)
      (train_derivative_state_samples_next st) None None None None
      (after_zero_grad w) = (Ok r, w') /\
    converged self (positivity_mip_objective r) (derivative_mip_objective r)
      = true /\
    iter_count st < length (lyapunov_positivity_mip_costs st) /\
    iter_count st < length (lyapunov_derivative_mip_costs st) /\
    iter_count st < length (losses st) /\
    res =
      (true,
       take (iter_count st + 1)
         (<[iter_count st := Some (loss r)]> (losses st)),
       take (iter_count st + 1)
         (<[iter_count st := Some (positivity_mip_objective r)]>
            (lyapunov_positivity_mip_costs st)),
       take (iter_count st + 1)
         (<[iter_count st := Some (derivative_mip_objective r)]>
            (lyapunov_derivative_mip_costs st))).
Proof.
  unfold train_iteration.
  unfold bind at 1.
  change (optimizer_zero_grad w) with (Ok tt, after_zero_grad w).
  cbv iota beta.
  unfold bind at 1.
  destruct (total_loss _ _ _ _ _ _ _ _ _) as [[r|x] w1] eqn:Hloss; [|done].
  unfold bind at 1, lift at 1.
  destruct (list_set (lyapunov_positivity_mip_costs st) _ _) as [pcs|x] eqn:Hp;
    [|done].
  unfold bind at 1, lift at 1.
  destruct (list_set (lyapunov_derivative_mip_costs st) _ _) as [dcs|x] eqn:Hd;
    [|done].
  unfold bind at 1, lift at 1, loss_item.
  destruct (in_loss_is_tensor (loss_graph r)) eqn:Htensor; [|done].
  unfold bind at 1, lift at 1.
  destruct (list_set (losses st) _ _) as [ls|x] eqn:Hl; [|done].
  apply list_set_ok in Hp as [Hp ->].
  apply list_set_ok in Hd as [Hd ->].
  apply list_set_ok in Hl as [Hl ->].
  destruct (converged self _ _) eqn:Hconv.
  - unfold ret. intros [= <- <-]. by exists r.
  - unfold bind at 1.
    destruct (next_project_gradient_mode self st w1) as [[mode|x] w2];
      [|done].
    unfold bind at 1.
    match goal with
    | |- context [match ?c w2 with _ => _ end] =>
        destruct (c w2) as [[[]|x] w3]; [|done]
    end.
    unfold bind at 1, call_optimizer_step.
    by destruct (optimizer_step _ _ _).
Qed.

(** The entries recorded so far all fail the convergence test. *)
Definition recorded_without_convergence (self : TrainLyapunovReLU)
    (st : TrainState) : Prop :=
  forall i, i < iter_count st ->
    exists p d,
      lyapunov_positivity_mip_costs st !! i = Some (Some p) /\
      lyapunov_derivative_mip_costs st !! i = Some (Some d) /\
      converged self p d = false.

Definition train_progress (self : TrainLyapunovReLU) (steps0 : nat)
    (st : TrainState) (w : World) : Prop :=
  histories_filled self st /\
  recorded_without_convergence self st /\
  optimizer_steps (trace w) = steps0 + iter_count st.

Lemma train_progress_step self steps0 st st' (w w' : World) :
  train_progress self steps0 st w ->
  train_iteration self st w = (Ok (Continue st'), w') ->
  train_progress self steps0 st' w'.
Proof.
  intros (Hfilled & Hrec & Hsteps) Hit.
  split; [by eapply histories_filled_step|].
  pose proof (train_iteration_trace _ _ _ _ _ Hit)
    as (r0 & evs & Hevs & Htrace & _).
  apply train_iteration_continue in Hit
    as (r & w1 & _ & Hconv & Hp & Hd & _ & _ & Hcount & _ & _ & _ & Hpcs &
        Hdcs & _).
  split.
  - intros i Hi. rewrite Hpcs, Hdcs.
    destruct (decide (i = iter_count st)) as [->|Hne].
    + eexists _, _. rewrite !list_lookup_insert_eq by done. done.
    + rewrite !list_lookup_insert_ne by done. apply Hrec. lia.
  - rewrite Htrace, !optimizer_steps_app.
    apply total_loss_events_quiet in Hevs as [-> _].
    assert (optimizer_steps
              (gradient_event self r0 (project_gradient_mode st')) = 0)
      as ->.
    { unfold gradient_event.
      by destruct (project_gradient_method self),
           (project_gradient_mode st'). }
    rewrite Hsteps, Hcount. simpl. unfold optimizer_steps. simpl. lia.
Qed.

Lemma step_forward_events_of_total_loss (l : list State) :
  Forall is_total_loss_event (map (fun x => EvStepForward x None) l).
Proof. induction l as [|x l IH]; simpl; by constructor. Qed.

Lemma step_forward_events_quiet (l : list State) :
  optimizer_steps (map (fun x => EvStepForward x None) l) = 0 /\
  backward_calls (map (fun x => EvStepForward x None) l) = 0.
Proof.
  apply total_loss_events_quiet, step_forward_events_of_total_loss.
Qed.

Lemma train_loop_result self steps0 :
  forall n st (w : World) b ls pcs dcs (w' : World),
    train_progress self steps0 st w ->
    iter_count st + n = max_iterations self ->
    train_loop self n st w = (Ok (b, ls, pcs, dcs), w') ->
    exists k,
      optimizer_steps (trace w') = steps0 + k /\
      (if b then k < max_iterations self else k = max_iterations self) /\
      length ls = k + (if b then 1 else 0) /\
      length pcs = length ls /\ length dcs = length ls /\
      Forall is_Some ls /\ Forall is_Some pcs /\ Forall is_Some dcs /\
      forall i p d,
        pcs !! i = Some (Some p) -> dcs !! i = Some (Some d) ->
        converged self p d = b && (i =? k).
Proof.
  induction n as [|n IH]; intros st w b ls pcs dcs w' Hprog Hn; simpl.
  - unfold ret. intros [= <- <- <- <- <-].
    destruct Hprog as ((Hl & Hp & Hd & Hfl & Hfp & Hfd) & Hrec & Hsteps).
    exists (iter_count st).
    rewrite take_ge in Hfl, Hfp, Hfd by lia.
    split; [done|]. split; [lia|].
    repeat (split; [first [done | lia]|]).
    intros i p d Hip Hid.
    assert (i < iter_count st) as Hi
      by (apply lookup_lt_Some in Hip; lia).
    destruct (Hrec i Hi) as (p' & d' & Hp' & Hd' & Hconv).
    by replace p with p' by congruence; replace d with d' by congruence.
  - intros Hrun.
    apply bind_inv in Hrun as ([st1|res] & w1 & Hit & Hrest).
    + pose proof (train_progress_step _ _ _ _ _ _ Hprog Hit) as Hprog1.
      apply train_iteration_continue in Hit
        as (r & w2 & _ & _ & _ & _ & _ & _ & Hcount & _).
      eapply IH; [exact Hprog1| |exact Hrest]. lia.
    + unfold ret in Hrest. injection Hrest as -> <-.
      apply train_iteration_return_inv in Hit
        as (r & Hloss & Hconv & Hp & Hd & Hl & [= -> -> -> ->]).
      destruct Hprog as ((Hll & Hlp & Hld & Hfl & Hfp & Hfd) & Hrec & Hsteps).
      pose proof (total_loss_framed self (train_positivity_state_samples st)
                    (train_derivative_state_samples st)
                    (train_derivative_state_samples_next st) None None None
                    None (after_zero_grad w))
        as (_ & _ & _ & evs & Hevs & Hall).
      rewrite Hloss in Hevs. simpl in Hevs.
      exists (iter_count st).
      rewrite !take_recorded by done.
      split.
      { rewrite Hevs, !optimizer_steps_app.
        apply total_loss_events_quiet in Hall as [-> _].
        rewrite Hsteps. unfold optimizer_steps. simpl. lia. }
      split; [lia|].
      rewrite !length_app, !length_take. simpl.
      split; [lia|]. split; [lia|]. split; [lia|].
      split; [apply Forall_app; split; [done|by repeat constructor]|].
      split; [apply Forall_app; split; [done|by repeat constructor]|].
      split; [apply Forall_app; split; [done|by repeat constructor]|].
      intros i p d Hip Hid.
      destruct (decide (i < iter_count st)) as [Hi|Hi].
      * rewrite lookup_app_l in Hip, Hid by (rewrite length_take; lia).
        rewrite lookup_take_lt in Hip, Hid by done.
        destruct (Hrec i Hi) as (p' & d' & Hp' & Hd' & Hconv').
        replace p with p' by congruence. replace d with d' by congruence.
        rewrite Hconv'. simpl. symmetry. apply Nat.eqb_neq. lia.
      * assert (i = iter_count st) as ->.
        { apply lookup_lt_Some in Hip.
          rewrite length_app, length_take in Hip. simpl in Hip. lia. }
        rewrite lookup_app_r in Hip, Hid by (rewrite length_take_le; lia).
        rewrite length_take_le, Nat.sub_diag in Hip, Hid by lia.
        simpl in Hip, Hid. injection Hip as <-. injection Hid as <-.
        by rewrite Hconv, Nat.eqb_refl.
Qed.

(** X3. What [train] returns, for every run that returns.  With [k] the number
    of optimizer steps taken: the three histories have one entry per
    evaluation of [total_loss], none of them [None]; the flag is [True] with
    [k + 1] entries and [k < max_iterations], or [False] with
    [k = max_iterations] entries; and the recorded certificate values pass
    the convergence test at the last entry of a run that returns [True] and
    nowhere else. *)
Theorem train_result_histories self (all : ref) (w0 w' : World) (b : bool)
    (ls pcs dcs : list (option Q)) :
  train self all w0 = (Ok (b, ls, pcs, dcs), w') ->
  exists k,
    optimizer_steps (trace w') = optimizer_steps (trace w0) + k /\
    (if b then k < max_iterations self else k = max_iterations self) /\
    length ls = k + (if b then 1 else 0) /\
    length pcs = length ls /\ length dcs = length ls /\
    Forall is_Some ls /\ Forall is_Some pcs /\ Forall is_Some dcs /\
    forall i p d,
      pcs !! i = Some (Some p) -> dcs !! i = Some (Some d) ->
      converged self p d = b && (i =? k).
Proof.
  intros Hrun. unfold train in Hrun.
  apply bind_inv in Hrun as (st & w & Hsetup & Hloop).
  apply train_setup_ok in Hsetup
    as (t & nt & opt & _ & _ & _ & _ & Htrace & ->).
  simpl in Hloop. rewrite Nat.sub_0_r in Hloop.
  eapply train_loop_result; [| |exact Hloop]; [|simpl; lia].
  split.
  { unfold histories_filled. simpl. rewrite !length_replicate.
    by repeat split. }
  split; [intros i Hi; simpl in Hi; lia|].
  simpl. rewrite Htrace, optimizer_steps_app.
  destruct (step_forward_events_quiet (rows t)) as [-> _]. lia.
Qed.

(** ** The optimizer of [train] *)

Lemma framed_clone P (r : ref) : framed P (clone r).
Proof.
  apply framed_bind; [apply framed_deref|]. intros t. apply framed_alloc.
Qed.

Lemma framed_stack_step_forward (P : Event -> Prop) (r : ref) :
  (forall ev, is_step_forward ev -> P ev) -> framed P (stack_step_forward r).
Proof.
  intros HP. apply framed_bind; [apply framed_deref|]. intros t.
  apply framed_bind.
  - intros w. rewrite map_m_step_forward_run. apply frame_add_events.
    induction (rows t) as [|x l IH]; simpl; constructor; [by apply HP|done].
  - intros nexts. apply framed_bind; [apply framed_lift|].
    intros t'. apply framed_alloc.
Qed.

Lemma framed_assert P (b : bool) : framed P (assert b).
Proof. unfold assert. destruct b; [apply framed_ret|apply framed_raise]. Qed.

Lemma framed_make_optimizer P self : framed P (make_optimizer self).
Proof.
  unfold make_optimizer.
  destruct (String.eqb _ _); [apply framed_ret|].
  destruct (String.eqb _ _); [apply framed_ret|apply framed_raise].
Qed.

Lemma framed_train_setup self (all : ref) :
  framed is_step_forward (train_setup self all).
Proof.
  unfold train_setup.
  apply framed_bind; [apply framed_deref|]. intros t.
  apply framed_bind; [apply framed_assert|]. intros _.
  apply framed_bind; [apply framed_clone|]. intros p.
  apply framed_bind; [apply framed_clone|]. intros d.
  apply framed_bind; [by apply framed_stack_step_forward|]. intros n.
  apply framed_bind; [apply framed_make_optimizer|]. intros o.
  apply framed_ret.
Qed.

Lemma bind_raise_later {A B} (c : M A) (k : A -> M B) (w : World) :
  (forall a w1, exists x, (k a w1).1 = Raise x) ->
  exists x, (bind c k w).1 = Raise x.
Proof.
  intros Hk. unfold bind. destruct (c w) as [[a|x] w1]; [apply Hk|].
  by exists x.
Qed.

(** The samples that [train] accepts: the argument is a tensor with [x_dim]
    columns whose next states can be stacked. *)
Definition samples_accepted (all : ref) (w0 : World) : Prop :=
  exists t nt,
    tensors w0 !! all = Some t /\ shape1 t = x_dim /\
    torch_stack (map (fun x => step_forward x None) (rows t)) = Ok nt.

(** X4. An optimizer name other than "Adam" and "SGD" makes [train] raise: it
    never returns, and it stops before the first evaluation of the loss, so
    that the network and its gradients are as they were and the only calls
    made are those of [step_forward] on the samples.  On samples that [train]
    accepts the exception is the one of line 463. *)
Theorem train_rejects_unknown_optimizer self (all : ref) (w0 : World) :
  optimizer self <> "Adam"%string -> optimizer self <> "SGD"%string ->
  let out := train self all w0 in
  (forall res, out.1 <> Ok res) /\
  frame_of is_step_forward w0 out.2 /\
  (samples_accepted all w0 -> out.1 = Raise UnknownOptimizer).
Proof.
  intros Hadam%String.eqb_neq Hsgd%String.eqb_neq. cbv zeta.
  assert (forall w, exists x, (make_optimizer self w).1 = Raise x /\
                              x = UnknownOptimizer) as Hmake.
  { intros w. unfold make_optimizer. rewrite Hadam, Hsgd. by eexists. }
  assert (train self all w0 = 
          match train_setup self all w0 with
          | (Ok st, w) =>
              train_loop self (max_iterations self - iter_count st) st w
          | (Raise x, w) => (Raise x, w)
          end) as Htrain by done.
  assert (exists x, (train_setup self all w0).1 = Raise x) as [x Hx].
  { unfold train_setup.
    apply bind_raise_later. intros t w1.
    apply bind_raise_later. intros _ w2.
    apply bind_raise_later. intros p w3.
    apply bind_raise_later. intros d w4.
    apply bind_raise_later. intros n w5.
    unfold bind. destruct (Hmake w5) as (y & Hy & _).
    destruct (make_optimizer self w5) as [[o|z] w6]; [done|]. by exists z. }
  pose proof (framed_train_setup self all w0) as Hframe.
  destruct (train_setup self all w0) as [[st|y] w] eqn:Hsetup; [done|].
  simpl in Hx, Hframe. rewrite Htrain. simpl.
  split; [done|]. split; [done|].
  intros (t & nt & Hall & Hshape & Hstack).
  revert Hsetup. unfold train_setup.
  unfold bind at 1, deref at 1. rewrite Hall.
  unfold bind at 1. rewrite Hshape, Nat.eqb_refl. simpl.
  unfold bind at 1, clone at 1, bind at 1, deref at 1. rewrite Hall.
  unfold alloc at 1.
  unfold bind at 1, clone at 1, bind at 1, deref at 1. simpl.
  rewrite (lookup_app_l_Some _ _ _ _ Hall).
  unfold alloc at 1.
  unfold bind at 1, stack_step_forward at 1, bind at 1, deref at 1. simpl.
  rewrite lookup_app_r, Nat.sub_diag by done.
  simpl. unfold bind at 1. rewrite map_m_step_forward_run.
  unfold bind at 1, lift at 1. rewrite Hstack.
  unfold alloc at 1. unfold bind at 1.
  match goal with
  | |- context [make_optimizer self ?w5] =>
      destruct (Hmake w5) as (z & Hz & ->);
      destruct (make_optimizer self w5) as [[o|z] w6]; [done|]
  end.
  simpl in Hz. intros [= <- _]. by injection Hz as ->.
Qed.

(** ** The projection of the gradient in [train] *)

(** The gradient calls of the first [k] turns of a run that started in
    [w0]. *)
Definition policy_trace (self : TrainLyapunovReLU) (w0 w : World) (k : nat)
  : Prop :=
  match project_gradient_method self with
  | NONE =>
      projection_modes (trace w) = projection_modes (trace w0) /\
      backward_calls (trace w) = backward_calls (trace w0) + k
  | SUM =>
      projection_modes (trace w) =
        projection_modes (trace w0) ++ replicate k BOTH /\
      backward_calls (trace w) = backward_calls (trace w0)
  | ALTERNATE =>
      length (projection_modes (trace w)) =
        length (projection_modes (trace w0)) + k /\
      backward_calls (trace w) = backward_calls (trace w0)
  | EMPHASIZE_POSITIVITY =>
      projection_modes (trace w) =
        projection_modes (trace w0) ++ replicate k EMPHASIZE_LOSS1 /\
      backward_calls (trace w) = backward_calls (trace w0)
  end.

Lemma replicate_snoc {A} (k : nat) (x : A) :
  replicate k x ++ [x] = replicate (k + 1) x.
Proof. induction k as [|k IH]; simpl; [done|]. by rewrite IH. Qed.

Lemma policy_trace_step self (w0 : World) st st' (w w' : World) :
  policy_trace self w0 w (iter_count st) ->
  train_iteration self st w = (Ok (Continue st'), w') ->
  policy_trace self w0 w' (iter_count st').
Proof.
  intros Hpol Hit.
  pose proof (train_iteration_trace _ _ _ _ _ Hit)
    as (r & evs & Hevs & Htrace & Hsome).
  apply train_iteration_continue in Hit
    as (_ & w1 & _ & _ & _ & _ & _ & Hmode & Hcount & _).
  pose proof (projection_modes_total_loss _ Hevs) as Hnone.
  apply total_loss_events_quiet in Hevs as [_ Hquiet].
  unfold policy_trace in *. rewrite Htrace, Hcount.
  rewrite !projection_modes_app, !backward_calls_app, Hnone, Hquiet.
  unfold next_project_gradient_mode in Hmode.
  unfold gradient_event.
  destruct (project_gradient_method self) eqn:Hmethod.
  - destruct Hpol as [-> ->]. simpl. rewrite app_nil_r.
    split; [done|]. unfold backward_calls. simpl. lia.
  - injection Hmode as <-. destruct Hpol as [-> ->]. simpl.
    rewrite <- app_assoc, replicate_snoc. split; [done|].
    unfold backward_calls. simpl. lia.
  - destruct Hsome as [m ->]; [done|]. destruct Hpol as [Hlen ->]. simpl.
    rewrite !length_app, Hlen. simpl.
    split; [lia|]. unfold backward_calls. simpl. lia.
  - injection Hmode as <-. destruct Hpol as [-> ->]. simpl.
    rewrite <- app_assoc, replicate_snoc. split; [done|].
    unfold backward_calls. simpl. lia.
Qed.

(** X5. The four projection policies, in every run of [train], after [k] turns
    of the loop that went on.  [k] optimizer steps have been taken.  Under
    [NONE] the gradient comes from [k] calls of [loss.backward()] and
    [project_gradient] is never called.  Under the three other policies
    [loss.backward()] is never called and [project_gradient] is called [k]
    times: under [SUM] always with mode [BOTH], under
    [EMPHASIZE_POSITIVITY] always with mode [EMPHASIZE_LOSS1]. *)
Theorem projection_follows_method self (all : ref) (w0 : World) (k : nat)
    (st : TrainState) (w : World) :
  (st0 <- train_setup self all ;; train_iterations self k st0) w0 =
    (Ok (Continue st), w) ->
  optimizer_steps (trace w) = optimizer_steps (trace w0) + k /\
  policy_trace self w0 w k.
Proof.
  intros Hrun. apply bind_inv in Hrun as (st0 & w1 & Hsetup & Hrun).
  pose proof (train_iterations_count _ _ _ _ _ _ Hrun) as Hcount.
  apply train_setup_ok in Hsetup
    as (t & nt & opt & _ & _ & _ & _ & Htrace & ->).
  simpl in Hcount.
  destruct (step_forward_events_quiet (rows t)) as [Hs Hb].
  assert (projection_modes (map (fun x => EvStepForward x None) (rows t)) = [])
    as Hm.
  { apply projection_modes_total_loss, step_forward_events_of_total_loss. }
  split.
  - assert (train_progress self (optimizer_steps (trace w0)) st w)
      as (_ & _ & ->); [|lia].
    eapply (train_iterations_invariant self
              (train_progress self (optimizer_steps (trace w0))));
      [intros; by eapply train_progress_step| |exact Hrun].
    split.
    { unfold histories_filled. simpl. rewrite !length_replicate.
      by repeat split. }
    split; [intros i Hi; simpl in Hi; lia|].
    simpl. rewrite Htrace, optimizer_steps_app, Hs. lia.
  - replace k with (iter_count st) by lia.
    eapply (train_iterations_invariant self
              (fun st w => policy_trace self w0 w (iter_count st)));
      [intros; by eapply policy_trace_step| |exact Hrun].
    unfold policy_trace. simpl.
    rewrite Htrace, projection_modes_app, backward_calls_app, Hm, Hb.
    rewrite !app_nil_r, !Nat.add_0_r.
    by destruct (project_gradient_method self).
Qed.

(** ** The pools of [train] *)

(** [x] is the adversarial state of the positivity MILP for some network. *)
Definition positivity_adversarial (self : TrainLyapunovReLU) (x : State)
  : Prop :=
  exists th, x = x_sol (solved Positivity self th).

(** [x] is the adversarial state of the derivative MILP for some network,
    and [y] is [system.step_forward(x, mode)] for the mode that MILP
    reports: the first one whose indicator exceeds 0.99. *)
Definition derivative_adversarial (self : TrainLyapunovReLU) (x y : State)
  : Prop :=
  exists th mode,
    x = x_sol (solved Derivative self th) /\
    argwhere_first (gamma_sol (solved Derivative self th)) 0 = Some mode /\
    y = step_forward x (Some mode).

(** The three pools after [k] turns of the loop, for the samples [t0] that
    [train] was given: the rows of [t0], and their next states computed
    without a mode, followed by the adversarial rows. *)
Definition pools_grown (self : TrainLyapunovReLU) (t0 : Tensor2) (k : nat)
    (w : World) (st : TrainState) : Prop :=
  exists pt dt nt extra_p extra_d extra_n,
    tensors w !! train_positivity_state_samples st = Some pt /\
    tensors w !! train_derivative_state_samples st = Some dt /\
    tensors w !! train_derivative_state_samples_next st = Some nt /\
    rows pt = rows t0 ++ extra_p /\
    rows dt = rows t0 ++ extra_d /\
    rows nt = map (fun x => step_forward x None) (rows t0) ++ extra_n /\
    length extra_p = k * pool_growth self /\
    length extra_d = k * pool_growth self /\
    Forall (positivity_adversarial self) extra_p /\
    Forall2 (derivative_adversarial self) extra_d extra_n.

Lemma pools_grown_step self t0 st st' (w w' : World) :
  pools_grown self t0 (iter_count st) w st ->
  train_iteration self st w = (Ok (Continue st'), w') ->
  tensors w `prefix_of` tensors w' /\
  pools_grown self t0 (iter_count st') w' st'.
Proof.
  intros (pt & dt & nt & xp & xd & xn & Hp & Hd & Hn & Hrp0 & Hrd0 & Hrn0 &
          Hlp & Hld & Hadv_p & Hadv_d) Hit.
  apply train_iteration_continue in Hit
    as (r & w1 & Hloss & _ & _ & _ & _ & _ & Hcount & Hrp & Hrd & Hrn & _ &
        _ & _ & Hts & _).
  apply total_loss_pool_rows in Hloss
    as (pt' & dt' & nt' & Hp' & Hd' & Hn' & _ & Hpre & Hret).
  simpl in Hp', Hd', Hn', Hpre.
  assert (pt' = pt) as -> by congruence.
  assert (dt' = dt) as -> by congruence.
  assert (nt' = nt) as -> by congruence.
  rewrite Hts. split; [done|].
  unfold pools_grown. rewrite Hrp, Hrd, Hrn, Hts, Hcount.
  unfold pool_growth in *.
  destruct (add_adversarial_state_to_training self).
  - destruct Hret as (m & Hm & Hp1 & Hd1 & Hn1).
    eexists _, _, _, (xp ++ [_]), (xd ++ [_]), (xn ++ [_]).
    split; [exact Hp1|]. split; [exact Hd1|]. split; [exact Hn1|]. simpl.
    rewrite Hrp0, Hrd0, Hrn0, <- !app_assoc, !length_app. simpl.
    split; [done|]. split; [done|]. split; [done|].
    split; [lia|]. split; [lia|]. split.
    + apply Forall_app. split; [done|]. constructor; [by eexists|constructor].
    + apply Forall2_app; [done|]. constructor; [|constructor].
      by eexists _, m.
  - destruct Hret as (-> & -> & ->).
    exists pt, dt, nt, xp, xd, xn.
    split; [by eapply prefix_lookup_Some|].
    split; [by eapply prefix_lookup_Some|].
    split; [by eapply prefix_lookup_Some|].
    repeat split; try done; lia.
Qed.

(** X6. The pools in every run of [train], at every turn [k] of the loop
    that is reached.  The tensor the caller passed is as it was.  The
    positivity pool and the derivative pool hold its rows, in their order,
    followed by [k] more rows when adversarial states are added and by none
    otherwise.  The next-state pool holds [step_forward(x)], called without
    a mode, for each row [x] the caller passed.  A row added to the
    positivity pool is the solution of the positivity MILP for some
    network; a row [x] added to the derivative pool is the solution of the
    derivative MILP for some network, and the row added with it to the
    next-state pool is [step_forward(x, mode)], where [mode] is the first
    mode whose indicator in that solution exceeds 0.99. *)
Theorem pools_follow_the_dynamics self (all : ref) (w0 : World) (k : nat)
    (st : TrainState) (w : World) :
  (st0 <- train_setup self all ;; train_iterations self k st0) w0 =
    (Ok (Continue st), w) ->
  exists t0,
    tensors w0 !! all = Some t0 /\
    tensors w !! all = Some t0 /\
    pools_grown self t0 k w st.
Proof.
  intros Hrun. apply bind_inv in Hrun as (st0 & w1 & Hsetup & Hrun).
  pose proof (train_iterations_count _ _ _ _ _ _ Hrun) as Hcount.
  apply train_setup_ok in Hsetup
    as (t & nt & opt & Hall & Hnt & Hts & _ & _ & ->).
  simpl in Hcount. exists t. split; [done|].
  assert (tensors w0 `prefix_of` tensors w /\
          pools_grown self t (iter_count st) w st) as [Hpre Hpools].
  { eapply (train_iterations_invariant self
              (fun st w => tensors w0 `prefix_of` tensors w /\
                           pools_grown self t (iter_count st) w st));
      [| |exact Hrun].
    - intros st1 wa st2 wb [Hpre Hpools] Hit.
      destruct (pools_grown_step _ _ _ _ _ _ Hpools Hit) as [Hpre' Hpools'].
      split; [by etrans|done].
    - split; [rewrite Hts; by apply prefix_app_r|].
      exists t, t, nt, [], [], []. simpl. rewrite Hts, !app_nil_r.
      split; [by rewrite lookup_app_r, Nat.sub_diag by lia|].
      split.
      { rewrite lookup_app_r by lia.
        by replace (S (length (tensors w0)) - length (tensors w0)) with 1
          by lia. }
      split.
      { rewrite lookup_app_r by lia.
        by replace (S (S (length (tensors w0))) - length (tensors w0)) with 2
          by lia. }
      repeat split; try done; constructor. }
  split; [by eapply prefix_lookup_Some|].
  by replace k with (iter_count st) by lia.
Qed.

(** ** How [train_lyapunov_on_samples] ends *)

(** The loop over [range(n)] ends after its last turn, or at a turn that
    breaks. *)
Lemma on_samples_loop_result self all max_inc (w0 : World) next st0
    (w00 : World) :
  on_samples_setup self all w0 = (Ok (next, st0), w00) ->
  forall n flow (w1 : World),
    on_samples_loop self all next max_inc (seq 0 n) st0 w00 = (Ok flow, w1) ->
    (exists st, flow = Next st /\
                samples_reaches self all max_inc w0 n next st w1) \/
    (exists k st w st',
       flow = Break st' /\ k < n /\
       samples_reaches self all max_inc w0 k next st w /\
       on_samples_iteration self all next max_inc k st w =
         (Ok (Break st'), w1)).
Proof.
  intros Hsetup n. induction n as [|n IH]; intros flow w1.
  - simpl. unfold ret. intros [= <- <-]. left. exists st0.
    split; [done|]. by exists st0, w00.
  - rewrite seq_S, on_samples_loop_app. simpl.
    destruct (on_samples_loop self all next max_inc (seq 0 n) st0 w00)
      as [[[st|st]|x] w] eqn:Hloop; [| |done].
    + destruct (IH _ _ eq_refl) as [(st1 & [= <-] & Hreach)|
                                    (k & st1 & wk & st' & [=] & _)].
      unfold bind.
      destruct (on_samples_iteration self all next max_inc n st w)
        as [[[st2|st2]|x] w2] eqn:Hit; [| |done].
      * unfold ret. intros [= <- <-]. left. exists st2. split; [done|].
        by eapply samples_reaches_S.
      * unfold ret. intros [= <- <-]. right. exists n, st, w, st2.
        split; [done|]. split; [lia|]. by split.
    + intros [= <- <-].
      destruct (IH _ _ eq_refl) as [(st1 & [=] & _)|
                                    (k & st1 & wk & st' & [= <-] & Hk & Hr)].
      right. exists k, st1, wk, st. split; [done|]. split; [lia|done].
Qed.

(** How [train_lyapunov_on_samples] returns. *)
Lemma train_lyapunov_on_samples_ok self all max_iterations max_inc
    (w0 w' : World) flow :
  train_lyapunov_on_samples self all max_iterations max_inc w0 =
    (Ok flow, w') ->
  exists next st0 w00 w1 best,
    on_samples_setup self all w0 = (Ok (next, st0), w00) /\
    on_samples_loop self all next max_inc (seq 0 max_iterations) st0 w00 =
      (Ok flow, w1) /\
    best_relu (flow_state flow) = Some best /\
    w' = add_events [EvLoadStateDict] (set_theta best w1).
Proof.
  unfold train_lyapunov_on_samples. intros Hrun.
  apply bind_inv in Hrun as ([next st0] & w00 & Hsetup & Hrun).
  apply bind_inv in Hrun as (flow1 & w1 & Hloop & Hrun).
  simpl in Hloop.
  destruct (best_relu (flow_state flow1)) as [best|] eqn:Hbest; [|done].
  unfold bind, call_load_state_dict, ret in Hrun. injection Hrun as <- <-.
  by exists next, st0, w00, w1, best.
Qed.

(** *** The counter of increasing iterations *)

(** Before turn [k] the counter has been incremented at most [k - 1] times:
    the first turn compares with [np.inf] and never increments it. *)
Definition counter_bounded (k : nat) (st : SamplesState) : Prop :=
  (k = 0 /\ previous_mip_loss st = Inf /\ num_increasing_iterations st = 0) \/
  (1 <= k /\ num_increasing_iterations st + 1 <= k).

Lemma counter_bounded_reaches self all max_inc (w0 : World) :
  forall k next st w,
    samples_reaches self all max_inc w0 k next st w ->
    counter_bounded k st /\ (0 < k -> samples_iter_count st = k - 1).
Proof.
  induction k as [|k IH]; intros next st w Hreach.
  - apply samples_reaches_0 in Hreach as (_ & _ & Hnum & Hprev).
    split; [by left|lia].
  - apply samples_reaches_S_inv in Hreach as (st1 & w1 & Hreach & Hit).
    destruct (IH _ _ _ Hreach) as [Hbound _].
    apply on_samples_iteration_ok in Hit
      as (r & w2 & o' & _ & _ & _ & Hst & _).
    simpl in Hst. subst st. unfold samples_update. simpl.
    split; [|intros _; lia]. right. split; [lia|]. simpl.
    destruct Hbound as [(-> & -> & ->)|[Hk Hnum]]; [simpl; lia|].
    destruct (gt_ext _ _); lia.
Qed.

(** X7. When the loop is left by [break], the counter has just reached
    [max_increasing_iterations], which is therefore at least one, and at
    least that many turns came before the one that breaks.  In particular
    [max_increasing_iterations = 0] never stops the training early. *)
Theorem early_stop_needs_enough_iterations self (all : ref)
    (max_iterations max_inc : nat) (w0 w' : World) (st : SamplesState) :
  train_lyapunov_on_samples self all max_iterations max_inc w0 =
    (Ok (Break st), w') ->
  1 <= max_inc /\
  max_inc <= samples_iter_count st /\
  samples_iter_count st < max_iterations /\
  num_increasing_iterations st = max_inc.
Proof.
  intros Hrun. apply train_lyapunov_on_samples_ok in Hrun
    as (next & st0 & w00 & w1 & best & Hsetup & Hloop & _ & _).
  destruct (on_samples_loop_result _ _ _ _ _ _ _ Hsetup _ _ _ Hloop)
    as [(st1 & [=] & _)|(k & st1 & wk & st' & [= <-] & Hk & Hreach & Hit)].
  destruct (counter_bounded_reaches _ _ _ _ _ _ _ _ Hreach) as [Hbound _].
  apply on_samples_iteration_ok in Hit
    as (r & w2 & o' & _ & _ & _ & Hst & Hflow & _).
  simpl in Hst. subst st.
  destruct (samples_break self max_inc st1 (theta wk)) eqn:Hbreak; [|done].
  unfold samples_break in Hbreak.
  apply andb_true_iff in Hbreak as [Hgt Hmax%Nat.eqb_eq].
  unfold samples_update. simpl. rewrite Hgt.
  destruct Hbound as [(-> & Hprev & _)|[Hk1 Hnum]].
  - by rewrite Hprev in Hgt.
  - lia.
Qed.

(** *** Exceptions *)

Lemma total_loss_raises self p d n a b c e (w w' : World) x :
  total_loss self p d n a b c e w = (Raise x, w') ->
  x = AssertionError \/ x = IndexError \/ x = RuntimeError.
Proof.
  rewrite total_loss_unfold.
  destruct (tensors w !! p) as [pt|] eqn:Hp; [|intros [= <- _]; by left].
  destruct (tensors w !! d) as [dt|] eqn:Hd; [|intros [= <- _]; by left].
  destruct (tensors w !! n) as [nt|] eqn:Hn; [|intros [= <- _]; by left].
  destruct (entry_checks pt dt nt); [|intros [= <- _]; by left].
  unfold returned_pools.
  destruct (add_adversarial_state_to_training self); [|done].
  set (w1 := add_events _ w).
  pose proof (append_adversarial_states_raises
                (solved Positivity self (theta w))
                (solved Derivative self (theta w)) p d n w1 pt dt nt
                Hp Hd Hn) as Hout.
  destruct (append_adversarial_states _ _ p d n w1) as [[pools|y] w2];
    [done|].
  simpl in Hout. intros [= <- _].
  destruct (argwhere_first _ 0) as [m|].
  - destruct (adversarial_rows_fit _ _ _ _ _ _); [done|].
    injection Hout as ->. by right; right.
  - injection Hout as ->. by right; left.
Qed.

Lemma torch_stack_raises (xs : list State) x :
  torch_stack xs = Raise x -> x = RuntimeError.
Proof.
  unfold torch_stack. destruct xs as [|y rest]; [by intros [= <-]|].
  destruct (forallb _ _); [done|by intros [= <-]].
Qed.

Lemma on_samples_setup_raises self all (w w' : World) x :
  on_samples_setup self all w = (Raise x, w') ->
  x = AssertionError \/ x = RuntimeError.
Proof.
  unfold on_samples_setup.
  unfold bind at 1, deref at 1.
  destruct (tensors w !! all) as [t|] eqn:Hall; [|intros [= <- _]; by left].
  unfold bind at 1, assert.
  destruct (shape1 t =? x_dim); [|intros [= <- _]; by left].
  simpl. unfold bind at 1, stack_step_forward, bind at 1, deref at 1.
  rewrite Hall. unfold bind at 1. rewrite map_m_step_forward_run.
  unfold bind at 1, lift at 1.
  destruct (torch_stack _) as [nt|y] eqn:Hstack; [done|].
  apply torch_stack_raises in Hstack as ->. intros [= <- _]. by right.
Qed.

Lemma on_samples_iteration_raises self all next max_inc i st (w w' : World) x :
  on_samples_iteration self all next max_inc i st w = (Raise x, w') ->
  x = AssertionError \/ x = IndexError \/ x = RuntimeError \/
  x = AttributeError.
Proof.
  destruct (total_loss self all all next None None (Some 0%Q) (Some 0%Q)
              (after_zero_grad w)) as [[r|y] w1] eqn:Hloss.
  - rewrite (on_samples_iteration_run _ _ _ _ _ _ _ _ _ Hloss). cbv zeta.
    destruct (samples_break _ _ _ _); [done|].
    destruct (in_loss_is_tensor (loss_graph r)) eqn:Htensor.
    + match goal with
      | |- context [backward_and_step ?s ?g ?o ?w2] =>
          destruct (backward_and_step_ok s g o w2 Htensor) as (o' & w3 & ->)
      end.
      done.
    + rewrite backward_and_step_float by done. intros [= <- _]. auto.
  - unfold on_samples_iteration. unfold bind at 1.
    change (optimizer_zero_grad w) with (Ok tt, after_zero_grad w).
    cbv iota beta. unfold bind at 1. rewrite Hloss.
    intros [= <- _]. apply total_loss_raises in Hloss. tauto.
Qed.

Lemma on_samples_loop_raises self all next max_inc (l : list nat) :
  forall st (w w' : World) x,
    on_samples_loop self all next max_inc l st w = (Raise x, w') ->
    x = AssertionError \/ x = IndexError \/ x = RuntimeError \/
    x = AttributeError.
Proof.
  induction l as [|i l IH]; intros st w w' x; simpl; [done|].
  unfold bind.
  destruct (on_samples_iteration self all next max_inc i st w)
    as [[[st1|st1]|y] w1] eqn:Hit.
  - apply IH.
  - done.
  - intros [= <- _]. by eapply on_samples_iteration_raises.
Qed.

(** *** The snapshot at the end of the loop *)

(** After at least one turn the loop holds a snapshot. *)
Lemma snapshot_after_a_turn self all max_inc (w0 : World) next st0
    (w00 : World) n flow (w1 : World) :
  on_samples_setup self all w0 = (Ok (next, st0), w00) ->
  on_samples_loop self all next max_inc (seq 0 n) st0 w00 = (Ok flow, w1) ->
  0 < n -> is_Some (best_relu (flow_state flow)).
Proof.
  intros Hsetup Hloop Hn.
  destruct (on_samples_loop_result _ _ _ _ _ _ _ Hsetup _ _ _ Hloop)
    as [(st & -> & Hreach)|(k & st & w & st' & -> & Hk & Hreach & Hit)].
  - destruct (best_loss_is_least_seen _ _ _ _ _ _ _ _ Hreach)
      as (_ & _ & Hbest).
    destruct (Hbest Hn) as (j & next' & st' & w'' & _ & _ & _ & Hb).
    simpl. rewrite Hb. by eexists.
  - destruct (best_loss_is_least_seen _ _ _ _ _ _ _ _ Hreach)
      as (Hinf & _ & Hbest).
    apply on_samples_iteration_ok in Hit
      as (r & w2 & o' & _ & _ & _ & Hst & _).
    simpl in *. subst st'. unfold samples_update. simpl.
    destruct (lt_ext _ (best_loss st)) eqn:Hlt; [by eexists|].
    destruct k as [|k]; [by rewrite Hinf in Hlt|].
    destruct (Hbest ltac:(lia)) as (j & next' & st' & w'' & _ & _ & _ & Hb).
    rewrite Hb. by eexists.
Qed.

(** X8. [train_lyapunov_on_samples] with [max_iterations = 0]: the loop takes
    no turn, [best_relu] is never bound, and the last statement raises
    [NameError] (an [UnboundLocalError]).  This is the only way the function
    raises that exception: with one turn or more, a snapshot has been taken
    by the time the loop is left. *)
Theorem no_iteration_leaves_best_relu_unbound self (all : ref)
    (max_inc : nat) (w0 : World) :
  (forall start w,
     on_samples_setup self all w0 = (Ok start, w) ->
     train_lyapunov_on_samples self all 0 max_inc w0 = (Raise NameError, w)) /\
  (forall max_iterations w',
     train_lyapunov_on_samples self all max_iterations max_inc w0 =
       (Raise NameError, w') ->
     max_iterations = 0).
Proof.
  split.
  - intros [next st0] w Hsetup.
    assert (samples_reaches self all max_inc w0 0 next st0 w) as Hreach
      by by exists st0, w.
    apply samples_reaches_0 in Hreach as (_ & Hbest & _).
    unfold train_lyapunov_on_samples. unfold bind at 1. rewrite Hsetup.
    simpl. unfold bind at 1, ret at 1. simpl. by rewrite Hbest.
  - intros n w'. unfold train_lyapunov_on_samples. unfold bind at 1.
    destruct (on_samples_setup self all w0) as [[[next st0]|x] w00] eqn:Hsetup.
    + unfold bind at 1. simpl.
      destruct (on_samples_loop self all next max_inc (seq 0 n) st0 w00)
        as [[flow|x] w1] eqn:Hloop.
      * destruct (best_relu (flow_state flow)) as [best|] eqn:Hbest; [done|].
        intros _. destruct n as [|n]; [done|].
        destruct (snapshot_after_a_turn _ _ _ _ _ _ _ _ _ _ Hsetup Hloop)
          as [best Hsome]; [lia|]. congruence.
      * intros [= -> _]. apply on_samples_loop_raises in Hloop.
        by destruct Hloop as [|[|[|]]].
    + intros [= -> _]. apply on_samples_setup_raises in Hsetup.
      by destruct Hsetup.
Qed.

(** X9. The network [train_lyapunov_on_samples] leaves behind is the one that
    was evaluated at some turn [j] of the loop, and no turn of the loop saw
    a smaller value of [weight * - positivity objective + weight *
    derivative objective] than that one. *)
Theorem restored_network_is_the_best_seen self (all : ref)
    (max_iterations max_inc : nat) (w0 w' : World) flow :
  train_lyapunov_on_samples self all max_iterations max_inc w0 =
    (Ok flow, w') ->
  exists j next st w,
    j <= samples_iter_count (flow_state flow) /\
    samples_reaches self all max_inc w0 j next st w /\
    theta w' = theta w /\
    forall i next' st' w'',
      i <= samples_iter_count (flow_state flow) ->
      samples_reaches self all max_inc w0 i next' st' w'' ->
      (mip_loss_at self (theta w') <= mip_loss_at self (theta w''))%Q.
Proof.
  intros Hrun. apply train_lyapunov_on_samples_ok in Hrun
    as (next & st0 & w00 & w1 & best & Hsetup & Hloop & Hbest & ->).
  change (theta (add_events [EvLoadStateDict] (set_theta best w1)))
    with best.
  destruct (on_samples_loop_result _ _ _ _ _ _ _ Hsetup _ _ _ Hloop)
    as [(st & -> & Hreach)|(k & st & w & st' & -> & Hk & Hreach & Hit)].
  - simpl in *.
    destruct max_iterations as [|n].
    { apply samples_reaches_0 in Hreach as (_ & Hnone & _). congruence. }
    destruct (counter_bounded_reaches _ _ _ _ _ _ _ _ Hreach) as [_ Hcount].
    rewrite Hcount by lia.
    destruct (best_loss_is_least_seen _ _ _ _ _ _ _ _ Hreach)
      as (_ & Hleast & Hsome).
    destruct (Hsome ltac:(lia)) as (j & nj & stj & wj & Hj & Hrj & Hbl & Hbr).
    assert (best = theta wj) as -> by congruence.
    exists j, nj, stj, wj. split; [lia|]. split; [done|]. split; [done|].
    intros i ni sti wi Hi Hri.
    specialize (Hleast i ni sti wi ltac:(lia) Hri).
    rewrite Hbl in Hleast. by apply Qlt_bool_false in Hleast.
  - destruct (best_loss_is_least_seen _ _ _ _ _ _ _ _ Hreach)
      as (Hinf & Hleast & Hsome).
    apply on_samples_iteration_ok in Hit
      as (r & w2 & o' & _ & _ & _ & Hst & _).
    simpl in *. subst st'. unfold samples_update in *. simpl in *.
    destruct (lt_ext (mip_loss_at self (theta w)) (best_loss st)) eqn:Hlt.
    + injection Hbest as <-.
      exists k, next, st, w. split; [lia|]. split; [done|]. split; [done|].
      intros i ni sti wi Hi Hri.
      destruct (decide (i = k)) as [->|Hne].
      * destruct (samples_reaches_fun _ _ _ _ _ _ _ _ _ _ _ Hri Hreach)
          as (_ & _ & ->). apply Qle_refl.
      * specialize (Hleast i ni sti wi ltac:(lia) Hri).
        destruct (best_loss st) as [q|]; [|done]. simpl in *.
        apply Qlt_bool_true in Hlt. apply Qlt_bool_false in Hleast.
        apply Qlt_le_weak. by eapply Qlt_le_trans.
    + destruct k as [|k]; [by rewrite Hinf in Hlt|].
      destruct (Hsome ltac:(lia)) as (j & nj & stj & wj & Hj & Hrj & Hbl & Hbr).
      assert (best = theta wj) as -> by congruence.
      exists j, nj, stj, wj. split; [lia|]. split; [done|]. split; [done|].
      intros i ni sti wi Hi Hri. rewrite Hbl in Hlt, Hleast. simpl in Hlt.
      destruct (decide (i = S k)) as [->|Hne].
      * destruct (samples_reaches_fun _ _ _ _ _ _ _ _ _ _ _ Hri Hreach)
          as (_ & _ & ->). by apply Qlt_bool_false in Hlt.
      * specialize (Hleast i ni sti wi ltac:(lia) Hri).
        by apply Qlt_bool_false in Hleast.
Qed.

(** *** The calls [train_lyapunov_on_samples] makes *)

(** No solution of a MILP is read back for a loss term. *)
Definition reads_no_objective (ev : Event) : Prop :=
  is_objective_extraction Positivity ev = false /\
  is_objective_extraction Derivative ev = false.

(** The number of calls of [gurobi_model.optimize()] in a trace. *)
Definition solver_calls (evs : list Event) : nat :=
  length (List.filter is_solver_call evs).

Lemma solver_calls_app (evs1 evs2 : list Event) :
  solver_calls (evs1 ++ evs2) = solver_calls evs1 + solver_calls evs2.
Proof. unfold solver_calls. by rewrite List.filter_app, length_app. Qed.

(** The calls of a turn, the solver calls among them, and the optimizer
    steps among them. *)
Definition turn_calls (evs : list Event) (solved_milps steps : nat) : Prop :=
  Forall reads_no_objective evs /\
  solver_calls evs = solved_milps /\
  optimizer_steps evs = steps.

Lemma turn_calls_app evs1 evs2 m1 m2 s1 s2 :
  turn_calls evs1 m1 s1 -> turn_calls evs2 m2 s2 ->
  turn_calls (evs1 ++ evs2) (m1 + m2) (s1 + s2).
Proof.
  intros (H1 & <- & <-) (H2 & <- & <-). split; [by apply Forall_app|].
  by rewrite solver_calls_app, optimizer_steps_app.
Qed.

Lemma total_loss_without_certificate_terms self all next (w w1 : World) r :
  total_loss self all all next None None (Some 0%Q) (Some 0%Q) w =
    (Ok r, w1) ->
  exists evs, trace w1 = trace w ++ evs /\ turn_calls evs 2 0.
Proof.
  intros Hloss.
  pose proof (total_loss_trace self all all next None None (Some 0%Q)
                (Some 0%Q) w) as Htrace.
  pose proof (total_loss_framed self all all next None None (Some 0%Q)
                (Some 0%Q) w) as (_ & _ & _ & evs' & Hevs' & Hall).
  rewrite Hloss in Htrace, Hevs'. cbn [snd] in Htrace, Hevs'.
  apply total_loss_ok in Hloss
    as (pt & dt & nt & pools & Hp & Hd & Hn & Hchecks & _ & _).
  assert (dt = pt) as -> by congruence.
  assert (entry w all all next = Some (pt, pt, nt)) as Hentry
    by (unfold entry; rewrite Hp, Hn; simpl; by rewrite Hchecks).
  rewrite Hentry in Htrace.
  eexists. split; [exact Htrace|].
  assert (0 == 0)%Q as Hzero by reflexivity.
  split; [|split].
  - pose proof (loss_events_objective_extraction Positivity self (theta w)
                  pt pt nt None None (Some 0%Q) (Some 0%Q)
                  (proj2 (positivity_mip_off self (Some 0%Q) _ Hzero))) as H1.
    pose proof (loss_events_objective_extraction Derivative self (theta w)
                  pt pt nt None None (Some 0%Q) (Some 0%Q)
                  (proj2 (derivative_mip_off self (Some 0%Q) _ Hzero))) as H2.
    rewrite Forall_forall in H1, H2. apply Forall_forall. intros ev Hev.
    split; [by apply H1|by apply H2].
  - unfold solver_calls.
    by rewrite List.filter_app, loss_events_solver_calls,
      adversarial_events_solver_calls.
  - assert (evs' = loss_events self (theta w) pt pt nt None None (Some 0%Q)
                     (Some 0%Q) ++ adversarial_events self (theta w)) as <-.
    { rewrite Htrace in Hevs'. symmetry. by apply app_inv_head in Hevs'. }
    by apply total_loss_events_quiet in Hall as [-> _].
Qed.

Lemma on_samples_iteration_calls self all next max_inc i st (w w' : World)
    flow :
  on_samples_iteration self all next max_inc i st w = (Ok flow, w') ->
  exists evs,
    trace w' = trace w ++ evs /\
    turn_calls evs 2 match flow with Next _ => 1 | Break _ => 0 end.
Proof.
  intros Hit. apply on_samples_iteration_ok in Hit
    as (r & w1 & o' & Hloss & _ & _ & _ & Hflow & Hbreak & Hnext).
  apply total_loss_without_certificate_terms in Hloss
    as (evs & Hevs & Hcalls).
  simpl in Hevs.
  assert (turn_calls [EvZeroGrad] 0 0) as Hzero by by repeat constructor.
  assert (turn_calls [EvDeepcopy] 0 0) as Hcopy by by repeat constructor.
  assert (turn_calls [EvBackward; EvOptimizerStep] 0 1) as Hstep
    by by repeat constructor.
  assert (turn_calls [] 0 0) as Hnil by by repeat constructor.
  pose proof (turn_calls_app _ _ _ _ _ _ Hzero Hcalls) as H1.
  destruct (samples_break self max_inc st (theta w)).
  - destruct (Hbreak eq_refl) as [_ ->]. rewrite Hflow.
    destruct (lt_ext _ _); simpl; rewrite Hevs, <- !app_assoc.
    + eexists. split; [done|].
      apply (turn_calls_app _ _ _ _ _ _ H1 Hcopy).
    + eexists. split; [done|].
      rewrite <- (app_nil_r evs).
      apply (turn_calls_app _ _ _ _ _ _ H1 Hnil).
  - apply backward_and_step_trace in Hnext; [|done]. rewrite Hflow, Hnext.
    destruct (lt_ext _ _); simpl; rewrite Hevs, <- !app_assoc.
    + eexists. split; [done|].
      apply (turn_calls_app _ _ _ _ _ _ H1
               (turn_calls_app _ _ _ _ _ _ Hcopy Hstep)).
    + eexists. split; [done|].
      apply (turn_calls_app _ _ _ _ _ _ H1 Hstep).
Qed.

Lemma samples_reaches_calls self all max_inc (w0 : World) :
  forall k next st w,
    samples_reaches self all max_inc w0 k next st w ->
    exists evs, trace w = trace w0 ++ evs /\ turn_calls evs (2 * k) k.
Proof.
  induction k as [|k IH]; intros next st w Hreach.
  - destruct Hreach as (st0 & w00 & Hsetup & [= <- <-]).
    revert Hsetup. unfold on_samples_setup.
    unfold bind at 1, deref at 1.
    destruct (tensors w0 !! all) as [t|] eqn:Hall; [|done].
    unfold bind at 1, assert.
    destruct (shape1 t =? x_dim); [|done].
    simpl. unfold bind at 1.
    destruct (stack_step_forward all w0) as [[n|x] w1] eqn:Hstack; [|done].
    apply stack_step_forward_ok in Hstack as (t' & nt & _ & _ & _ & ->).
    unfold ret. intros [= _ _ <-]. simpl.
    eexists. split; [done|].
    pose proof (step_forward_events_of_total_loss (rows t')) as Hall'.
    split; [|split].
    + clear. induction (rows t') as [|x l IH]; simpl; by constructor.
    + clear. unfold solver_calls. induction (rows t') as [|x l IH]; by simpl.
    + by apply total_loss_events_quiet in Hall' as [-> _].
  - apply samples_reaches_S_inv in Hreach as (st1 & w1 & Hreach & Hit).
    destruct (IH _ _ _ Hreach) as (evs & Hevs & Hcalls).
    apply on_samples_iteration_calls in Hit as (evs' & Hevs' & Hcalls').
    exists (evs ++ evs'). rewrite Hevs', Hevs, <- app_assoc.
    split; [done|].
    replace (2 * S k) with (2 * k + 2) by lia.
    replace (S k) with (k + 1) by lia.
    by apply turn_calls_app.
Qed.

(** X10. The certificates in [train_lyapunov_on_samples].  Every turn of the
    loop solves both MILPs, so a run that returns has made two solver calls
    per turn that was started; but no solution is ever read back for a loss
    term, since both certificate weights are overridden by zero.  The
    optimizer steps once per turn, except in the turn that breaks. *)
Theorem certificates_are_solved_but_not_trained_on self (all : ref)
    (max_iterations max_inc : nat) (w0 w' : World) flow :
  train_lyapunov_on_samples self all max_iterations max_inc w0 =
    (Ok flow, w') ->
  exists evs,
    trace w' = trace w0 ++ evs /\
    Forall reads_no_objective evs /\
    solver_calls evs = 2 * (samples_iter_count (flow_state flow) + 1) /\
    optimizer_steps evs =
      match flow with
      | Next _ => max_iterations
      | Break st => samples_iter_count st
      end.
Proof.
  intros Hrun. apply train_lyapunov_on_samples_ok in Hrun
    as (next & st0 & w00 & w1 & best & Hsetup & Hloop & Hbest & ->).
  assert (turn_calls [EvLoadStateDict] 0 0) as Hload
    by by repeat constructor.
  destruct (on_samples_loop_result _ _ _ _ _ _ _ Hsetup _ _ _ Hloop)
    as [(st & -> & Hreach)|(k & st & w & st' & -> & Hk & Hreach & Hit)].
  - simpl in *.
    destruct max_iterations as [|n].
    { apply samples_reaches_0 in Hreach as (_ & Hnone & _). congruence. }
    destruct (counter_bounded_reaches _ _ _ _ _ _ _ _ Hreach) as [_ Hcount].
    rewrite Hcount by lia.
    apply samples_reaches_calls in Hreach as (evs & Hevs & Hcalls).
    destruct (turn_calls_app _ _ _ _ _ _ Hcalls Hload) as (H1 & H2 & H3).
    exists (evs ++ [EvLoadStateDict]). rewrite Hevs, <- app_assoc.
    split; [done|]. split; [done|]. split; lia.
  - apply samples_reaches_calls in Hreach as (evs & Hevs & Hcalls).
    pose proof Hit as Hit'.
    apply on_samples_iteration_calls in Hit as (evs' & Hevs' & Hcalls').
    apply on_samples_iteration_ok in Hit'
      as (r & w2 & o' & _ & _ & _ & Hst & _).
    simpl in *. subst st'. unfold samples_update. simpl.
    destruct (turn_calls_app _ _ _ _ _ _
                (turn_calls_app _ _ _ _ _ _ Hcalls Hcalls') Hload)
      as (H1 & H2 & H3).
    exists ((evs ++ evs') ++ [EvLoadStateDict]).
    rewrite Hevs', Hevs, <- !app_assoc. rewrite <- !app_assoc in H1, H2, H3.
    split; [done|]. split; [done|]. split; lia.
Qed.

(** ** How [train_with_line_search] ends *)

Section LineSearchProperties.

Variable LineSearchState : Type.
Variable LineSearchGD : Q -> Q -> Q -> Q -> Q -> Q -> LineSearchState.
Variable LineSearchAdam : Q -> Q -> Q -> Q -> Q -> LineSearchState.
Variable line_search_step :
  LineSearchState -> (LineSearchFrame -> M (LossTensor * LineSearchFrame)) ->
  option Q -> LineSearchFrame ->
  M (LossTensor * LineSearchFrame * LineSearchState).

(** Lines 360-369: the assertions and the three pools. *)
Definition line_search_pools (all : ref) : M (ref * ref * ref) :=
  t <- deref all ;;
  do assert (shape1 t =? x_dim) ;;
  positivity_state_samples <- clone all ;;
  derivative_state_samples <- clone all ;;
  derivative_state_samples_next <-
    stack_step_forward derivative_state_samples ;;
  ret (positivity_state_samples, derivative_state_samples,
       derivative_state_samples_next).

(** Lines 360-392: up to and including [loss = closure()]. *)
Definition line_search_entry (self : TrainLyapunovReLU) (all : ref)
  : M (ref * ref * ref * (LossTensor * LineSearchFrame)) :=
  pools <- line_search_pools all ;;
  first <-
    closure self pools.1.1 pools.1.2 pools.2
      {| ls_iter_count := 0;
         ls_positivity_mip_costs := replicate (max_iterations self) None;
         ls_derivative_mip_costs := replicate (max_iterations self) None |} ;;
  ret (pools, first).

(** Lines 393-439: what follows the first evaluation. *)
Definition line_search_rest (self : TrainLyapunovReLU)
    (pools : ref * ref * ref) (first : LossTensor * LineSearchFrame)
  : M bool :=
  do loss_backward self first.1.2 ;;
  losses <-
    lift (list_set (replicate (max_iterations self) None) 0
            (Some first.1.1)) ;;
  optimizer <-
    make_line_search_optimizer LineSearchState LineSearchGD LineSearchAdam
      self ;;
  line_search_loop LineSearchState line_search_step self pools.1.1 pools.1.2
    pools.2 (max_iterations self - 1)
    {| ls_frame := {|
         ls_iter_count := 1;
         ls_positivity_mip_costs := ls_positivity_mip_costs first.2;
         ls_derivative_mip_costs := ls_derivative_mip_costs first.2
       |};
       ls_losses := losses;
       ls_optimizer := optimizer |}.

Lemma train_with_line_search_unfold self all (w : World) :
  train_with_line_search LineSearchState LineSearchGD LineSearchAdam
    line_search_step self all w =
  match line_search_entry self all w with
  | (Ok (pools, first), w1) => line_search_rest self pools first w1
  | (Raise x, w1) => (Raise x, w1)
  end.
Proof.
  unfold train_with_line_search, line_search_entry, line_search_pools,
    line_search_rest.
  unfold bind, ret.
  repeat match goal with
         | |- context [match ?c with _ => _ end] =>
             lazymatch c with
             | context [match _ with _ => _ end] => fail
             | _ => destruct c as [[?|?] ?]; cbn [fst snd]; try done
             end
         end.
Qed.

(** The first evaluation writes entry 0 of the two cost lists, which are
    [max_iterations] long. *)
Lemma line_search_entry_ok self all (w0 w1 : World) pools first :
  line_search_entry self all w0 = (Ok (pools, first), w1) ->
  0 < max_iterations self.
Proof.
  unfold line_search_entry. intros Hentry.
  apply bind_inv in Hentry as (pools' & w2 & _ & Hentry).
  apply bind_inv in Hentry as (first' & w3 & Hclosure & _).
  unfold closure in Hclosure.
  apply bind_inv in Hclosure as (_ & w4 & _ & Hclosure).
  apply bind_inv in Hclosure as (r & w5 & _ & Hclosure).
  apply bind_inv in Hclosure as (pcs & w6 & Hset & _).
  unfold lift in Hset. injection Hset as Hset _.
  apply list_set_ok in Hset as [Hlen _].
  by rewrite length_replicate in Hlen.
Qed.

Lemma list_set_first (n : nat) (v : Q) :
  0 < n ->
  list_set (replicate n (@None Q)) 0 (Some v) =
  Ok (<[0 := Some v]> (replicate n None)).
Proof.
  intros Hn. unfold list_set. rewrite length_replicate.
  by destruct n; [lia|].
Qed.

(** X11. [__init__] does not assign [min_improvement], which lines 405 and 412
    read.  Unless the caller has set it, [train_with_line_search] with one
    of its two optimizers never returns: once the first evaluation of the
    loss is done and differentiated, building the optimizer raises
    [AttributeError].  (When the loss is the Python float,
    [loss.backward()] has raised the same exception before.) *)
Theorem line_search_needs_min_improvement self (all : ref) (w0 : World) :
  min_improvement self = None ->
  optimizer self = "GD"%string \/ optimizer self = "LineSearchAdam"%string ->
  let out :=
    train_with_line_search LineSearchState LineSearchGD LineSearchAdam
      line_search_step self all w0 in
  (forall b, out.1 <> Ok b) /\
  (forall pools first w1,
     line_search_entry self all w0 = (Ok (pools, first), w1) ->
     out = (Raise AttributeError, (loss_backward self first.1.2 w1).2)).
Proof.
  intros Hmin Hname. cbv zeta. rewrite train_with_line_search_unfold.
  assert (forall w, make_line_search_optimizer LineSearchState LineSearchGD
                      LineSearchAdam self w = (Raise AttributeError, w))
    as Hmake.
  { intros w. unfold make_line_search_optimizer. rewrite Hmin.
    destruct Hname as [-> | ->]; reflexivity. }
  destruct (line_search_entry self all w0) as [[[pools first]|x] w1]
    eqn:Hentry; [|by split].
  pose proof (line_search_entry_ok _ _ _ _ _ _ Hentry) as Hpos.
  assert (line_search_rest self pools first w1 =
          (Raise AttributeError, (loss_backward self first.1.2 w1).2))
    as ->.
  { unfold line_search_rest. unfold bind at 1, loss_backward.
    destruct (in_loss_is_tensor first.1.2); [|done]. simpl.
    unfold bind at 1, lift at 1. rewrite list_set_first by done.
    unfold bind at 1. by rewrite Hmake. }
  split; [done|]. by intros pools' first' w1' [= <- <- <-].
Qed.

(** X12. With an optimizer name other than "GD" and "LineSearchAdam", and
    [__init__] sets "Adam", no optimizer is built.  Once the first
    evaluation of the loss is done and the loss, a tensor, is
    differentiated, the function returns [False] when [max_iterations] is 1,
    and otherwise raises [NameError] (an [UnboundLocalError]) at the first
    [optimizer.step].  When the loss is the Python float, [loss.backward()]
    has raised [AttributeError] before. *)
Theorem line_search_optimizer_is_unbound self (all : ref) (w0 w1 : World)
    pools first :
  optimizer self <> "GD"%string ->
  optimizer self <> "LineSearchAdam"%string ->
  line_search_entry self all w0 = (Ok (pools, first), w1) ->
  train_with_line_search LineSearchState LineSearchGD LineSearchAdam
    line_search_step self all w0 =
  (if in_loss_is_tensor first.1.2
   then if max_iterations self =? 1 then Ok false else Raise NameError
   else Raise AttributeError,
   (loss_backward self first.1.2 w1).2).
Proof.
  intros Hgd%String.eqb_neq Hadam%String.eqb_neq Hentry.
  pose proof (line_search_entry_ok _ _ _ _ _ _ Hentry) as Hpos.
  rewrite train_with_line_search_unfold, Hentry.
  unfold line_search_rest. unfold bind at 1, loss_backward.
  destruct (in_loss_is_tensor first.1.2); [|done]. simpl.
  unfold bind at 1, lift at 1. rewrite list_set_first by done.
  unfold bind at 1, make_line_search_optimizer. rewrite Hgd, Hadam.
  unfold ret at 1. cbv iota beta.
  destruct (max_iterations self) as [|[|n]]; [lia|done|].
  by replace (S (S n) - 1) with (S n) by lia.
Qed.

(** X13. The convergence test is not applied to the first evaluation of the
    loss: with [max_iterations = 1] and an optimizer that can be built, the
    function evaluates the loss once and differentiates it, takes no step
    and returns [False], whatever the two certificates are.  When the loss
    is the Python float, [loss.backward()] raises [AttributeError]
    instead. *)
Theorem line_search_skips_the_test_at_the_first_evaluation self (all : ref)
    (w0 w1 : World) pools first :
  max_iterations self = 1 ->
  is_Some (min_improvement self) ->
  line_search_entry self all w0 = (Ok (pools, first), w1) ->
  train_with_line_search LineSearchState LineSearchGD LineSearchAdam
    line_search_step self all w0 =
  (if in_loss_is_tensor first.1.2 then Ok false else Raise AttributeError,
   (loss_backward self first.1.2 w1).2).
Proof.
  intros Hmax [mi Hmin] Hentry.
  rewrite train_with_line_search_unfold, Hentry.
  unfold line_search_rest. rewrite Hmax. unfold bind at 1, loss_backward.
  destruct (in_loss_is_tensor first.1.2); [|done]. simpl.
  unfold bind at 1, lift at 1. simpl.
  unfold bind at 1, make_line_search_optimizer. rewrite Hmin.
  destruct (String.eqb (optimizer self) "GD"); [done|].
  by destruct (String.eqb (optimizer self) "LineSearchAdam").
Qed.

(** X14. With [max_iterations = 0] the cost lists are empty: the first
    evaluation of the loss cannot be recorded, and the function never
    returns.  On samples it accepts it raises [IndexError], after both MILPs
    have been solved. *)
Theorem line_search_needs_an_iteration self (all : ref) (w0 : World) :
  max_iterations self = 0 ->
  let out :=
    train_with_line_search LineSearchState LineSearchGD LineSearchAdam
      line_search_step self all w0 in
  (forall b, out.1 <> Ok b) /\
  (forall pools w1 r w2,
     line_search_pools all w0 = (Ok pools, w1) ->
     total_loss self pools.1.1 pools.1.2 pools.2 None None None None
       (after_zero_grad w1) = (Ok r, w2) ->
     out = (Raise IndexError, w2)).
Proof.
  intros Hmax. cbv zeta. rewrite train_with_line_search_unfold.
  destruct (line_search_entry self all w0) as [[[pools first]|x] w1]
    eqn:Hentry.
  { apply line_search_entry_ok in Hentry. lia. }
  split; [done|].
  intros pools w2 r w3 Hpools Hloss. revert Hentry.
  unfold line_search_entry. unfold bind at 1. rewrite Hpools.
  unfold bind at 1, closure. unfold bind at 1.
  change (optimizer_zero_grad w2) with (Ok tt, after_zero_grad w2).
  cbv iota beta. unfold bind at 1. rewrite Hloss.
  unfold bind at 1, lift at 1. rewrite Hmax. simpl.
  by intros [= <- <-].
Qed.

End LineSearchProperties.

(** ** [TrainValueApproximator] *)

Section ApproximatorProperties.

Import ValueApproximator.

Variable value_backward :
  Params -> Tensor2 -> list Q -> Q -> State -> Grads -> Grads.
Variable CostToGoArguments : Type.
Variable generate_cost_to_go_samples :
  list State -> CostToGoArguments -> M (list (State * Q)).

(** The loss of the network with parameters [th]. *)
Definition value_loss (th : Params) (state_samples_all : Tensor2)
    (value_samples_all : list Q) (V_lambda : Q) (x_equilibrium : State)
  : Result Q :=
  match value_relu th state_samples_all V_lambda x_equilibrium with
  | Ok value => Ok (MSELoss value value_samples_all)
  | Raise x => Raise x
  end.

Lemma fold_left_Qplus_nonneg (l : list Q) :
  Forall (fun q => 0 <= q)%Q l ->
  forall acc, (0 <= acc)%Q -> (0 <= fold_left Qplus l acc)%Q.
Proof.
  induction 1 as [|q l Hq _ IH]; intros acc Hacc; simpl; [done|].
  apply IH. replace 0%Q with (0 + 0)%Q by done. by apply Qplus_le_compat.
Qed.

Lemma MSELoss_nonneg (input target : list Q) : (0 <= MSELoss input target)%Q.
Proof.
  unfold MSELoss, Qdiv. apply Qmult_le_0_compat.
  - apply fold_left_Qplus_nonneg; [|done].
    revert target. induction input as [|a input IH]; intros [|b target];
      simpl; constructor; [|apply IH].
    generalize (a - b)%Q. intros x. unfold Qle. simpl.
    rewrite Z.mul_1_r. apply Z.square_nonneg.
  - apply Qinv_le_0_compat.
    change 0%Q with (inject_Z 0). rewrite <- Zle_Qle. lia.
Qed.

Lemma cost_to_go_epoch_continue self t values V_lambda x_eq st st'
    (w w' : World) :
  cost_to_go_epoch value_backward self t values V_lambda x_eq st w =
    (Ok (Continue st'), w') ->
  exists l g,
    value_loss (theta w) t values V_lambda x_eq = Ok l /\
    Qle_bool l (convergence_tolerance self) = false /\
    epoch_loss st' = Some l /\
    theta w' = (optimizer_step (epoch_optimizer st) (theta w) g).1 /\
    optimizer_steps (trace w') = optimizer_steps (trace w) + 1.
Proof.
  unfold cost_to_go_epoch, value_loss, bind, optimizer_zero_grad, get_theta,
    emit, lift, ret, call_value_backward, call_optimizer_step. simpl.
  destruct (value_relu (theta w) t V_lambda x_eq) as [value|x]; [|done].
  destruct (Qle_bool _ _) eqn:Hle; [done|].
  destruct (optimizer_step _ _ _) as [th' o'] eqn:Hstep.
  intros [= <- <-]. simpl in Hstep. eexists _, _.
  split; [done|]. split; [done|]. split; [done|].
  split; [simpl; by rewrite Hstep|]. simpl.
  rewrite !optimizer_steps_app. unfold optimizer_steps. simpl. lia.
Qed.

Lemma cost_to_go_epoch_return self t values V_lambda x_eq st (w w' : World)
    b l :
  cost_to_go_epoch value_backward self t values V_lambda x_eq st w =
    (Ok (Return (b, l)), w') ->
  b = true /\
  value_loss (theta w) t values V_lambda x_eq = Ok l /\
  Qle_bool l (convergence_tolerance self) = true /\
  theta w' = theta w /\
  optimizer_steps (trace w') = optimizer_steps (trace w).
Proof.
  unfold cost_to_go_epoch, value_loss, bind, optimizer_zero_grad, get_theta,
    emit, lift, ret, call_value_backward, call_optimizer_step. simpl.
  destruct (value_relu (theta w) t V_lambda x_eq) as [value|x]; [|done].
  destruct (Qle_bool _ _) eqn:Hle.
  - intros [= <- <- <-]. simpl. repeat split; try done.
    rewrite !optimizer_steps_app. unfold optimizer_steps. simpl. lia.
  - by destruct (optimizer_step _ _ _).
Qed.

(** What is known after [k] epochs that went on: [k] optimizer steps have
    been taken, and [loss] holds the loss of the network as it was before
    the last of them, which is above the tolerance. *)
Definition epochs_done (self : TrainValueApproximator) (t : Tensor2)
    (values : list Q) (V_lambda : Q) (x_eq : State) (steps0 k : nat)
    (st : EpochState) (w : World) : Prop :=
  optimizer_steps (trace w) = steps0 + k /\
  match k with
  | 0 => epoch_loss st = None
  | S _ =>
      exists l th o g,
        epoch_loss st = Some l /\
        Qle_bool l (convergence_tolerance self) = false /\
        value_loss th t values V_lambda x_eq = Ok l /\
        theta w = (optimizer_step o th g).1
  end.

(** What [(converged, loss)] says about the network left behind, after [k]
    optimizer steps. *)
Definition cost_to_go_outcome (self : TrainValueApproximator) (t : Tensor2)
    (values : list Q) (V_lambda : Q) (x_eq : State) (k : nat) (b : bool)
    (l : Q) (w' : World) : Prop :=
  if b then
    k < max_epochs self /\
    (l <= convergence_tolerance self)%Q /\
    value_loss (theta w') t values V_lambda x_eq = Ok l
  else
    k = max_epochs self /\ 0 < k /\
    ~ (l <= convergence_tolerance self)%Q /\
    exists th o g,
      value_loss th t values V_lambda x_eq = Ok l /\
      theta w' = (optimizer_step o th g).1.

Lemma cost_to_go_loop_result self t values V_lambda x_eq steps0 :
  forall n k st (w : World) b l (w' : World),
    epochs_done self t values V_lambda x_eq steps0 k st w ->
    k + n = max_epochs self ->
    cost_to_go_loop value_backward self t values V_lambda x_eq n st w =
      (Ok (b, l), w') ->
    exists k',
      optimizer_steps (trace w') = steps0 + k' /\
      cost_to_go_outcome self t values V_lambda x_eq k' b l w'.
Proof.
  induction n as [|n IH]; intros k st w b l w' [Hsteps Hloss] Hk; simpl.
  - destruct k as [|k].
    + by rewrite Hloss.
    + destruct Hloss as (l0 & th & o & g & -> & Hle & Hval & Hth).
      unfold ret. intros [= <- <- <-]. exists (S k). split; [done|].
      split; [lia|]. split; [lia|]. split; [|by exists th, o, g].
      intros Hq%Qle_bool_iff. congruence.
  - intros Hrun. apply bind_inv in Hrun as ([st1|[b1 l1]] & w1 & Hep & Hrest).
    + apply cost_to_go_epoch_continue in Hep
        as (l0 & g & Hval & Hle & Hl & Hth & Hst).
      eapply (IH (S k)); [|lia|exact Hrest].
      split; [lia|]. by exists l0, (theta w), (epoch_optimizer st), g.
    + unfold ret in Hrest. injection Hrest as -> -> <-.
      apply cost_to_go_epoch_return in Hep as (-> & Hval & Hle & Hth & Hst).
      exists k. split; [lia|]. split; [lia|].
      split; [by apply Qle_bool_iff|]. by rewrite Hth.
Qed.

(** X15. What [train_with_cost_to_go] returns, for every
    run that returns. The loss is a mean of squares and is not negative.
    [(True, loss)] comes before all epochs are used: [loss] is within the
    tolerance and is the loss of the network that is left behind. [(False,
    loss)] comes after [max_epochs] optimizer steps, at
    least one: [loss] is above the tolerance, and it is the loss of the
    network as it was before the last optimizer step, not of the network
    that is left behind. *)
Theorem cost_to_go_result self (x0_value_samples : list (State * Q))
    (V_lambda : Q) (x_eq : State) (w0 w' : World) (b : bool) (l : Q) :
  train_with_cost_to_go value_backward self x0_value_samples V_lambda x_eq w0 =
    (Ok (b, l), w') ->
  exists t k,
    torch_stack (map fst x0_value_samples) = Ok t /\
    optimizer_steps (trace w') = optimizer_steps (trace w0) + k /\
    (0 <= l)%Q /\
    cost_to_go_outcome self t (map snd x0_value_samples) V_lambda x_eq k b l
      w'.
Proof.
  unfold train_with_cost_to_go. intros Hrun.
  apply bind_inv in Hrun as (t & w1 & Hstack & Hrun).
  apply bind_inv in Hrun as (values & w2 & Hvalues & Hrun).
  unfold lift in Hstack, Hvalues.
  injection Hstack as Hstack <-. injection Hvalues as Hvalues <-.
  assert (values = map snd x0_value_samples) as ->.
  { unfold stack_scalars in Hvalues.
    destruct (map snd x0_value_samples); [done|]. by injection Hvalues. }
  eapply (cost_to_go_loop_result _ _ _ _ _ _ _ 0) in Hrun
    as (k & Hsteps & Hout); [| |simpl; lia].
  - exists t, k. split; [done|]. split; [done|]. split; [|done].
    unfold cost_to_go_outcome in Hout. destruct b.
    + destruct Hout as (_ & _ & Hval). unfold value_loss in Hval.
      destruct (value_relu _ _ _ _); [|done]. injection Hval as <-.
      apply MSELoss_nonneg.
    + destruct Hout as (_ & _ & _ & th & o & g & Hval & _).
      unfold value_loss in Hval.
      destruct (value_relu _ _ _ _); [|done]. injection Hval as <-.
      apply MSELoss_nonneg.
  - split; [simpl; lia|done].
Qed.

(** X16. With [max_epochs = 0] the loop takes no turn, [loss] is never
    bound, and the last line raises [NameError] (an [UnboundLocalError]) on
    any list of samples that can be stacked. *)
Theorem no_epoch_leaves_loss_unbound self
    (x0_value_samples : list (State * Q)) (V_lambda : Q) (x_eq : State)
    (w0 : World) (t : Tensor2) :
  max_epochs self = 0 ->
  torch_stack (map fst x0_value_samples) = Ok t ->
  train_with_cost_to_go value_backward self x0_value_samples V_lambda x_eq w0 =
  (Raise NameError, w0).
Proof.
  intros Hmax Hstack. unfold train_with_cost_to_go.
  unfold bind at 1, lift at 1. rewrite Hstack.
  destruct x0_value_samples as [|pair rest]; [done|].
  unfold bind at 1, lift at 1. simpl. by rewrite Hmax.
Qed.

(** X17. [train] checks the size of [x_equilibrium] before it generates any
    sample.  When the generator returns no sample, for instance because the
    pruner rejects every state, [torch.stack] refuses the empty list: the
    training raises [RuntimeError] and the network has not been used. *)
Theorem training_needs_a_sample self (V_lambda : Q) (x_eq : State)
    (x0_samples : ref) (arguments : CostToGoArguments) (w0 : World) :
  let out :=
    ValueApproximator.train value_backward CostToGoArguments
      generate_cost_to_go_samples self V_lambda x_eq x0_samples arguments
      w0 in
  (length x_eq <> x_dim -> out = (Raise AssertionError, w0)) /\
  (forall x0 w1,
     length x_eq = x_dim ->
     tensors w0 !! x0_samples = Some x0 ->
     generate_cost_to_go_samples (rows x0) arguments w0 = (Ok [], w1) ->
     out = (Raise RuntimeError, w1)).
Proof.
  cbv zeta. unfold ValueApproximator.train. split.
  - intros Hne%Nat.eqb_neq. unfold bind at 1, assert. by rewrite Hne.
  - intros x0 w1 Heq%Nat.eqb_eq Hx0 Hgen.
    unfold bind at 1, assert. rewrite Heq. simpl.
    unfold bind at 1, deref. rewrite Hx0.
    unfold bind at 1. by rewrite Hgen.
Qed.

End ApproximatorProperties.

(** ** The exceptions of [train] *)

Lemma total_loss_raises_with_flag self p d n a b c e (w w' : World) x :
  total_loss self p d n a b c e w = (Raise x, w') ->
  x = AssertionError \/
  (add_adversarial_state_to_training self = true /\
   (x = IndexError \/ x = RuntimeError)).
Proof.
  intros Hrun.
  destruct (add_adversarial_state_to_training self) eqn:Hflag.
  - apply total_loss_raises in Hrun as [-> | [-> | ->]]; auto.
  - left. revert Hrun. rewrite total_loss_unfold.
    destruct (tensors w !! p) as [pt|]; [|by intros [= <- _]].
    destruct (tensors w !! d) as [dt|]; [|by intros [= <- _]].
    destruct (tensors w !! n) as [nt|]; [|by intros [= <- _]].
    destruct (entry_checks pt dt nt); [|by intros [= <- _]].
    unfold returned_pools. by rewrite Hflag.
Qed.

Lemma train_setup_raises self (all : ref) (w w' : World) x :
  train_setup self all w = (Raise x, w') ->
  x = AssertionError \/ x = RuntimeError \/ x = UnknownOptimizer.
Proof.
  unfold train_setup.
  unfold bind at 1, deref at 1.
  destruct (tensors w !! all) as [t|] eqn:Hall; [|intros [= <- _]; by left].
  unfold bind at 1, assert.
  destruct (shape1 t =? x_dim); [|intros [= <- _]; by left].
  simpl. unfold bind at 1, clone at 1, bind at 1, deref at 1. rewrite Hall.
  unfold alloc at 1.
  unfold bind at 1, clone at 1, bind at 1, deref at 1. simpl.
  rewrite (lookup_app_l_Some _ _ _ _ Hall).
  unfold alloc at 1.
  unfold bind at 1, stack_step_forward at 1, bind at 1, deref at 1. simpl.
  rewrite lookup_app_r, Nat.sub_diag by done.
  simpl. unfold bind at 1. rewrite map_m_step_forward_run.
  unfold bind at 1, lift at 1.
  destruct (torch_stack _) as [nt|y] eqn:Hstack.
  - unfold alloc at 1. unfold bind at 1, make_optimizer.
    destruct (String.eqb (optimizer self) "Adam"); [done|].
    destruct (String.eqb (optimizer self) "SGD"); [done|].
    intros [= <- _]. by right; right.
  - apply torch_stack_raises in Hstack as ->. intros [= <- _]. by right; left.
Qed.

(** [train] enters its loop with samples that hold a row: [torch.stack]
    refuses an empty list of next states. *)
Lemma train_setup_samples self (all : ref) (w w' : World) st t :
  train_setup self all w = (Ok st, w') ->
  tensors w !! all = Some t ->
  0 < shape0 t.
Proof.
  intros Hrun Hall. revert Hrun. unfold train_setup.
  unfold bind at 1, deref at 1. rewrite Hall.
  unfold bind at 1, assert.
  destruct (shape1 t =? x_dim); [|done].
  simpl. unfold bind at 1, clone at 1, bind at 1, deref at 1. rewrite Hall.
  unfold alloc at 1.
  unfold bind at 1, clone at 1, bind at 1, deref at 1. simpl.
  rewrite (lookup_app_l_Some _ _ _ _ Hall).
  unfold alloc at 1.
  unfold bind at 1, stack_step_forward at 1, bind at 1, deref at 1. simpl.
  rewrite lookup_app_r, Nat.sub_diag by done.
  simpl. unfold bind at 1. rewrite map_m_step_forward_run.
  unfold bind at 1, lift at 1. unfold shape0.
  destruct (rows t); [done|]. intros _. simpl. lia.
Qed.

(** The positivity pool and the derivative pool hold a row. *)
Definition pools_nonempty (w : World) (st : TrainState) : Prop :=
  exists pt dt,
    tensors w !! train_positivity_state_samples st = Some pt /\
    tensors w !! train_derivative_state_samples st = Some dt /\
    0 < shape0 pt /\ 0 < shape0 dt.

(** None of the four terms of the loss is evaluated on pools that hold a
    row, for the network [th]: both sample weights are zero, and each
    certificate term has a zero weight, no rank to read or no solution. *)
Definition loss_is_float_at (self : TrainLyapunovReLU) (th : Params) : Prop :=
  Qnonzero (lyapunov_positivity_sample_cost_weight self) = false /\
  Qnonzero (lyapunov_derivative_sample_cost_weight self) = false /\
  mip_term_is_tensor (lyapunov_positivity_mip_cost_weight self)
    (lyapunov_positivity_mip_pool_solutions self)
    (solved Positivity self th) = false /\
  mip_term_is_tensor (lyapunov_derivative_mip_cost_weight self)
    (lyapunov_derivative_mip_pool_solutions self)
    (solved Derivative self th) = false.

(** What the loop of [train] relies on: the three histories are
    [max_iterations] long, under [ALTERNATE] the mode of the turn before is
    bound from the second turn on, and the pools hold a row. *)
Definition train_loop_safe (self : TrainLyapunovReLU) (st : TrainState)
    (w : World) : Prop :=
  histories_filled self st /\
  (0 < iter_count st -> project_gradient_method self <> NONE ->
   is_Some (project_gradient_mode st)) /\
  pools_nonempty w st.

Lemma train_loop_safe_step self st st' (w w' : World) :
  train_loop_safe self st w ->
  train_iteration self st w = (Ok (Continue st'), w') ->
  train_loop_safe self st' w'.
Proof.
  intros (Hfilled & _ & pt & dt & Hp & Hd & Hlp & Hld) Hit.
  split; [by eapply histories_filled_step|].
  apply train_iteration_continue in Hit
    as (r & w1 & Hloss & _ & _ & _ & _ & _ & _ & Hrp & Hrd & _ & _ & _ & _ &
        Hts & _ & Hsome).
  split; [by intros _|].
  apply total_loss_pools in Hloss
    as (pt' & dt' & nt' & xp & xd & xn & Hp' & Hd' & _ & _ & Hp1 & Hd1 & _).
  simpl in Hp', Hd'.
  assert (pt' = pt) as -> by congruence.
  assert (dt' = dt) as -> by congruence.
  unfold pools_nonempty. rewrite Hrp, Hrd, Hts.
  eexists _, _. split; [exact Hp1|]. split; [exact Hd1|].
  unfold shape0 in *. simpl. rewrite !length_app. lia.
Qed.

Lemma train_iteration_raises self st (w w' : World) x :
  train_loop_safe self st w ->
  iter_count st < max_iterations self ->
  train_iteration self st w = (Raise x, w') ->
  x = AssertionError \/
  (add_adversarial_state_to_training self = true /\
   (x = IndexError \/ x = RuntimeError)) \/
  (x = AttributeError /\ loss_is_float_at self (theta w)).
Proof.
  intros ((Hl & Hp & Hd & _) & Hmode & pt & dt & Hpt & Hdt & Hlp & Hld) Hcount.
  unfold train_iteration.
  unfold bind at 1.
  change (optimizer_zero_grad w) with (Ok tt, after_zero_grad w).
  cbv iota beta.
  unfold bind at 1.
  destruct (total_loss _ _ _ _ _ _ _ _ _) as [[r|y] w1] eqn:Hloss.
  2: { intros [= <- _].
       apply total_loss_raises_with_flag in Hloss. tauto. }
  unfold list_set. rewrite Hl, Hp, Hd.
  apply Nat.ltb_lt in Hcount. rewrite Hcount.
  unfold bind at 1, lift at 1. unfold bind at 1, lift at 1.
  unfold bind at 1, lift at 1, loss_item.
  destruct (in_loss_is_tensor (loss_graph r)) eqn:Htensor.
  2: { intros [= <- _]. right; right. split; [done|].
       apply total_loss_ok in Hloss
         as (pt' & dt' & nt' & pools & Hp' & Hd' & _ & _ & _ & ->).
       simpl in Hp', Hd', Htensor.
       assert (pt' = pt) as -> by congruence.
       assert (dt' = dt) as -> by congruence.
       unfold loss_is_tensor, sample_term_is_tensor in Htensor.
       apply Nat.ltb_lt in Hlp, Hld. rewrite Hlp, Hld, !andb_true_r in Htensor.
       apply orb_false_iff in Htensor as [Htensor H4].
       apply orb_false_iff in Htensor as [Htensor H3].
       apply orb_false_iff in Htensor as [H1 H2].
       by repeat split. }
  unfold bind at 1, lift at 1.
  destruct (converged self _ _); [done|].
  unfold bind at 1, next_project_gradient_mode.
  destruct (project_gradient_method self) eqn:Hmethod.
  - unfold ret at 1. unfold bind at 1, loss_backward at 1. rewrite Htensor.
    unfold bind at 1, call_optimizer_step.
    by destruct (optimizer_step _ _ _).
  - unfold ret at 1. unfold bind at 1, call_project_gradient at 1.
    unfold bind at 1, call_optimizer_step.
    by destruct (optimizer_step _ _ _).
  - destruct (iter_count st =? 0) eqn:Hzero.
    + unfold ret at 1. unfold bind at 1, call_project_gradient at 1.
      unfold bind at 1, call_optimizer_step.
      by destruct (optimizer_step _ _ _).
    + apply Nat.eqb_neq in Hzero.
      destruct (Hmode ltac:(lia) ltac:(done)) as [m ->].
      unfold ret at 1. unfold bind at 1, call_project_gradient at 1.
      unfold bind at 1, call_optimizer_step.
      by destruct (optimizer_step _ _ _).
  - unfold ret at 1. unfold bind at 1, call_project_gradient at 1.
    unfold bind at 1, call_optimizer_step.
    by destruct (optimizer_step _ _ _).
Qed.

Lemma train_loop_raises self :
  forall n st (w w' : World) x,
    train_loop_safe self st w ->
    iter_count st + n = max_iterations self ->
    train_loop self n st w = (Raise x, w') ->
    x = AssertionError \/
    (add_adversarial_state_to_training self = true /\
     (x = IndexError \/ x = RuntimeError)) \/
    (x = AttributeError /\ exists th, loss_is_float_at self th).
Proof.
  induction n as [|n IH]; intros st w w' x Hsafe Hn; simpl; [done|].
  unfold bind.
  destruct (train_iteration self st w) as [[[st1|res]|y] w1] eqn:Hit.
  - apply IH; [by eapply train_loop_safe_step|].
    apply train_iteration_continue in Hit
      as (r & w2 & _ & _ & _ & _ & _ & _ & Hcount & _).
    lia.
  - done.
  - intros [= <- _].
    eapply train_iteration_raises in Hit as [-> | [Hflag | [-> Hfloat]]];
      [by left|by right; left|right; right; split; [done|by eexists]
      |done|lia].
Qed.

(** X18. The exceptions of [train], on samples that are a tensor with two
    axes or no tensor, and with collaborators that return.  It raises
    [AssertionError] on samples that are no tensor or have the wrong
    shape, [RuntimeError] when the next states cannot be stacked, and the
    exception of line 463 on an unknown optimizer name.  With
    [add_adversarial_state_to_training] set it may also raise [IndexError]
    or [RuntimeError] when an adversarial state is appended.  It raises
    [AttributeError], at [loss.item()], only when the loss is the Python
    float: both sample weights are zero and, for some network, each
    certificate term has a zero weight, no rank to read or no solution.  It raises nothing else: the writes to the three histories
    are always in range, and [project_gradient_mode] is always bound where
    it is read. *)
Theorem train_raises_only self (all : ref) (w0 w' : World) (x : Exn) :
  train self all w0 = (Raise x, w') ->
  x = AssertionError \/ x = RuntimeError \/ x = UnknownOptimizer \/
  (add_adversarial_state_to_training self = true /\ x = IndexError) \/
  (x = AttributeError /\ exists th, loss_is_float_at self th).
Proof.
  unfold train. unfold bind.
  destruct (train_setup self all w0) as [[st|y] w] eqn:Hsetup.
  - intros Hloop.
    pose proof Hsetup as Hok.
    apply train_setup_ok in Hok
      as (t & nt & opt & Hall & _ & Hts & _ & _ & ->).
    pose proof (train_setup_samples _ _ _ _ _ _ Hsetup Hall) as Hrows.
    apply train_loop_raises in Hloop
      as [-> | [[Hflag [-> | ->]] | [-> Hfloat]]]; auto 6.
    + split; [|split; [simpl; lia|]].
      * unfold histories_filled. simpl. rewrite !length_replicate.
        by repeat split.
      * exists t, t. simpl. rewrite Hts.
        split; [by rewrite lookup_app_r, Nat.sub_diag by lia|].
        split; [|done].
        rewrite lookup_app_r by lia.
        by replace (S (length (tensors w0)) - length (tensors w0)) with 1
          by lia.
    + simpl. lia.
  - intros [= <- _].
    apply train_setup_raises in Hsetup as [-> | [-> | ->]]; auto.
Qed.

End FurtherProperties.

(** * A test double and concrete runs *)

(** A system with a one-dimensional state that halves at each step.  The
    network parameters are the number of optimizer steps taken so far; the
    two certificate objectives are given functions of that number.  The
    sample losses add up the first components of the rows they are given,
    so that they depend on the window they see. *)
Definition first_components (samples : list State) : Q :=
  fold_left Qplus (map (fun x => hd 0%Q x) samples) 0%Q.

Definition stub_solved (objective : Q) : Solved := {|
  ObjVal := objective;
  solCount := 2;
  objective_from_solution := fun j => (objective + inject_Z (Z.of_nat j))%Q;
  x_sol := [objective];
  gamma_sol := [0%Q; 1%Q]
|}.

Definition stub_system (positivity_objective derivative_objective : nat -> Q)
  : LyapunovHybridSystem := {|
  Params := nat;
  Grads := unit;
  OptState := unit;
  x_dim := 1;
  step_forward := fun x _ => map (Qmult (1 # 2)) x;
  Milp := Q;
  lyapunov_positivity_as_milp := fun th _ _ _ => positivity_objective th;
  lyapunov_derivative_as_milp := fun th _ _ _ => derivative_objective th;
  optimize := fun objective _ => stub_solved objective;
  relu_forward := fun _ _ => 0%Q;
  lyapunov_positivity_loss_at_samples :=
    fun _ _ _ samples _ _ _ => first_components samples;
  lyapunov_derivative_loss_at_samples_and_next_states :=
    fun _ _ _ samples samples_next _ _ =>
      (first_components samples + first_components samples_next)%Q;
  zero_grad := fun g => g;
  backward := fun _ _ _ g => g;
  project_gradient := fun _ _ _ _ g => g;
  adam_init := fun _ => tt;
  sgd_init := fun _ _ => tt;
  optimizer_step := fun o th _ => (S th, o)
|}.

(** A world that holds the given tensors and an untrained network. *)
Definition stub_world (f g : nat -> Q) (ts : list Tensor2)
  : @World (stub_system f g) :=
  @mkWorld (stub_system f g) ts 0 tt [].

(** Two samples, [1] and [2]. *)
Definition two_samples : Tensor2 := mkTensor2 1 [[1%Q]; [2%Q]].

(** The default configuration at the origin. *)
Definition default_config : TrainLyapunovReLU := init (1 # 10) [0%Q].

(** A configuration with the given weight for the two sample terms, the
    given weight for the two certificate terms, and the given iteration
    budget, projection policy, adversarial flag, window and optimizer. *)
Definition weighted_config (sample_weight mip_weight : Q) (iterations : nat)
    (method : ProjectGradientMethod) (adversarial : bool) (window : nat)
    (optimizer_name : string) (improvement : option Q)
  : TrainLyapunovReLU := {|
  V_lambda := (1 # 10)%Q;
  x_equilibrium := [0%Q];
  learning_rate := (3 # 1000)%Q;
  max_iterations := iterations;
  lyapunov_positivity_sample_cost_weight := sample_weight;
  lyapunov_positivity_sample_margin := 0%Q;
  lyapunov_derivative_sample_cost_weight := sample_weight;
  lyapunov_derivative_sample_margin := 0%Q;
  lyapunov_positivity_mip_cost_weight := mip_weight;
  lyapunov_positivity_mip_pool_solutions := 10;
  lyapunov_derivative_mip_cost_weight := mip_weight;
  lyapunov_derivative_mip_pool_solutions := 10;
  lyapunov_positivity_mip_cost_decay_rate := (9 # 10)%Q;
  lyapunov_derivative_mip_cost_decay_rate := (9 # 10)%Q;
  lyapunov_positivity_epsilon := (1 # 100)%Q;
  lyapunov_derivative_epsilon := (1 # 100)%Q;
  lyapunov_positivity_convergence_tol := (1 # 1000000)%Q;
  lyapunov_derivative_convergence_tol := (3 # 100000)%Q;
  optimizer := optimizer_name;
  project_gradient_method := method;
  momentum := 0%Q;
  loss_minimal_decrement := 0%Q;
  min_improvement := improvement;
  add_adversarial_state_to_training := adversarial;
  max_sample_pool_size := window
|}.

(** The sample weights are 1 and the certificate weights 10: every term of
    the loss is evaluated, and the loss is a tensor. *)
Definition stub_config : nat -> ProjectGradientMethod -> bool -> nat ->
    string -> option Q -> TrainLyapunovReLU :=
  weighted_config 1 10.

(** A line-search optimizer that moves the parameters once and evaluates
    the closure once. *)
Definition stub_line_search_step (f g : nat -> Q) (o : unit)
    (closure : LineSearchFrame ->
               @M (stub_system f g) (LossTensor * LineSearchFrame))
    (current_loss : option Q) (frame : LineSearchFrame)
  : @M (stub_system f g) (LossTensor * LineSearchFrame * unit) :=
  fun w =>
    match closure frame (@set_theta (stub_system f g) (S (theta w)) w) with
    | (Ok out, w') => (Ok (out, o), w')
    | (Raise x, w') => (Raise x, w')
    end.

(** ** The window of size zero *)

(** A positivity pool of one row, and the same pool with a row in front. *)
Definition pool_1 : Tensor2 := mkTensor2 1 [[1%Q]].
Definition pool_5_1 : Tensor2 := mkTensor2 1 [[5%Q]; [1%Q]].

(** C6 fails for a window of size zero. With [max_sample_pool_size = 0] the
    slice [samples[-0:]] is the whole pool, not its last zero rows: the row
    put in front of the positivity pool enters the positivity sample loss,
    which changes from 1 to 6, and the total loss with it. *)
Lemma window_of_size_zero_takes_the_whole_pool :
  let f : nat -> Q := fun _ => 1%Q in
  let g : nat -> Q := fun _ => 0%Q in
  let self := stub_config 3 NONE false 0 "Adam" None in
  let w := stub_world f g [pool_1; pool_5_1; pool_1; pool_1] in
  exists r r' w1 w1',
    total_loss self 0 2 3 None None None None w = (Ok r, w1) /\
    total_loss self 1 2 3 None None None None w = (Ok r', w1') /\
    positivity_sample_loss r = 1%Q /\
    positivity_sample_loss r' = (6 # 1)%Q /\
    loss r <> loss r' /\
    samples_in_pool self (rows pool_5_1) = rows pool_5_1.
Proof.
  cbv zeta. eexists _, _, _, _.
  split; [vm_compute; reflexivity|].
  split; [vm_compute; reflexivity|].
  repeat split; try (vm_compute; reflexivity).
  vm_compute. discriminate.
Qed.

(** ** The snapshot key of the specification *)

(** The scalar of the specification: each violation is clamped at zero. *)
Definition clamped_mip_loss (self : TrainLyapunovReLU)
    (positivity_objective derivative_objective : Q) : Q :=
  (lyapunov_positivity_mip_cost_weight self * Qmax 0 (- positivity_objective) +
   lyapunov_derivative_mip_cost_weight self * Qmax 0 derivative_objective)%Q.

Definition clamped_mip_loss_at `{system : LyapunovHybridSystem}
    (self : TrainLyapunovReLU) (th : Params) : Q :=
  clamped_mip_loss self (ObjVal (solved Positivity self th))
    (ObjVal (solved Derivative self th)).

(** A snapshot is taken between the worlds [w] and [w']. *)
Definition snapshot_taken `{system : LyapunovHybridSystem} (w w' : World)
  : Prop :=
  In EvDeepcopy (drop (length (trace w)) (trace w')).

(** The rule of the specification for a run from [w0]: the snapshot is
    replaced at exactly the iterations whose clamped scalar is strictly
    below the clamped scalar of every earlier iteration. *)
Definition snapshot_keyed_by_clamped_loss `{system : LyapunovHybridSystem}
    (self : TrainLyapunovReLU) (all : ref) (max_inc : nat) (w0 : World)
  : Prop :=
  forall k next st w flow w',
    samples_reaches self all max_inc w0 k next st w ->
    on_samples_iteration self all next max_inc k st w = (Ok flow, w') ->
    (snapshot_taken w w' <->
     forall j next' st' w'',
       j < k -> samples_reaches self all max_inc w0 j next' st' w'' ->
       (clamped_mip_loss_at self (theta w) <
        clamped_mip_loss_at self (theta w''))%Q).

(** ** Computed runs *)

(** The value, and the world, in which a computation ends. *)
Ltac computed_value run :=
  let v := eval vm_compute in run in
  lazymatch v with
  | (Ok ?a, _) => exact a
  end.

Ltac computed_world run :=
  let v := eval vm_compute in run in
  lazymatch v with
  | (_, ?w) => exact w
  end.

Ltac computed_continue run :=
  let v := eval vm_compute in run in
  lazymatch v with
  | (Ok (Continue ?st), _) => exact st
  end.

Definition zero_objective : nat -> Q := fun _ => 0%Q.

(** ** The snapshot on improving certificates *)

(** Certificates that get better and better: the positivity objective is
    [1, 2, 3, ...], the derivative objective is [0]. *)
Definition improving_positivity : nat -> Q :=
  fun th => inject_Z (Z.of_nat (S th)).

Definition improving_system : LyapunovHybridSystem :=
  stub_system improving_positivity zero_objective.

Definition improving_world : @World improving_system :=
  stub_world improving_positivity zero_objective [two_samples].

Definition three_iterations : TrainLyapunovReLU :=
  stub_config 3 NONE false 500 "Adam" None.

(** The run of [train_lyapunov_on_samples]: where the loop is entered,
    where iteration 1 starts, and where iteration 1 ends. *)
Definition improving_start : ref * @SamplesState improving_system :=
  ltac:(computed_value
          (on_samples_setup (system := improving_system) three_iterations 0
             improving_world)).

Definition improving_world_0 : @World improving_system :=
  ltac:(computed_world
          (on_samples_setup (system := improving_system) three_iterations 0
             improving_world)).

Definition improving_flow_1 : ForFlow (@SamplesState improving_system) :=
  ltac:(computed_value
          (on_samples_loop (system := improving_system) three_iterations 0
             improving_start.1 5 (seq 0 1) improving_start.2
             improving_world_0)).

Definition improving_world_1 : @World improving_system :=
  ltac:(computed_world
          (on_samples_loop (system := improving_system) three_iterations 0
             improving_start.1 5 (seq 0 1) improving_start.2
             improving_world_0)).

Definition improving_flow_2 : ForFlow (@SamplesState improving_system) :=
  ltac:(computed_value
          (on_samples_iteration (system := improving_system) three_iterations
             0 improving_start.1 5 1 (flow_state improving_flow_1)
             improving_world_1)).

Definition improving_world_2 : @World improving_system :=
  ltac:(computed_world
          (on_samples_iteration (system := improving_system) three_iterations
             0 improving_start.1 5 1 (flow_state improving_flow_1)
             improving_world_1)).

Lemma improving_reaches_0 :
  samples_reaches (system := improving_system) three_iterations 0 5
    improving_world 0 improving_start.1 improving_start.2 improving_world_0.
Proof.
  exists improving_start.2, improving_world_0.
  split; [vm_compute; reflexivity|vm_compute; reflexivity].
Qed.

Lemma improving_reaches_1 :
  samples_reaches (system := improving_system) three_iterations 0 5
    improving_world 1 improving_start.1 (flow_state improving_flow_1)
    improving_world_1.
Proof.
  exists improving_start.2, improving_world_0.
  split; [vm_compute; reflexivity|vm_compute; reflexivity].
Qed.

Lemma improving_iteration_1 :
  on_samples_iteration (system := improving_system) three_iterations 0
    improving_start.1 5 1 (flow_state improving_flow_1) improving_world_1 =
  (Ok improving_flow_2, improving_world_2).
Proof. vm_compute. reflexivity. Qed.

(** C3 as the specification words it does not hold.  With positivity
    objectives 1 and 2 at the iterations 0 and 1 and a derivative objective
    of 0, the clamped scalar is 0 at both iterations, so it does not improve
    at iteration 1; the code compares -10 and -20 and replaces the snapshot
    at iteration 1. *)
Lemma snapshot_replaced_without_clamped_improvement :
  ~ snapshot_keyed_by_clamped_loss (system := improving_system)
      three_iterations 0 5 improving_world.
Proof.
  intros H.
  destruct (H _ _ _ _ _ _ improving_reaches_1 improving_iteration_1)
    as [Hforward _].
  assert (snapshot_taken improving_world_1 improving_world_2) as Htaken
    by (vm_compute; tauto).
  specialize (Hforward Htaken 0 _ _ _ ltac:(lia) improving_reaches_0).
  vm_compute in Hforward. discriminate.
Qed.

(** The rule of the code on the same run: at iteration 1 the compared value
    is [10 * - 2 + 10 * 0], strictly below the best value [10 * - 1] of
    iteration 0, and the snapshot is replaced by the network of
    iteration 1. *)
Lemma snapshot_keyed_by_unclamped_mip_loss_witness :
  samples_reaches (system := improving_system) three_iterations 0 5
    improving_world 1 improving_start.1 (flow_state improving_flow_1)
    improving_world_1 /\
  on_samples_iteration (system := improving_system) three_iterations 0
    improving_start.1 5 1 (flow_state improving_flow_1) improving_world_1 =
    (Ok improving_flow_2, improving_world_2) /\
  best_loss (flow_state improving_flow_1) = Fin (-10 # 1) /\
  best_loss (flow_state improving_flow_2) =
    Fin (mip_loss_at three_iterations (theta improving_world_1)) /\
  mip_loss_at (system := improving_system) three_iterations
    (theta improving_world_1) = (10 * - 2 + 10 * 0)%Q /\
  best_relu (flow_state improving_flow_2) = Some (theta improving_world_1) /\
  theta improving_world_1 = (1 : @Params improving_system).
Proof.
  split; [exact improving_reaches_1|].
  split; [exact improving_iteration_1|].
  split; [vm_compute; reflexivity|].
  destruct (snapshot_keyed_by_unclamped_mip_loss (system := improving_system)
              three_iterations 0 5 improving_world 1 improving_start.1
              (flow_state improving_flow_1) improving_world_1
              improving_world_2 improving_flow_2
              improving_reaches_1 improving_iteration_1)
    as (_ & r & w1 & evs & _ & _ & Hkey & Hreplace & _).
  cbv zeta in Hkey, Hreplace. rewrite Hkey in Hreplace.
  destruct (Hreplace ltac:(vm_compute; reflexivity)) as (Hb & Hr & _).
  split; [exact Hb|]. split; [vm_compute; reflexivity|].
  split; [exact Hr|reflexivity].
Defined.

(** ** The convergence test of the line search *)

(** A positivity objective of -1 at every network: the positivity condition
    is violated by far more than the tolerance. *)
Definition violated_positivity : nat -> Q := fun _ => (-1)%Q.

(** A positivity objective of 1 at every network: the condition holds. *)
Definition satisfied_positivity : nat -> Q := fun _ => 1%Q.

Definition satisfied_system : LyapunovHybridSystem :=
  stub_system satisfied_positivity zero_objective.

Definition satisfied_world : @World satisfied_system :=
  stub_world satisfied_positivity zero_objective [two_samples].

Definition line_search_config : TrainLyapunovReLU :=
  stub_config 3 NONE false 500 "GD" (Some 0%Q).

(** C2 does not hold of the code. [train_with_line_search] tests
    [positivity cost < lyapunov_positivity_convergence_tol], where [train]
    tests [positivity cost >= - lyapunov_positivity_convergence_tol].  With
    a positivity objective of -1 and a derivative objective of 0 the line
    search reports convergence at its first step, although the test of
    [train] fails and [train] runs out of iterations; with a positivity
    objective of 1 the line search never reports convergence, although
    [train] converges at its first iteration. *)
Theorem line_search_test_has_the_wrong_sign :
  (forall self p d,
     line_search_converged self (Some p) (Some d) =
     Ok (Qlt_bool p (lyapunov_positivity_convergence_tol self) &&
         Qlt_bool d (lyapunov_derivative_convergence_tol self))) /\
  (train_with_line_search
     (system := stub_system violated_positivity zero_objective)
     unit (fun _ _ _ _ _ _ => tt) (fun _ _ _ _ _ => tt)
     (stub_line_search_step violated_positivity zero_objective)
     line_search_config 0
     (stub_world violated_positivity zero_objective [two_samples])).1 =
    Ok true /\
  converged line_search_config (-1) 0 = false /\
  (exists ls pcs dcs,
     (train (system := stub_system violated_positivity zero_objective)
        three_iterations 0
        (stub_world violated_positivity zero_objective [two_samples])).1 =
     Ok (false, ls, pcs, dcs)) /\
  (train_with_line_search
     (system := stub_system satisfied_positivity zero_objective)
     unit (fun _ _ _ _ _ _ => tt) (fun _ _ _ _ _ => tt)
     (stub_line_search_step satisfied_positivity zero_objective)
     line_search_config 0
     (stub_world satisfied_positivity zero_objective [two_samples])).1 =
    Ok false /\
  converged line_search_config 1 0 = true /\
  (exists ls pcs dcs,
     (train (system := stub_system satisfied_positivity zero_objective)
        three_iterations 0
        (stub_world satisfied_positivity zero_objective [two_samples])).1 =
     Ok (true, ls, pcs, dcs)).
Proof.
  split.
  { intros self p d. unfold line_search_converged, lt_or_type_error.
    by destruct (Qlt_bool p _). }
  split; [vm_compute; reflexivity|].
  split; [vm_compute; reflexivity|].
  split; [eexists _, _, _; vm_compute; reflexivity|].
  split; [vm_compute; reflexivity|].
  split; [vm_compute; reflexivity|].
  eexists _, _, _; vm_compute; reflexivity.
Qed.

(** ** Convergence after two steps *)

(** The positivity objective is violated for the first two networks and met
    from the third on. *)
Definition late_positivity : nat -> Q :=
  fun th => if th <? 2 then (-1)%Q else 0%Q.

Definition late_system : LyapunovHybridSystem :=
  stub_system late_positivity zero_objective.

Definition late_world : @World late_system :=
  stub_world late_positivity zero_objective [two_samples].

Definition five_iterations : TrainLyapunovReLU :=
  stub_config 5 NONE false 500 "Adam" None.

(** The run of [train] up to iteration 2, and the call of [total_loss]
    there. *)
Definition late_state_2 : @TrainState late_system :=
  ltac:(computed_continue
          ((st0 <- train_setup (system := late_system) five_iterations 0 ;;
            train_iterations five_iterations 2 st0) late_world)).

Definition late_world_2 : @World late_system :=
  ltac:(computed_world
          ((st0 <- train_setup (system := late_system) five_iterations 0 ;;
            train_iterations five_iterations 2 st0) late_world)).


Definition late_world_3 : @World late_system :=
  ltac:(computed_world
          (total_loss (system := late_system) five_iterations
             (train_positivity_state_samples late_state_2)
             (train_derivative_state_samples late_state_2)
             (train_derivative_state_samples_next late_state_2)
             None None None None (after_zero_grad late_world_2))).




(** ** A loss without a term *)

(** The four weights are zero: no term of the loss is evaluated, and the
    loss is the Python float [0.]. *)
Definition no_term_config : TrainLyapunovReLU :=
  weighted_config 0 0 3 NONE false 500 "Adam" None.


Definition no_term_state_0 : @TrainState satisfied_system :=
  ltac:(computed_continue
          ((st0 <- train_setup (system := satisfied_system) no_term_config 0 ;;
            train_iterations no_term_config 0 st0) satisfied_world)).

Definition no_term_world_0 : @World satisfied_system :=
  ltac:(computed_world
          ((st0 <- train_setup (system := satisfied_system) no_term_config 0 ;;
            train_iterations no_term_config 0 st0) satisfied_world)).


Definition no_term_world_1 : @World satisfied_system :=
  ltac:(computed_world
          (total_loss (system := satisfied_system) no_term_config
             (train_positivity_state_samples no_term_state_0)
             (train_derivative_state_samples no_term_state_0)
             (train_derivative_state_samples_next no_term_state_0)
             None None None None (after_zero_grad no_term_world_0))).



Lemma no_term_train_raises :
  train (system := satisfied_system) no_term_config 0 satisfied_world =
  (Raise AttributeError, no_term_world_1).
Proof. vm_compute. reflexivity. Qed.


(** ** Calls of [total_loss] *)

(** The calls made with the four weights overridden by zero, on a world
    whose one tensor serves as all three pools. *)
Definition zero_weight_world : @World late_system :=
  ltac:(computed_world
          (total_loss (system := late_system) five_iterations 0 0 0
             (Some 0%Q) (Some 0%Q) (Some 0%Q) (Some 0%Q) late_world)).

Lemma zero_weight_trace :
  trace (total_loss (system := late_system) five_iterations 0 0 0
           (Some 0%Q) (Some 0%Q) (Some 0%Q) (Some 0%Q) late_world).2 =
  trace late_world ++ trace zero_weight_world.
Proof. vm_compute. reflexivity. Qed.

(** C4 on a call with the four weights overridden by zero. *)
Lemma zero_weight_terms_are_skipped_witness :
  let out :=
    total_loss (system := late_system) five_iterations 0 0 0
      (Some 0%Q) (Some 0%Q) (Some 0%Q) (Some 0%Q) late_world in
  let evs := trace zero_weight_world in
  trace out.2 = trace late_world ++ evs /\
  Forall (fun ev => is_sample_evaluation Positivity ev = false) evs /\
  Forall (fun ev => is_sample_evaluation Derivative ev = false) evs /\
  Forall (fun ev => is_objective_extraction Positivity ev = false) evs /\
  Forall (fun ev => is_objective_extraction Derivative ev = false) evs /\
  (forall r, out.1 = Ok r ->
     positivity_sample_loss r = 0%Q /\ derivative_sample_loss r = 0%Q /\
     positivity_mip_loss r = 0%Q /\ derivative_mip_loss r = 0%Q) /\
  exists r, out.1 = Ok r.
Proof.
  cbv zeta.
  destruct (zero_weight_terms_are_skipped (system := late_system)
              five_iterations 0 0 0 (Some 0%Q) (Some 0%Q) (Some 0%Q)
              (Some 0%Q) late_world (trace zero_weight_world)
              zero_weight_trace)
    as (Hps & Hds & Hpm & Hdm & _).
  assert (0 == 0)%Q as Hzero by reflexivity.
  destruct (Hps (or_introl Hzero)) as [Hps1 Hps2].
  destruct (Hds (or_introl Hzero)) as [Hds1 Hds2].
  destruct (Hpm Hzero) as [Hpm1 Hpm2].
  destruct (Hdm Hzero) as [Hdm1 Hdm2].
  split; [exact zero_weight_trace|].
  split; [exact Hps1|]. split; [exact Hds1|].
  split; [exact Hpm1|]. split; [exact Hdm1|].
  split.
  - intros r Hr. split; [exact (Hps2 r Hr)|]. split; [exact (Hds2 r Hr)|].
    split; [exact (Hpm2 r Hr)|exact (Hdm2 r Hr)].
  - eexists. vm_compute. reflexivity.
Defined.

(** The call with the default weights. *)
Definition default_loss : TotalLossReturn :=
  ltac:(computed_value
          (total_loss (system := late_system) five_iterations 0 0 0
             None None None None late_world)).

Definition default_loss_world : @World late_system :=
  ltac:(computed_world
          (total_loss (system := late_system) five_iterations 0 0 0
             None None None None late_world)).

Lemma default_loss_returns :
  total_loss (system := late_system) five_iterations 0 0 0
    None None None None late_world = (Ok default_loss, default_loss_world).
Proof. vm_compute. reflexivity. Qed.

(** C5 on a call with the default weights: the solver reports two
    solutions for a pool of ten, with objectives -1 and 0 for the positivity
    condition and 0 and 1 for the derivative condition. *)
Lemma certificate_loss_is_ranked_sum_witness :
  total_loss (system := late_system) five_iterations 0 0 0
    None None None None late_world = (Ok default_loss, default_loss_world) /\
  ~ (lyapunov_positivity_mip_cost_weight five_iterations == 0)%Q /\
  ~ (lyapunov_derivative_mip_cost_weight five_iterations == 0)%Q /\
  positivity_mip_loss default_loss =
    ranked_certificate_loss 10 (9 # 10)
      (fun j => - (-1 + inject_Z (Z.of_nat j)))%Q 10 2 /\
  derivative_mip_loss default_loss =
    ranked_certificate_loss 10 (9 # 10)
      (fun j => 0 + inject_Z (Z.of_nat j))%Q 10 2.
Proof.
  assert (~ (lyapunov_positivity_mip_cost_weight five_iterations == 0)%Q)
    as Hp by (vm_compute; discriminate).
  assert (~ (lyapunov_derivative_mip_cost_weight five_iterations == 0)%Q)
    as Hd by (vm_compute; discriminate).
  destruct (certificate_loss_is_ranked_sum (system := late_system)
              five_iterations 0 0 0 None None None None late_world
              default_loss_world default_loss default_loss_returns)
    as [Hpos Hder].
  destruct (Hpos Hp) as [Hpos1 _]. destruct (Hder Hd) as [Hder1 _].
  split; [exact default_loss_returns|]. split; [exact Hp|].
  split; [exact Hd|]. split; [exact Hpos1|exact Hder1].
Defined.

(** ** Alternating projections and growing pools *)

Definition alternate_config : TrainLyapunovReLU :=
  stub_config 5 ALTERNATE true 500 "Adam" None.

Definition violated_system : LyapunovHybridSystem :=
  stub_system violated_positivity zero_objective.

Definition violated_world : @World violated_system :=
  stub_world violated_positivity zero_objective [two_samples].

Definition alternate_state_3 : @TrainState violated_system :=
  ltac:(computed_continue
          ((st0 <- train_setup (system := violated_system) alternate_config 0 ;;
            train_iterations alternate_config 3 st0) violated_world)).

Definition alternate_world_3 : @World violated_system :=
  ltac:(computed_world
          ((st0 <- train_setup (system := violated_system) alternate_config 0 ;;
            train_iterations alternate_config 3 st0) violated_world)).

Lemma alternate_run_reaches_3 :
  (st0 <- train_setup (system := violated_system) alternate_config 0 ;;
   train_iterations alternate_config 3 st0) violated_world =
  (Ok (Continue alternate_state_3), alternate_world_3).
Proof. vm_compute. reflexivity. Qed.

(** C7 on a run of three iterations that does not converge. *)
Lemma alternate_projection_alternates_witness :
  project_gradient_method alternate_config = ALTERNATE /\
  (st0 <- train_setup (system := violated_system) alternate_config 0 ;;
   train_iterations alternate_config 3 st0) violated_world =
    (Ok (Continue alternate_state_3), alternate_world_3) /\
  projection_modes (trace alternate_world_3) = [LOSS2; LOSS1; LOSS2] /\
  project_gradient_mode alternate_state_3 = Some LOSS2.
Proof.
  destruct (alternate_projection_alternates (system := violated_system)
              alternate_config 0 violated_world eq_refl)
    as (Hmodes & _ & _ & _).
  split; [reflexivity|]. split; [exact alternate_run_reaches_3|].
  split; [exact (Hmodes 3 _ _ alternate_run_reaches_3)|reflexivity].
Defined.

(** C9 on the same run: after three iterations with adversarial states the
    derivative pool and its next-state pool hold the two samples and three
    adversarial rows each. *)
Lemma derivative_pools_have_equal_length_witness :
  exists dt nt,
    tensors alternate_world_3 !!
      train_derivative_state_samples alternate_state_3 = Some dt /\
    tensors alternate_world_3 !!
      train_derivative_state_samples_next alternate_state_3 = Some nt /\
    shape0 nt = shape0 dt /\
    shape0 dt = 5.
Proof.
  destruct (derivative_pools_have_equal_length (system := violated_system)
              alternate_config 0 violated_world) as (_ & Haligned & _).
  destruct (Haligned 3 _ _ alternate_run_reaches_3)
    as (dt & nt & Hd & Hn & Hlen).
  exists dt, nt. split; [exact Hd|]. split; [exact Hn|].
  split; [exact Hlen|].
  vm_compute in Hd. injection Hd as <-. reflexivity.
Defined.

(** A call of [total_loss] with adversarial states. *)
Definition adversarial_loss : TotalLossReturn :=
  ltac:(computed_value
          (total_loss (system := violated_system) alternate_config 0 0 0
             None None None None violated_world)).

Definition adversarial_world : @World violated_system :=
  ltac:(computed_world
          (total_loss (system := violated_system) alternate_config 0 0 0
             None None None None violated_world)).

Lemma adversarial_loss_returns :
  total_loss (system := violated_system) alternate_config 0 0 0
    None None None None violated_world =
  (Ok adversarial_loss, adversarial_world).
Proof. vm_compute. reflexivity. Qed.

(** C10 on that call: the argument is as it was, and the three pools
    returned are new tensors. *)
Lemma total_loss_leaves_inputs_untouched_witness :
  tensors adversarial_world !! 0 = Some two_samples /\
  positivity_state_samples adversarial_loss = 1 /\
  derivative_state_samples adversarial_loss = 2 /\
  derivative_state_samples_next adversarial_loss = 3 /\
  tensors violated_world !! 1 = None /\
  tensors adversarial_world !! 1 =
    Some (mkTensor2 1 [[1%Q]; [2%Q]; [(-1)%Q]]).
Proof.
  destruct (total_loss_leaves_inputs_untouched (system := violated_system)
              alternate_config 0 0 0 None None None None violated_world)
    as [Hkeep _].
  rewrite adversarial_loss_returns in Hkeep. simpl in Hkeep.
  split; [by apply Hkeep|]. repeat split.
Defined.

(** ** The window *)

Definition window_world
  : @World (stub_system satisfied_positivity zero_objective) :=
  stub_world satisfied_positivity zero_objective [pool_1; pool_5_1].

Definition window_of_one : TrainLyapunovReLU :=
  stub_config 3 NONE false 1 "Adam" None.

Definition window_loss : TotalLossReturn :=
  ltac:(computed_value
          (total_loss window_of_one 0 0 0 None None None None window_world)).

Definition window_loss_world
  : @World (stub_system satisfied_positivity zero_objective) :=
  ltac:(computed_world
          (total_loss window_of_one 0 0 0 None None None None window_world)).

Lemma window_loss_returns :
  total_loss window_of_one 0 0 0 None None None None window_world =
  (Ok window_loss, window_loss_world).
Proof. vm_compute. reflexivity. Qed.

(** The window on a concrete pool: with a window of one row, a row put in
    front of each pool changes none of the losses. *)
Lemma sample_window_invariance_witness :
  exists r' w1',
    total_loss window_of_one 1 1 1 None None None None window_world =
      (Ok r', w1') /\
    loss r' = loss window_loss /\
    positivity_sample_loss r' = positivity_sample_loss window_loss /\
    derivative_sample_loss r' = derivative_sample_loss window_loss.
Proof.
  destruct (sample_window_invariance
              (system := stub_system satisfied_positivity zero_objective)
              window_of_one 0 0 0 1 1 1 None None None None
              window_world window_loss_world pool_1 pool_1 pool_1
              [[5%Q]] [[5%Q]] [[5%Q]] window_loss)
    as (r' & w1' & Hrun' & Hloss & _ & _ & Hps & Hds & _);
    try reflexivity; try (simpl; lia); try exact window_loss_returns.
  exists r', w1'. split; [exact Hrun'|]. split; [exact Hloss|].
  split; [exact Hps|exact Hds].
Defined.

(** ** The plateau *)

(** The compared value is [10 * |th - 3|] after [th] optimizer steps: it
    falls to zero at iteration 3 and rises from then on. *)
Definition plateau_positivity : nat -> Q :=
  fun th => (- inject_Z (Z.abs (Z.of_nat th - 3)))%Q.

Definition plateau_system : LyapunovHybridSystem :=
  stub_system plateau_positivity zero_objective.

Definition plateau_world : @World plateau_system :=
  stub_world plateau_positivity zero_objective [two_samples].

Definition plateau_config : TrainLyapunovReLU :=
  stub_config 1000 NONE false 500 "Adam" None.

Definition plateau_start : ref * @SamplesState plateau_system :=
  ltac:(computed_value
          (on_samples_setup (system := plateau_system) plateau_config 0
             plateau_world)).

Definition plateau_world_0 : @World plateau_system :=
  ltac:(computed_world
          (on_samples_setup (system := plateau_system) plateau_config 0
             plateau_world)).

(** The first [j] iterations of the run. *)
Definition plateau_run (j : nat)
  : Result (ForFlow (@SamplesState plateau_system)) * @World plateau_system :=
  on_samples_loop (system := plateau_system) plateau_config 0
    plateau_start.1 5 (seq 0 j) plateau_start.2 plateau_world_0.

Definition plateau_state (j : nat) : @SamplesState plateau_system :=
  match (plateau_run j).1 with
  | Ok flow => flow_state flow
  | Raise _ => plateau_start.2
  end.

Lemma plateau_reaches (j : nat) :
  j <= 8 ->
  samples_reaches (system := plateau_system) plateau_config 0 5
    plateau_world j plateau_start.1 (plateau_state j) (plateau_run j).2.
Proof.
  intros Hj. exists plateau_start.2, plateau_world_0.
  split; [vm_compute; reflexivity|].
  do 9 (destruct j as [|j]; [vm_compute; reflexivity|]). lia.
Qed.

Lemma plateau_loss_returns (j : nat) :
  j <= 8 ->
  loss_returns (system := plateau_system) plateau_config 0 plateau_start.1
    (plateau_run j).2.
Proof.
  intros Hj.
  do 9 (destruct j as [|j];
        [eexists _, _; split; vm_compute; reflexivity|]).
  lia.
Qed.

Lemma plateau_snapshot_at_3 :
  lt_ext (mip_loss_at (system := plateau_system) plateau_config
            (theta (plateau_run 3).2))
    (best_loss (plateau_state 3)) = true.
Proof. vm_compute. reflexivity. Qed.

Lemma plateau_increases (j : nat) :
  3 < j <= 8 ->
  gt_ext (mip_loss_at (system := plateau_system) plateau_config
            (theta (plateau_run j).2))
    (previous_mip_loss (plateau_state j)) = true.
Proof.
  intros Hj. do 4 (destruct j as [|j]; [lia|]).
  do 5 (destruct j as [|j]; [vm_compute; reflexivity|]). lia.
Qed.

(** C8 on a run whose compared value is 30, 20, 10, 0, 10, 20, 30, 40, 50:
    the loop breaks at iteration 8 and the network is given the parameters
    of iteration 3, reached after three optimizer steps. *)
Lemma plateau_counter_stops_and_restores_witness :
  exists st_end w_end,
    train_lyapunov_on_samples plateau_config 0 20 5 plateau_world =
      (Ok (Break st_end), w_end) /\
    samples_iter_count st_end = 8 /\
    num_increasing_iterations st_end = 5 /\
    best_relu st_end = Some (theta (plateau_run 3).2) /\
    theta w_end = theta (plateau_run 3).2 /\
    theta (plateau_run 3).2 = 3.
Proof.
  destruct (plateau_counter_stops_and_restores (system := plateau_system)
              plateau_config 0) as (_ & _ & _ & Hscenario).
  destruct (Hscenario 20 plateau_world) as
    (next & st3 & w3 & st_end & w_end & Hreach & Hrun & Hi & Hn & Hb & Hth).
  - lia.
  - exists plateau_start.1, (plateau_state 0), (plateau_run 0).2.
    apply plateau_reaches. lia.
  - intros j next st w Hj Hreach.
    destruct (samples_reaches_fun _ _ _ _ _ _ _ _ _ _ _ Hreach
                (plateau_reaches j Hj)) as (-> & -> & ->).
    by apply plateau_loss_returns.
  - intros next st w Hreach.
    destruct (samples_reaches_fun _ _ _ _ _ _ _ _ _ _ _ Hreach
                (plateau_reaches 3 ltac:(lia))) as (-> & -> & ->).
    exact plateau_snapshot_at_3.
  - intros j next st w Hj Hreach.
    destruct (samples_reaches_fun _ _ _ _ _ _ _ _ _ _ _ Hreach
                (plateau_reaches j ltac:(lia))) as (-> & -> & ->).
    by apply plateau_increases.
  - destruct (samples_reaches_fun _ _ _ _ _ _ _ _ _ _ _ Hreach
                (plateau_reaches 3 ltac:(lia))) as (_ & _ & Hw3).
    rewrite Hw3 in Hb, Hth.
    exists st_end, w_end. split; [exact Hrun|]. split; [exact Hi|].
    split; [exact Hn|]. split; [exact Hb|]. split; [exact Hth|].
    vm_compute. reflexivity.
Defined.

(** ** A plateau that starts early *)

(** The compared value is 0, 100, 50, 70, 100, 200, 300, 400, ...: it
    strictly increases at iteration 3 and at every iteration after it, and
    its least value is that of iteration 0. *)
Definition early_rise_positivity : nat -> Q :=
  fun th =>
    match th with
    | 0 => 0%Q
    | 1 => (- (10))%Q
    | 2 => (- (5))%Q
    | 3 => (- (7))%Q
    | _ => (- inject_Z (10 * (Z.of_nat th - 3)))%Q
    end.

Definition early_rise_system : LyapunovHybridSystem :=
  stub_system early_rise_positivity zero_objective.

Definition early_rise_world : @World early_rise_system :=
  stub_world early_rise_positivity zero_objective [two_samples].

Definition early_rise_start : ref * @SamplesState early_rise_system :=
  ltac:(computed_value
          (on_samples_setup (system := early_rise_system) plateau_config 0
             early_rise_world)).

Definition early_rise_world_0 : @World early_rise_system :=
  ltac:(computed_world
          (on_samples_setup (system := early_rise_system) plateau_config 0
             early_rise_world)).

(** The first [j] iterations of the run. *)
Definition early_rise_run (j : nat)
  : Result (ForFlow (@SamplesState early_rise_system)) *
    @World early_rise_system :=
  on_samples_loop (system := early_rise_system) plateau_config 0
    early_rise_start.1 5 (seq 0 j) early_rise_start.2 early_rise_world_0.

Definition early_rise_state (j : nat) : @SamplesState early_rise_system :=
  match (early_rise_run j).1 with
  | Ok flow => flow_state flow
  | Raise _ => early_rise_start.2
  end.

Definition early_rise_end : ForFlow (@SamplesState early_rise_system) :=
  ltac:(computed_value
          (train_lyapunov_on_samples (system := early_rise_system)
             plateau_config 0 20 5 early_rise_world)).

Definition early_rise_end_world : @World early_rise_system :=
  ltac:(computed_world
          (train_lyapunov_on_samples (system := early_rise_system)
             plateau_config 0 20 5 early_rise_world)).

Lemma early_rise_reaches (j : nat) :
  j <= 7 ->
  samples_reaches (system := early_rise_system) plateau_config 0 5
    early_rise_world j early_rise_start.1 (early_rise_state j)
    (early_rise_run j).2.
Proof.
  intros Hj. exists early_rise_start.2, early_rise_world_0.
  split; [vm_compute; reflexivity|].
  do 8 (destruct j as [|j]; [vm_compute; reflexivity|]). lia.
Qed.

(** Iteration 7 breaks the loop: no run reaches iteration 8. *)
Lemma early_rise_breaks_at_7 (j : nat) next st w :
  samples_reaches (system := early_rise_system) plateau_config 0 5
    early_rise_world j next st w ->
  j <= 7.
Proof.
  intros Hreach. destruct (le_gt_dec j 7) as [Hle|Hgt]; [done|].
  destruct (samples_reaches_le _ _ _ _ 8 _ _ _ _ Hreach Hgt)
    as (st8 & w8 & Hreach8).
  apply samples_reaches_S_inv in Hreach8 as (st7 & w7 & Hreach7 & Hit).
  destruct (samples_reaches_fun _ _ _ _ _ _ _ _ _ _ _ Hreach7
              (early_rise_reaches 7 ltac:(lia))) as (-> & -> & ->).
  vm_compute in Hit. discriminate.
Qed.

Lemma early_rise_increases (j : nat) :
  3 < j <= 7 ->
  gt_ext (mip_loss_at (system := early_rise_system) plateau_config
            (theta (early_rise_run j).2))
    (previous_mip_loss (early_rise_state j)) = true.
Proof.
  intros Hj. do 4 (destruct j as [|j]; [lia|]).
  do 4 (destruct j as [|j]; [vm_compute; reflexivity|]). lia.
Qed.

Lemma early_rise_run_ends :
  train_lyapunov_on_samples (system := early_rise_system) plateau_config 0 20
    5 early_rise_world = (Ok early_rise_end, early_rise_end_world).
Proof. vm_compute. reflexivity. Qed.

(** The scenario of C8 as the specification words it, for the run from
    [w0]: if the compared value strictly increases at every iteration after
    iteration 3, then with [max_increasing_iterations = 5] the loop breaks
    at iteration [3 + 5] and the network is given the parameters it had at
    iteration 3. *)
Definition stops_five_after_iteration_3 `{system : LyapunovHybridSystem}
    (self : TrainLyapunovReLU) (all : ref) (max_iterations : nat)
    (w0 : World) : Prop :=
  (forall j next st w,
     3 < j -> samples_reaches self all 5 w0 j next st w ->
     gt_ext (mip_loss_at self (theta w)) (previous_mip_loss st) = true) ->
  exists next st3 w3 st_end w_end,
    samples_reaches self all 5 w0 3 next st3 w3 /\
    train_lyapunov_on_samples self all max_iterations 5 w0 =
      (Ok (Break st_end), w_end) /\
    samples_iter_count st_end = 3 + 5 /\
    theta w_end = theta w3.

(** The scenario of C8 as the specification words it does not hold.  On
    the values 0, 100, 50, 70, 100, 200, 300, 400 the value increases at
    every iteration after iteration 3, with 20 iterations allowed; but it
    increases at iteration 3 as well, so the counter reaches 5 at iteration
    7, where the loop breaks, and the network restored is that of
    iteration 0, which had the least value. *)
Lemma plateau_may_start_before_iteration_3 :
  ~ stops_five_after_iteration_3 (system := early_rise_system) plateau_config
      0 20 early_rise_world.
Proof.
  intros H. destruct H as (next & st3 & w3 & st_end & w_end & _ & Hrun & Hi & _).
  - intros j next st w Hj Hreach.
    pose proof (early_rise_breaks_at_7 _ _ _ _ Hreach) as Hle.
    destruct (samples_reaches_fun _ _ _ _ _ _ _ _ _ _ _ Hreach
                (early_rise_reaches j Hle)) as (-> & -> & ->).
    by apply early_rise_increases.
  - rewrite early_rise_run_ends in Hrun. vm_compute in Hrun.
    injection Hrun as <- <-. vm_compute in Hi. discriminate.
Qed.

(** The run of the code on these values: the loop breaks at iteration 7,
    and the network is the one of iteration 0. *)
Lemma early_rise_run_result :
  train_lyapunov_on_samples (system := early_rise_system) plateau_config 0 20
    5 early_rise_world =
    (Ok (Break (flow_state early_rise_end)), early_rise_end_world) /\
  samples_iter_count (flow_state early_rise_end) = 7 /\
  num_increasing_iterations (flow_state early_rise_end) = 5 /\
  theta early_rise_end_world = (0 : @Params early_rise_system).
Proof. repeat split; vm_compute; reflexivity. Qed.

(** * Further concrete runs *)

(** ** Runs of [train] *)

Definition late_train_result : TrainReturn :=
  ltac:(computed_value (train (system := late_system) five_iterations 0
                          late_world)).

Lemma late_train_returns :
  train (system := late_system) five_iterations 0 late_world =
  (Ok late_train_result, late_world_3).
Proof. vm_compute. reflexivity. Qed.

(** The histories of the run that converges at iteration 2: three entries
    after two optimizer steps. *)
Lemma train_result_histories_witness :
  train (system := late_system) five_iterations 0 late_world =
    (Ok late_train_result, late_world_3) /\
  late_train_result.1.1.1 = true /\
  length late_train_result.1.1.2 = 3 /\
  exists k,
    optimizer_steps (trace late_world_3) =
      optimizer_steps (trace late_world) + k /\
    k < max_iterations five_iterations /\
    length late_train_result.1.1.2 = k + 1 /\
    forall i p d,
      late_train_result.1.2 !! i = Some (Some p) ->
      late_train_result.2 !! i = Some (Some d) ->
      converged five_iterations p d = true && (i =? k).
Proof.
  destruct (train_result_histories (system := late_system) five_iterations 0
              late_world late_world_3 late_train_result.1.1.1
              late_train_result.1.1.2 late_train_result.1.2
              late_train_result.2 late_train_returns)
    as (k & Hsteps & Hk & Hlen & _ & _ & _ & _ & _ & Hconv).
  split; [exact late_train_returns|]. split; [reflexivity|].
  split; [reflexivity|]. exists k.
  split; [exact Hsteps|]. split; [exact Hk|]. split; [exact Hlen|exact Hconv].
Defined.

(** [train] with the optimizer name of the line search. *)
Lemma train_rejects_unknown_optimizer_witness :
  optimizer line_search_config <> "Adam"%string /\
  optimizer line_search_config <> "SGD"%string /\
  (train (system := violated_system) line_search_config 0 violated_world).1 =
    Raise UnknownOptimizer /\
  theta (train (system := violated_system) line_search_config 0
           violated_world).2 = theta violated_world.
Proof.
  assert (optimizer line_search_config <> "Adam"%string) as Hadam
    by (vm_compute; discriminate).
  assert (optimizer line_search_config <> "SGD"%string) as Hsgd
    by (vm_compute; discriminate).
  destruct (train_rejects_unknown_optimizer (system := violated_system)
              line_search_config 0 violated_world Hadam Hsgd)
    as (_ & (_ & Htheta & _) & Hraise).
  split; [exact Hadam|]. split; [exact Hsgd|]. split; [|exact Htheta].
  apply Hraise. exists two_samples, (mkTensor2 1 [[1 # 2]; [2 # 2]]%Q).
  split; [reflexivity|]. split; [reflexivity|vm_compute; reflexivity].
Defined.

Definition sum_config : TrainLyapunovReLU :=
  stub_config 5 SUM false 500 "Adam" None.

Definition sum_state_2 : @TrainState violated_system :=
  ltac:(computed_continue
          ((st0 <- train_setup (system := violated_system) sum_config 0 ;;
            train_iterations sum_config 2 st0) violated_world)).

Definition sum_world_2 : @World violated_system :=
  ltac:(computed_world
          ((st0 <- train_setup (system := violated_system) sum_config 0 ;;
            train_iterations sum_config 2 st0) violated_world)).

Lemma sum_run_reaches_2 :
  (st0 <- train_setup (system := violated_system) sum_config 0 ;;
   train_iterations sum_config 2 st0) violated_world =
  (Ok (Continue sum_state_2), sum_world_2).
Proof. vm_compute. reflexivity. Qed.

(** Two turns under [SUM]: two projections with mode [BOTH], no call of
    [loss.backward()]. *)
Lemma projection_follows_method_witness :
  (st0 <- train_setup (system := violated_system) sum_config 0 ;;
   train_iterations sum_config 2 st0) violated_world =
    (Ok (Continue sum_state_2), sum_world_2) /\
  optimizer_steps (trace sum_world_2) = 2 /\
  projection_modes (trace sum_world_2) = [BOTH; BOTH] /\
  backward_calls (trace sum_world_2) = 0.
Proof.
  destruct (projection_follows_method (system := violated_system) sum_config
              0 violated_world 2 sum_state_2 sum_world_2 sum_run_reaches_2)
    as (Hsteps & Hmodes & Hbackward).
  split; [exact sum_run_reaches_2|]. split; [exact Hsteps|].
  split; [exact Hmodes|exact Hbackward].
Defined.

(** Three turns with adversarial states: the pools hold the two samples and
    three more rows, and each next state is half the state. *)
Lemma pools_follow_the_dynamics_witness :
  (st0 <- train_setup (system := violated_system) alternate_config 0 ;;
   train_iterations alternate_config 3 st0) violated_world =
    (Ok (Continue alternate_state_3), alternate_world_3) /\
  exists t0,
    tensors violated_world !! 0 = Some t0 /\
    tensors alternate_world_3 !! 0 = Some t0 /\
    pools_grown alternate_config t0 3 alternate_world_3 alternate_state_3.
Proof.
  split; [exact alternate_run_reaches_3|].
  exact (pools_follow_the_dynamics (system := violated_system)
           alternate_config 0 violated_world 3 alternate_state_3
           alternate_world_3 alternate_run_reaches_3).
Defined.

(** [train] with the four weights at zero: the loss is the Python float
    and the first turn raises. *)
Lemma train_raises_only_witness :
  train (system := satisfied_system) no_term_config 0 satisfied_world =
    (Raise AttributeError, no_term_world_1) /\
  exists th, loss_is_float_at (system := satisfied_system) no_term_config th.
Proof.
  split; [exact no_term_train_raises|].
  destruct (train_raises_only (system := satisfied_system) no_term_config 0
              satisfied_world no_term_world_1 AttributeError
              no_term_train_raises)
    as [H | [H | [H | [[_ H] | [_ H]]]]]; try discriminate H.
  exact H.
Defined.

(** ** Runs of [train_lyapunov_on_samples] *)

Definition plateau_end : ForFlow (@SamplesState plateau_system) :=
  ltac:(computed_value
          (train_lyapunov_on_samples (system := plateau_system)
             plateau_config 0 20 5 plateau_world)).

Definition plateau_end_world : @World plateau_system :=
  ltac:(computed_world
          (train_lyapunov_on_samples (system := plateau_system)
             plateau_config 0 20 5 plateau_world)).

Lemma plateau_run_ends :
  train_lyapunov_on_samples (system := plateau_system) plateau_config 0 20 5
    plateau_world = (Ok plateau_end, plateau_end_world).
Proof. vm_compute. reflexivity. Qed.

(** The plateau run breaks at turn 8, with five increasing turns behind
    it. *)
Lemma early_stop_needs_enough_iterations_witness :
  train_lyapunov_on_samples (system := plateau_system) plateau_config 0 20 5
    plateau_world = (Ok (Break (flow_state plateau_end)), plateau_end_world) /\
  samples_iter_count (flow_state plateau_end) = 8 /\
  1 <= 5 /\
  5 <= samples_iter_count (flow_state plateau_end) /\
  samples_iter_count (flow_state plateau_end) < 20 /\
  num_increasing_iterations (flow_state plateau_end) = 5.
Proof.
  split; [exact plateau_run_ends|]. split; [reflexivity|].
  exact (early_stop_needs_enough_iterations (system := plateau_system)
           plateau_config 0 20 5 plateau_world plateau_end_world
           (flow_state plateau_end) plateau_run_ends).
Defined.

(** The plateau run leaves behind the network of a turn whose value no
    other turn undercuts. *)
Lemma restored_network_is_the_best_seen_witness :
  train_lyapunov_on_samples (system := plateau_system) plateau_config 0 20 5
    plateau_world = (Ok plateau_end, plateau_end_world) /\
  theta plateau_end_world = (3 : @Params plateau_system) /\
  exists j next st w,
    j <= samples_iter_count (flow_state plateau_end) /\
    samples_reaches (system := plateau_system) plateau_config 0 5
      plateau_world j next st w /\
    theta plateau_end_world = theta w /\
    forall i next' st' w'',
      i <= samples_iter_count (flow_state plateau_end) ->
      samples_reaches (system := plateau_system) plateau_config 0 5
        plateau_world i next' st' w'' ->
      (mip_loss_at plateau_config (theta plateau_end_world) <=
       mip_loss_at plateau_config (theta w''))%Q.
Proof.
  split; [exact plateau_run_ends|]. split; [reflexivity|].
  exact (restored_network_is_the_best_seen (system := plateau_system)
           plateau_config 0 20 5 plateau_world plateau_end_world plateau_end
           plateau_run_ends).
Defined.

(** The plateau run starts nine turns: eighteen solver calls, eight
    optimizer steps, no solution read back. *)
Lemma certificates_are_solved_but_not_trained_on_witness :
  train_lyapunov_on_samples (system := plateau_system) plateau_config 0 20 5
    plateau_world = (Ok plateau_end, plateau_end_world) /\
  exists evs,
    trace plateau_end_world = trace plateau_world ++ evs /\
    Forall reads_no_objective evs /\
    solver_calls evs = 18 /\
    optimizer_steps evs = 8.
Proof.
  split; [exact plateau_run_ends|].
  exact (certificates_are_solved_but_not_trained_on (system := plateau_system)
           plateau_config 0 20 5 plateau_world plateau_end_world plateau_end
           plateau_run_ends).
Defined.

(** ** Runs of [train_with_line_search] *)

(** The constructors of the two line-search optimizers of the test double:
    they keep no state. *)
Definition stub_LineSearchGD : Q -> Q -> Q -> Q -> Q -> Q -> unit :=
  fun _ _ _ _ _ _ => tt.

Definition stub_LineSearchAdam : Q -> Q -> Q -> Q -> Q -> unit :=
  fun _ _ _ _ _ => tt.

(** The first evaluation of the loss, for three iterations on the two
    samples. *)
Definition violated_entry
  : ref * ref * ref * (LossTensor * LineSearchFrame) :=
  ltac:(computed_value
          (line_search_entry (system := violated_system) three_iterations 0
             violated_world)).

Definition violated_entry_world : @World violated_system :=
  ltac:(computed_world
          (line_search_entry (system := violated_system) three_iterations 0
             violated_world)).

(** "GD" with [min_improvement] left as [__init__] leaves it. *)
Definition unset_improvement : TrainLyapunovReLU :=
  stub_config 3 NONE false 500 "GD" None.

Lemma unset_improvement_entry :
  line_search_entry (system := violated_system) unset_improvement 0
    violated_world = (Ok violated_entry, violated_entry_world).
Proof. vm_compute. reflexivity. Qed.

Lemma line_search_needs_min_improvement_witness :
  min_improvement unset_improvement = None /\
  optimizer unset_improvement = "GD"%string /\
  train_with_line_search (system := violated_system) unit stub_LineSearchGD
    stub_LineSearchAdam
    (stub_line_search_step violated_positivity zero_objective)
    unset_improvement 0 violated_world =
  (Raise AttributeError,
   (loss_backward unset_improvement violated_entry.2.1.2
      violated_entry_world).2).
Proof.
  split; [reflexivity|]. split; [reflexivity|].
  destruct (line_search_needs_min_improvement (system := violated_system)
              unit stub_LineSearchGD stub_LineSearchAdam
              (stub_line_search_step violated_positivity zero_objective)
              unset_improvement 0 violated_world eq_refl
              (or_introl eq_refl)) as [_ Hentry].
  exact (Hentry violated_entry.1 violated_entry.2 violated_entry_world
           unset_improvement_entry).
Defined.

Lemma three_iterations_entry :
  line_search_entry (system := violated_system) three_iterations 0
    violated_world = (Ok violated_entry, violated_entry_world).
Proof. vm_compute. reflexivity. Qed.

(** "Adam", the name [__init__] sets, with three iterations. *)
Lemma line_search_optimizer_is_unbound_witness :
  optimizer three_iterations <> "GD"%string /\
  optimizer three_iterations <> "LineSearchAdam"%string /\
  train_with_line_search (system := violated_system) unit stub_LineSearchGD
    stub_LineSearchAdam
    (stub_line_search_step violated_positivity zero_objective)
    three_iterations 0 violated_world =
  (Raise NameError,
   (loss_backward three_iterations violated_entry.2.1.2
      violated_entry_world).2).
Proof.
  assert (optimizer three_iterations <> "GD"%string) as Hgd
    by (vm_compute; discriminate).
  assert (optimizer three_iterations <> "LineSearchAdam"%string) as Hadam
    by (vm_compute; discriminate).
  split; [exact Hgd|]. split; [exact Hadam|].
  exact (line_search_optimizer_is_unbound (system := violated_system)
           unit stub_LineSearchGD stub_LineSearchAdam
           (stub_line_search_step violated_positivity zero_objective)
           three_iterations 0 violated_world violated_entry_world
           violated_entry.1 violated_entry.2 Hgd Hadam
           three_iterations_entry).
Defined.

(** One iteration on a network that meets both conditions of [train]. *)
Definition one_iteration : TrainLyapunovReLU :=
  stub_config 1 NONE false 500 "GD" (Some 0%Q).

Definition satisfied_entry
  : ref * ref * ref * (LossTensor * LineSearchFrame) :=
  ltac:(computed_value
          (line_search_entry (system := satisfied_system) one_iteration 0
             satisfied_world)).

Definition satisfied_entry_world : @World satisfied_system :=
  ltac:(computed_world
          (line_search_entry (system := satisfied_system) one_iteration 0
             satisfied_world)).

Lemma one_iteration_entry :
  line_search_entry (system := satisfied_system) one_iteration 0
    satisfied_world = (Ok satisfied_entry, satisfied_entry_world).
Proof. vm_compute. reflexivity. Qed.

Lemma line_search_skips_the_test_at_the_first_evaluation_witness :
  max_iterations one_iteration = 1 /\
  is_Some (min_improvement one_iteration) /\
  converged one_iteration 1 0 = true /\
  train_with_line_search (system := satisfied_system) unit stub_LineSearchGD
    stub_LineSearchAdam
    (stub_line_search_step satisfied_positivity zero_objective)
    one_iteration 0 satisfied_world =
  (Ok false,
   (loss_backward one_iteration satisfied_entry.2.1.2
      satisfied_entry_world).2).
Proof.
  assert (is_Some (min_improvement one_iteration)) as Hsome
    by (exists 0%Q; reflexivity).
  split; [reflexivity|]. split; [exact Hsome|]. split; [reflexivity|].
  exact (line_search_skips_the_test_at_the_first_evaluation
           (system := satisfied_system) unit stub_LineSearchGD
           stub_LineSearchAdam
           (stub_line_search_step satisfied_positivity zero_objective)
           one_iteration 0 satisfied_world satisfied_entry_world
           satisfied_entry.1 satisfied_entry.2 eq_refl Hsome
           one_iteration_entry).
Defined.

(** No iteration at all. *)
Definition no_iteration : TrainLyapunovReLU :=
  stub_config 0 NONE false 500 "GD" (Some 0%Q).

Definition violated_pools : ref * ref * ref :=
  ltac:(computed_value
          (line_search_pools (system := violated_system) 0 violated_world)).

Definition violated_pools_world : @World violated_system :=
  ltac:(computed_world
          (line_search_pools (system := violated_system) 0 violated_world)).

Definition no_iteration_loss : TotalLossReturn :=
  ltac:(computed_value
          (total_loss (system := violated_system) no_iteration
             violated_pools.1.1 violated_pools.1.2 violated_pools.2
             None None None None (after_zero_grad violated_pools_world))).

Definition no_iteration_loss_world : @World violated_system :=
  ltac:(computed_world
          (total_loss (system := violated_system) no_iteration
             violated_pools.1.1 violated_pools.1.2 violated_pools.2
             None None None None (after_zero_grad violated_pools_world))).

Lemma violated_pools_returned :
  line_search_pools (system := violated_system) 0 violated_world =
  (Ok violated_pools, violated_pools_world).
Proof. vm_compute. reflexivity. Qed.

Lemma no_iteration_loss_returned :
  total_loss (system := violated_system) no_iteration violated_pools.1.1
    violated_pools.1.2 violated_pools.2 None None None None
    (after_zero_grad violated_pools_world) =
  (Ok no_iteration_loss, no_iteration_loss_world).
Proof. vm_compute. reflexivity. Qed.

Lemma line_search_needs_an_iteration_witness :
  max_iterations no_iteration = 0 /\
  train_with_line_search (system := violated_system) unit stub_LineSearchGD
    stub_LineSearchAdam
    (stub_line_search_step violated_positivity zero_objective)
    no_iteration 0 violated_world =
  (Raise IndexError, no_iteration_loss_world) /\
  solver_calls (trace no_iteration_loss_world) = 2.
Proof.
  split; [reflexivity|].
  destruct (line_search_needs_an_iteration (system := violated_system)
              unit stub_LineSearchGD stub_LineSearchAdam
              (stub_line_search_step violated_positivity zero_objective)
              no_iteration 0 violated_world eq_refl) as [_ Hraise].
  split; [|reflexivity].
  exact (Hraise violated_pools violated_pools_world no_iteration_loss
           no_iteration_loss_world violated_pools_returned
           no_iteration_loss_returned).
Defined.

(** ** Runs of [train_with_cost_to_go] *)

(** A network with one weight, the number of optimizer steps taken so far:
    its output is the weight times the first component of the state. *)
Definition counting_network : LyapunovHybridSystem := {|
  Params := nat;
  Grads := unit;
  OptState := unit;
  x_dim := 1;
  step_forward := fun x _ => map (Qmult (1 # 2)) x;
  Milp := Q;
  lyapunov_positivity_as_milp := fun _ _ _ _ => 0%Q;
  lyapunov_derivative_as_milp := fun _ _ _ _ => 0%Q;
  optimize := fun objective _ => stub_solved objective;
  relu_forward := fun th x => (inject_Z (Z.of_nat th) * hd 0 x)%Q;
  lyapunov_positivity_loss_at_samples :=
    fun _ _ _ samples _ _ _ => first_components samples;
  lyapunov_derivative_loss_at_samples_and_next_states :=
    fun _ _ _ samples samples_next _ _ =>
      (first_components samples + first_components samples_next)%Q;
  zero_grad := fun g => g;
  backward := fun _ _ _ g => g;
  project_gradient := fun _ _ _ _ g => g;
  adam_init := fun _ => tt;
  sgd_init := fun _ _ => tt;
  optimizer_step := fun o th _ => (S th, o)
|}.

Definition counting_backward
  : nat -> Tensor2 -> list Q -> Q -> State -> unit -> unit :=
  fun _ _ _ _ _ g => g.

Definition untrained : @World counting_network :=
  @mkWorld counting_network [] 0 tt [].

(** The cost-to-go is twice the state: the network fits it with weight 2. *)
Definition doubled_samples : list (State * Q) :=
  [([1%Q], 2%Q); ([2%Q], (4 # 1)%Q)].

Definition fitted : bool * Q :=
  ltac:(computed_value
          (ValueApproximator.train_with_cost_to_go
             (system := counting_network) counting_backward
             ValueApproximator.init doubled_samples 0 [0%Q] untrained)).

Definition fitted_world : @World counting_network :=
  ltac:(computed_world
          (ValueApproximator.train_with_cost_to_go
             (system := counting_network) counting_backward
             ValueApproximator.init doubled_samples 0 [0%Q] untrained)).

Lemma fitted_returned :
  ValueApproximator.train_with_cost_to_go (system := counting_network)
    counting_backward ValueApproximator.init doubled_samples 0 [0%Q]
    untrained = (Ok fitted, fitted_world).
Proof. vm_compute. reflexivity. Qed.

(** The fit is reached after two optimizer steps. *)
Lemma cost_to_go_result_witness :
  ValueApproximator.train_with_cost_to_go (system := counting_network)
    counting_backward ValueApproximator.init doubled_samples 0 [0%Q]
    untrained = (Ok fitted, fitted_world) /\
  fitted.1 = true /\
  theta fitted_world = (2 : @Params counting_network) /\
  exists t k,
    torch_stack (map fst doubled_samples) = Ok t /\
    optimizer_steps (trace fitted_world) =
      optimizer_steps (trace untrained) + k /\
    (0 <= fitted.2)%Q /\
    cost_to_go_outcome ValueApproximator.init t
      (map snd doubled_samples) 0 [0%Q] k fitted.1 fitted.2 fitted_world.
Proof.
  split; [exact fitted_returned|]. split; [reflexivity|].
  split; [reflexivity|].
  exact (cost_to_go_result (system := counting_network)
           counting_backward ValueApproximator.init doubled_samples 0 [0%Q]
           untrained fitted_world fitted.1 fitted.2 fitted_returned).
Defined.

Definition no_epoch : ValueApproximator.TrainValueApproximator := {|
  ValueApproximator.max_epochs := 0;
  ValueApproximator.convergence_tolerance := (1 # 1000)%Q;
  ValueApproximator.learning_rate := (2 # 100)%Q
|}.

Lemma no_epoch_leaves_loss_unbound_witness :
  ValueApproximator.max_epochs no_epoch = 0 /\
  torch_stack (map fst doubled_samples) = Ok (mkTensor2 1 [[1%Q]; [2%Q]]) /\
  ValueApproximator.train_with_cost_to_go (system := counting_network)
    counting_backward no_epoch doubled_samples 0 [0%Q] untrained =
  (Raise NameError, untrained).
Proof.
  split; [reflexivity|]. split; [reflexivity|].
  exact (no_epoch_leaves_loss_unbound
           (system := counting_network) counting_backward no_epoch
           doubled_samples 0 [0%Q] untrained (mkTensor2 1 [[1%Q]; [2%Q]])
           eq_refl eq_refl).
Defined.
